(** * Bootstrap reconciliation and network-config synthesis (CAPMOX)

    A shallow embedding of [internal/service/vmservice/bootstrap.go] and of
    the cloud-init network-config renderer it feeds, together with the
    properties of the bootstrap reconciler, the network-config assembler
    and the renderer.

    Go values are embedded as follows.
    - [string] is [string]; [[]byte] is [list byte]; [[]T] is [list T]
      (a nil slice and an empty slice are both [[]], the code only ever
      takes [len] of them);
    - [map[string]T] is [gmap string T]; indexing a missing key yields the
      zero value, written [default zero (m !! k)];
    - a pointer that is only tested against nil and dereferenced is an
      [option];
    - [(T, error)] is [result T]; a bare [error] is [option error];
    - the machine scope is mutated in place by the reconciler and read by
      the collaborators, so the scope and the trace of collaborator calls
      are threaded through a state monad. *)

From Stdlib.Strings Require Import Ascii Byte.
From stdpp Require Import gmap strings list fin_maps pretty.

(** ** Go runtime and library pieces *)

Module golang.

(** [error] values as built by [github.com/pkg/errors]. *)
Inductive error : Type :=
| errors_New (msg : string)
| errors_Wrap (cause : error) (msg : string).

(** [err.Error()]: a wrapped error prints its message, a colon and the cause. *)
Fixpoint Error (e : error) : string :=
  match e with
  | errors_New msg => msg
  | errors_Wrap cause msg => msg +:+ ": " +:+ Error cause
  end.

(** The pair [(T, error)] returned by a fallible function. *)
Inductive result (A : Type) : Type :=
| Ok (a : A)
| Err (e : error).
Arguments Ok {A} a.
Arguments Err {A} e.

(** [ptr.Deref(p, def)]. *)
Definition ptr_Deref {A : Type} (p : option A) (def : A) : A :=
  match p with
  | Some v => v
  | None => def
  end.

(** [ptr.To(v)]. *)
Definition ptr_To {A : Type} (v : A) : option A := Some v.

(** [before, after, found := strings.Cut(s, sep)] for a one-byte separator. *)
Fixpoint strings_Cut (s : string) (sep : ascii) : string * string * bool :=
  match s with
  | EmptyString => (EmptyString, EmptyString, false)
  | String c rest =>
      if bool_decide (c = sep) then (EmptyString, rest, true)
      else
        let '(before, after, found) := strings_Cut rest sep in
        (String c before, after, found)
  end.

(** [len(s) == 0] on strings. *)
Definition is_empty (s : string) : bool := bool_decide (s = EmptyString).

(** [fmt.Sprintf("%s-%s", a, b)]. *)
Definition Sprintf_s_dash_s (a b : string) : string := a +:+ "-" +:+ b.

End golang.
Export golang.

(** ** Package cloudinit: the data handed to the renderer *)

Module cloudinit.

(** [cloudinit.NetworkConfigData]: one network interface. *)
Record NetworkConfigData : Type := mkNetworkConfigData {
  MacAddress : string;
  IPAddress : string;
  IPV6Address : string;
  Gateway : string;
  Gateway6 : string;
  DNSServers : list string
}.

(** The zero value [cloudinit.NetworkConfigData{}]. *)
Definition zeroNetworkConfigData : NetworkConfigData :=
  mkNetworkConfigData "" "" "" "" "" [].

Definition set_IPV6Address (v : string) (c : NetworkConfigData) : NetworkConfigData :=
  mkNetworkConfigData (MacAddress c) (IPAddress c) v (Gateway c) (Gateway6 c) (DNSServers c).

Definition set_Gateway6 (v : string) (c : NetworkConfigData) : NetworkConfigData :=
  mkNetworkConfigData (MacAddress c) (IPAddress c) (IPV6Address c) (Gateway c) v (DNSServers c).

Definition set_DNSServers (v : list string) (c : NetworkConfigData) : NetworkConfigData :=
  mkNetworkConfigData (MacAddress c) (IPAddress c) (IPV6Address c) (Gateway c) (Gateway6 c) v.

(** [cloudinit.NewNetworkConfig(configs)]: the renderer object built by
    the reconciler and rendered by the injector. *)
Record NetworkConfig : Type := NewNetworkConfig {
  NetworkConfig_data : list NetworkConfigData
}.

(** [cloudinit.NewMetadata(instanceID, hostname)]. *)
Record Metadata : Type := NewMetadata {
  InstanceID : string;
  Hostname : string
}.

(** *** The renderer ([network.go], known through [network_test.go]) *)

(** Modelled from the spec: the sentinel errors of the renderer, declared
    in [network.go]; the names are those [network_test.go] expects. *)
Inductive RenderError : Type :=
| ErrMissingNetworkConfigData
| ErrMissingMacAddress
| ErrMissingIPAddress
| ErrMalformedIPAddress
| ErrMissingGateway.

Definition is_digit (c : ascii) : bool :=
  let n := nat_of_ascii c in
  (48 <=? n) && (n <=? 57).

Fixpoint all_digits (s : string) : bool :=
  match s with
  | EmptyString => true
  | String c rest => is_digit c && all_digits rest
  end.

(** Modelled from the spec: CIDR form of [network.go]'s address check, an
    address string with an explicit prefix-length suffix,
    [address/length]. *)
Definition hasPrefixLength (s : string) : bool :=
  let '(address, len, found) := strings_Cut s "/" in
  found && negb (is_empty address) && negb (is_empty len) && all_digits len.

(** Modelled from the spec: the check of one address family in
    [network.go]'s validation; an absent address passes, a present one
    must be in CIDR form and come with its gateway. *)
Definition validateFamily (address gateway : string) : option RenderError :=
  if is_empty address then None
  else if negb (hasPrefixLength address) then Some ErrMalformedIPAddress
  else if is_empty gateway then Some ErrMissingGateway
  else None.

(** Modelled from the spec: the validation of one device in [network.go];
    the MAC check comes first, then the address-family checks, and the
    first violated rule is the answer. *)
Definition validateDevice (d : NetworkConfigData) : option RenderError :=
  if is_empty (MacAddress d) then Some ErrMissingMacAddress
  else if is_empty (IPAddress d) && is_empty (IPV6Address d) then Some ErrMissingIPAddress
  else
    match validateFamily (IPAddress d) (Gateway d) with
    | Some e => Some e
    | None => validateFamily (IPV6Address d) (Gateway6 d)
    end.

(** Modelled from the spec: the devices are validated in order, the first
    failure ends [network.go]'s validation. *)
Fixpoint validateDevices (ds : list NetworkConfigData) : option RenderError :=
  match ds with
  | [] => None
  | d :: rest =>
      match validateDevice d with
      | Some e => Some e
      | None => validateDevices rest
      end
  end.

(** Modelled from the spec: [network.go]'s [validate], an empty device
    list is an error of its own. *)
Definition validate (r : NetworkConfig) : option RenderError :=
  match NetworkConfig_data r with
  | [] => Some ErrMissingNetworkConfigData
  | ds => validateDevices ds
  end.

(** The line feed. *)
Definition LF : string := String (ascii_of_nat 10) EmptyString.

(** The lines of a document, joined by line feeds, none after the last. *)
Fixpoint unlines (ls : list string) : string :=
  match ls with
  | [] => EmptyString
  | [l] => l
  | l :: rest => l +:+ LF +:+ unlines rest
  end.

(** Modelled from the spec: the fixed base name of [network.go]'s
    template with the position of the device, [eth0], [eth1], ... *)
Definition interfaceName (index : nat) : string := "eth" +:+ pretty index.

(** Modelled from the spec: the entry [network.go]'s template emits for
    one device, as lines: automatic address assignment is disabled with
    the quoted literal, one address and one default route per configured
    family with IPv4 first, and the nameserver block only when there are
    DNS servers. *)
Definition renderDevice (index : nat) (d : NetworkConfigData) : list string :=
  [ "    " +:+ interfaceName index +:+ ":";
    "      match:";
    "        macaddress: " +:+ MacAddress d;
    "      dhcp4: 'no'";
    "      addresses:" ]
  ++ (if is_empty (IPAddress d) then [] else ["        - " +:+ IPAddress d])
  ++ (if is_empty (IPV6Address d) then [] else ["        - " +:+ IPV6Address d])
  ++ ["      routes:"]
  ++ (if is_empty (IPAddress d) then []
      else ["        - to: default"; "          via: " +:+ Gateway d])
  ++ (if is_empty (IPV6Address d) then []
      else ["        - to: default"; "          via: " +:+ Gateway6 d])
  ++ (match DNSServers d with
      | [] => []
      | dns => ["      nameservers:"; "        addresses:"]
               ++ map (fun a => "          - " +:+ a) dns
      end).

(** Modelled from the spec: the entries of all devices, named by position. *)
Fixpoint renderDevices (index : nat) (ds : list NetworkConfigData) : list string :=
  match ds with
  | [] => []
  | d :: rest => renderDevice index d ++ renderDevices (S index) rest
  end.

(** Modelled from the spec: [network.go]'s [Render], validation first,
    then the document under the fixed top-level schema. *)
Definition Render (r : NetworkConfig) : RenderError + string :=
  match validate r with
  | Some e => inl e
  | None =>
      inr (unlines
             ([ "network:"; "  version: 2"; "  renderer: networkd"; "  ethernets:" ]
              ++ renderDevices 0 (NetworkConfig_data r)))
  end.

(** *** The documents [network_test.go] expects *)



Definition expectedValidNetworkConfigMultipleNics : string :=
  unlines
    [ "network:";
      "  version: 2";
      "  renderer: networkd";
      "  ethernets:";
      "    eth0:";
      "      match:";
      "        macaddress: 92:60:a0:5b:22:c2";
      "      dhcp4: 'no'";
      "      addresses:";
      "        - 10.10.10.12/24";
      "      routes:";
      "        - to: default";
      "          via: 10.10.10.1";
      "      nameservers:";
      "        addresses:";
      "          - 8.8.8.8";
      "          - 8.8.4.4";
      "    eth1:";
      "      match:";
      "        macaddress: b4:87:18:bf:a3:60";
      "      dhcp4: 'no'";
      "      addresses:";
      "        - 196.168.100.124/24";
      "      routes:";
      "        - to: default";
      "          via: 196.168.100.254";
      "      nameservers:";
      "        addresses:";
      "          - 8.8.8.8";
      "          - 8.8.4.4" ].

Definition expectedValidNetworkConfigDualStack : string :=
  unlines
    [ "network:";
      "  version: 2";
      "  renderer: networkd";
      "  ethernets:";
      "    eth0:";
      "      match:";
      "        macaddress: 92:60:a0:5b:22:c2";
      "      dhcp4: 'no'";
      "      addresses:";
      "        - 10.10.10.12/24";
      "        - 2001:db8::1/64";
      "      routes:";
      "        - to: default";
      "          via: 10.10.10.1";
      "        - to: default";
      "          via: 2001:db8::1";
      "      nameservers:";
      "        addresses:";
      "          - 8.8.8.8";
      "          - 8.8.4.4" ].

Definition expectedValidNetworkConfigIPV6 : string :=
  unlines
    [ "network:";
      "  version: 2";
      "  renderer: networkd";
      "  ethernets:";
      "    eth0:";
      "      match:";
      "        macaddress: 92:60:a0:5b:22:c2";
      "      dhcp4: 'no'";
      "      addresses:";
      "        - 2001:db8::1/64";
      "      routes:";
      "        - to: default";
      "          via: 2001:db8::1";
      "      nameservers:";
      "        addresses:";
      "          - 8.8.8.8";
      "          - 8.8.4.4" ].

(** The inputs of the cases of [TestNetworkConfig_Render]. *)
Definition case_ValidNetworkConfig : list NetworkConfigData :=
  [ mkNetworkConfigData "92:60:a0:5b:22:c2" "10.10.10.12/24" "" "10.10.10.1" ""
      ["8.8.8.8"; "8.8.4.4"] ].

Definition case_InvalidNetworkConfigIp : list NetworkConfigData :=
  [ mkNetworkConfigData "92:60:a0:5b:22:c2" "" "" "10.10.10.1" "" ["8.8.8.8"; "8.8.4.4"] ].

Definition case_InvalidNetworkConfigMalformedIp : list NetworkConfigData :=
  [ mkNetworkConfigData "92:60:a0:5b:22:c2" "10.10.10.12" "" "10.10.10.1" ""
      ["8.8.8.8"; "8.8.4.4"] ].

Definition case_InvalidNetworkConfigMalformedIP : list NetworkConfigData :=
  [ mkNetworkConfigData "92:60:a0:5b:22:c2" "10.10.10.115" "" "10.10.10.1" ""
      ["8.8.8.8"; "8.8.4.4"] ].

Definition case_InvalidNetworkConfigGW : list NetworkConfigData :=
  [ mkNetworkConfigData "92:60:a0:5b:22:c2" "10.10.10.12/24" "" "" "" ["8.8.8.8"; "8.8.4.4"] ].

Definition case_InvalidNetworkConfigMacAddress : list NetworkConfigData :=
  [ mkNetworkConfigData "" "10.10.10.11/24" "" "10.10.10.1" "" ["8.8.8.8"; "8.8.4.4"] ].

Definition case_ValidNetworkConfigWithoutDNS : list NetworkConfigData :=
  [ mkNetworkConfigData "92:60:a0:5b:22:c2" "10.10.10.12/24" "" "10.10.10.1" "" [] ].

Definition case_ValidNetworkConfigMultipleNics : list NetworkConfigData :=
  [ mkNetworkConfigData "92:60:a0:5b:22:c2" "10.10.10.12/24" "" "10.10.10.1" ""
      ["8.8.8.8"; "8.8.4.4"];
    mkNetworkConfigData "b4:87:18:bf:a3:60" "196.168.100.124/24" "" "196.168.100.254" ""
      ["8.8.8.8"; "8.8.4.4"] ].

Definition case_ValidNetworkConfigDualStack : list NetworkConfigData :=
  [ mkNetworkConfigData "92:60:a0:5b:22:c2" "10.10.10.12/24" "2001:db8::1/64" "10.10.10.1"
      "2001:db8::1" ["8.8.8.8"; "8.8.4.4"] ].

Definition case_ValidNetworkConfigIPV6 : list NetworkConfigData :=
  [ mkNetworkConfigData "92:60:a0:5b:22:c2" "" "2001:db8::1/64" "" "2001:db8::1"
      ["8.8.8.8"; "8.8.4.4"] ].

End cloudinit.

(** ** External API types, as far as the reconciler reads or writes them *)

(** [sigs.k8s.io/cluster-api/api/v1beta1]. *)
Module clusterv1.

Inductive ConditionSeverity : Type :=
| ConditionSeverityError
| ConditionSeverityWarning
| ConditionSeverityInfo
| ConditionSeverityNone.

Inductive ConditionStatus : Type :=
| ConditionTrue
| ConditionFalse
| ConditionUnknown.

(** A condition record; the transition time is left out. *)
Record Condition : Type := mkCondition {
  Type_ : string;
  Status : ConditionStatus;
  Severity : ConditionSeverity;
  Reason : string;
  Message : string
}.

End clusterv1.

(** [sigs.k8s.io/cluster-api/exp/ipam]: the spec of an allocated address. *)
Module ipamv1.

Record IPAddress : Type := mkIPAddress {
  Address : string;
  Prefix : Z;
  Gateway : string
}.

End ipamv1.

(** [api/v1alpha1]. *)
Module infrav1alpha1.

(** An entry of [NetworkSpec.AdditionalDevices]; a pool reference is only
    tested against nil. *)
Record AdditionalNetworkDevice : Type := mkAdditionalNetworkDevice {
  Device_Name : string;
  IPv4PoolRef : option string;
  IPv6PoolRef : option string;
  Device_DNSServers : list string
}.

Record NetworkSpec : Type := mkNetworkSpec {
  AdditionalDevices : list AdditionalNetworkDevice
}.

(** The zero value [infrav1alpha1.NetworkSpec{}]. *)
Definition zeroNetworkSpec : NetworkSpec := mkNetworkSpec [].

Record IPAddress : Type := mkIPAddress {
  IPV4 : string;
  IPV6 : string
}.

Record ProxmoxMachineSpec : Type := mkProxmoxMachineSpec {
  Network : option NetworkSpec
}.

Record ProxmoxMachineStatus : Type := mkProxmoxMachineStatus {
  BootstrapDataProvided : option bool;
  IPAddresses : gmap string IPAddress;
  Conditions : list clusterv1.Condition
}.

Record ProxmoxMachine : Type := mkProxmoxMachine {
  Spec : ProxmoxMachineSpec;
  Status : ProxmoxMachineStatus
}.

(** [func (r *ProxmoxMachine) GetConditions()]. *)
Definition GetConditions (r : ProxmoxMachine) : list clusterv1.Condition :=
  Conditions (Status r).

(** [func (r *ProxmoxMachine) SetConditions(conditions)]. *)
Definition SetConditions (conditions : list clusterv1.Condition) (r : ProxmoxMachine) : ProxmoxMachine :=
  mkProxmoxMachine (Spec r)
    (mkProxmoxMachineStatus (BootstrapDataProvided (Status r)) (IPAddresses (Status r)) conditions).

(** The assignment [r.Status.BootstrapDataProvided = v]. *)
Definition set_BootstrapDataProvided (v : option bool) (r : ProxmoxMachine) : ProxmoxMachine :=
  mkProxmoxMachine (Spec r)
    (mkProxmoxMachineStatus v (IPAddresses (Status r)) (Conditions (Status r))).

(** [ProxmoxClusterSpec], the fields the assembler reads; a pool
    configuration is only tested against nil. *)
Record ProxmoxClusterSpec : Type := mkProxmoxClusterSpec {
  IPv4Config : option (list string);
  IPv6Config : option (list string);
  DNSServers : list string
}.

End infrav1alpha1.

(** [github.com/luthermonson/go-proxmox]. *)
Module proxmox.

(** The VM configuration: the SMBIOS line and the table [MergeNets()]
    returns, device name to configuration line. *)
Record VirtualMachineConfig : Type := mkVirtualMachineConfig {
  SMBios1 : string;
  MergeNets : gmap string string
}.

Record VirtualMachine : Type := mkVirtualMachine {
  VirtualMachineConfig_ : VirtualMachineConfig
}.

End proxmox.

(** [pkg/scope]. *)
Module scope.

Record MachineScope : Type := mkMachineScope {
  (** [machineScope.Name()] *)
  Name : string;
  (** [machineScope.Machine.Spec.Bootstrap.DataSecretName] *)
  DataSecretName : option string;
  ProxmoxMachine : infrav1alpha1.ProxmoxMachine;
  (** [machineScope.InfraCluster.ProxmoxCluster.Spec] *)
  ProxmoxCluster_Spec : infrav1alpha1.ProxmoxClusterSpec;
  VirtualMachine : proxmox.VirtualMachine
}.

Definition set_ProxmoxMachine (m : infrav1alpha1.ProxmoxMachine) (s : MachineScope) : MachineScope :=
  mkMachineScope (Name s) (DataSecretName s) m (ProxmoxCluster_Spec s) (VirtualMachine s).

End scope.

(** ** Package vmservice: [bootstrap.go] *)

Module vmservice.

(** Helpers and constants of the repository that [bootstrap.go] uses and
    that live in other files of the packages [vmservice] and
    [infrav1alpha1]; they are taken as parameters. *)
Class Helpers : Type := {
  (** [extractMACAddress(input string) string]: the MAC found in a
      device configuration line, the empty string when there is none. *)
  extractMACAddress : string -> string;
  (** [extractUUID(input string) string]. *)
  extractUUID : string -> string;
  (** [IPAddressWithPrefix(ip string, prefix int) string]. *)
  IPAddressWithPrefix : string -> Z -> string;
  (** [machineHasIPAddress(machine) bool]. *)
  machineHasIPAddress : infrav1alpha1.ProxmoxMachine -> bool;
  DefaultNetworkDeviceIPV4 : string;
  DefaultNetworkDeviceIPV6 : string;
  (** [infrav1alpha1.DefaultSuffix]. *)
  DefaultSuffix : string;
  (** [infrav1alpha1.VMProvisionedCondition]. *)
  VMProvisionedCondition : string;
  (** [infrav1alpha1.WaitingForStaticIPAllocationReason]. *)
  WaitingForStaticIPAllocationReason : string;
  (** [infrav1alpha1.CloningFailedReason]. *)
  CloningFailedReason : string;
  (** [infrav1alpha1.VMProvisionFailedReason]. *)
  VMProvisionFailedReason : string
}.

(** The external collaborators and library functions: what each answers
    when called. *)
Class Collaborators : Type := {
  (** [fmt.Sprintf(format)] without further arguments, as
      [conditions.FalseCondition] applies it to its message. *)
  fmt_Sprintf : string -> string;
  (** [conditions.Set]: the condition list after one condition is set. *)
  conditions_Set :
    clusterv1.Condition -> list clusterv1.Condition -> list clusterv1.Condition;
  (** [scope.GetBootstrapSecret(ctx, secret)]: the [Data] of the secret. *)
  GetBootstrapSecret : scope.MachineScope -> result (gmap string (list byte));
  (** [findIPAddress(ctx, machineScope, device)]. *)
  findIPAddress : scope.MachineScope -> string -> result ipamv1.IPAddress;
  (** [getISOInjector(vm, bootstrapData, metadata, network).Inject(ctx)]. *)
  Inject :
    proxmox.VirtualMachine -> list byte -> cloudinit.Metadata -> cloudinit.NetworkConfig ->
    option error
}.

(** A call that leaves the process. *)
Inductive Call : Type :=
| CallLoggerInfo (msg : string)
| CallLoggerError (msg : string)
| CallGetBootstrapSecret
| CallFindIPAddress (device : string)
| CallInject (bootstrapData : list byte) (metadata : cloudinit.Metadata)
    (network : cloudinit.NetworkConfig).

(** The state one pass runs in: the machine scope, mutated in place, and
    the calls made so far, oldest first. *)
Record World : Type := mkWorld {
  machineScope : scope.MachineScope;
  calls : list Call
}.

(** What the properties below observe of a state. *)
Definition bootstrapDataProvided (w : World) : option bool :=
  infrav1alpha1.BootstrapDataProvided
    (infrav1alpha1.Status (scope.ProxmoxMachine (machineScope w))).

(** The idempotency guard as the reconciler reads it. *)
Definition guard (w : World) : bool := ptr_Deref (bootstrapDataProvided w) false.

Definition conditionsOf (w : World) : list clusterv1.Condition :=
  infrav1alpha1.GetConditions (scope.ProxmoxMachine (machineScope w)).

Definition netsOf (w : World) : gmap string string :=
  proxmox.MergeNets (proxmox.VirtualMachineConfig_ (scope.VirtualMachine (machineScope w))).

Definition clusterSpecOf (w : World) : infrav1alpha1.ProxmoxClusterSpec :=
  scope.ProxmoxCluster_Spec (machineScope w).

(** *** The state monad *)

Definition M (A : Type) : Type := World -> A * World.

#[global] Instance M_ret : MRet M := fun A a w => (a, w).

#[global] Instance M_bind : MBind M :=
  fun A B k m w => let (a, w') := m w in k a w'.

Definition get_scope : M scope.MachineScope := fun w => (machineScope w, w).

Definition modify_machine (f : infrav1alpha1.ProxmoxMachine -> infrav1alpha1.ProxmoxMachine) : M unit :=
  fun w =>
    (tt, mkWorld (scope.set_ProxmoxMachine (f (scope.ProxmoxMachine (machineScope w))) (machineScope w))
           (calls w)).

Definition record (c : Call) : M unit :=
  fun w => (tt, mkWorld (machineScope w) (calls w ++ [c])).

Section Bootstrap.

Context `{Helpers} `{Collaborators}.

(** [conditions.FalseCondition(t, reason, severity, messageFormat)]. *)
Definition FalseCondition (t reason : string) (severity : clusterv1.ConditionSeverity)
    (messageFormat : string) : clusterv1.Condition :=
  clusterv1.mkCondition t clusterv1.ConditionFalse severity reason (fmt_Sprintf messageFormat).

(** [conditions.MarkFalse(machineScope.ProxmoxMachine, t, reason, severity, message)]. *)
Definition conditions_MarkFalse (t reason : string) (severity : clusterv1.ConditionSeverity)
    (message : string) : M unit :=
  modify_machine (fun to =>
    infrav1alpha1.SetConditions
      (conditions_Set (FalseCondition t reason severity message) (infrav1alpha1.GetConditions to))
      to).

(** The three collaborators, called through the monad so that the call is
    recorded. *)
Definition call_GetBootstrapSecret : M (result (gmap string (list byte))) :=
  s ← get_scope;
  record CallGetBootstrapSecret;;
  mret (GetBootstrapSecret s).

Definition call_findIPAddress (device : string) : M (result ipamv1.IPAddress) :=
  s ← get_scope;
  record (CallFindIPAddress device);;
  mret (findIPAddress s device).

Definition call_Inject (vm : proxmox.VirtualMachine) (bootstrapData : list byte)
    (metadata : cloudinit.Metadata) (network : cloudinit.NetworkConfig) : M (option error) :=
  record (CallInject bootstrapData metadata network);;
  mret (Inject vm bootstrapData metadata network).

(** [getBootstrapData]. *)
Definition getBootstrapData : M (result (list byte)) :=
  s ← get_scope;
  match scope.DataSecretName s with
  | None =>
      record (CallLoggerInfo "machine has no bootstrap data.");;
      mret (Err (errors_New "machine has no bootstrap data"))
  | Some _ =>
      r ← call_GetBootstrapSecret;
      match r with
      | Err err => mret (Err (errors_Wrap err "failed to retrieve bootstrap data secret"))
      | Ok secret_Data =>
          match secret_Data !! "value" with
          | None =>
              mret (Err (errors_New
                     "error retrieving bootstrap data: secret `value` key is missing"))
          | Some value => mret (Ok value)
          end
      end
  end.

(** [getNetworkConfigDataForDevice]. *)
Definition getNetworkConfigDataForDevice (device : string) : M (result cloudinit.NetworkConfigData) :=
  s ← get_scope;
  let nets := proxmox.MergeNets (proxmox.VirtualMachineConfig_ (scope.VirtualMachine s)) in
  let '(formattedDevice, _, _) := strings_Cut device "-" in
  let macAddress := extractMACAddress (default "" (nets !! formattedDevice)) in
  if is_empty macAddress then
    record (CallLoggerError "device has no mac address");;
    mret (Err (errors_New "unable to extract mac address"))
  else
    r ← call_findIPAddress device;
    match r with
    | Err err => mret (Err (errors_Wrap err ("unable to find IPAddress, device=" +:+ device)))
    | Ok ipAddr =>
        let dns := infrav1alpha1.DNSServers (scope.ProxmoxCluster_Spec s) in
        let ip := IPAddressWithPrefix (ipamv1.Address ipAddr) (ipamv1.Prefix ipAddr) in
        let gw := ipamv1.Gateway ipAddr in
        mret (Ok (cloudinit.mkNetworkConfigData macAddress ip "" gw "" dns))
    end.

(** [getDefaultNetworkDevice]. *)
Definition getDefaultNetworkDevice : M (result (list cloudinit.NetworkConfigData)) :=
  s ← get_scope;
  let config := cloudinit.zeroNetworkConfigData in
  (* default network device ipv4. *)
  r4 ← match infrav1alpha1.IPv4Config (scope.ProxmoxCluster_Spec s) with
       | Some _ =>
           r ← getNetworkConfigDataForDevice DefaultNetworkDeviceIPV4;
           match r with
           | Err err =>
               mret (Err (errors_Wrap err
                       ("unable to get network config data for device=" +:+ DefaultNetworkDeviceIPV4)))
           | Ok conf => mret (Ok conf)
           end
       | None => mret (Ok config)
       end;
  match r4 with
  | Err err => mret (Err err)
  | Ok config =>
      (* default network device ipv6. *)
      match infrav1alpha1.IPv6Config (scope.ProxmoxCluster_Spec s) with
      | Some _ =>
          r ← getNetworkConfigDataForDevice DefaultNetworkDeviceIPV6;
          match r with
          | Err err =>
              mret (Err (errors_Wrap err
                      ("unable to get network config data for device=" +:+ DefaultNetworkDeviceIPV6)))
          | Ok conf =>
              if is_empty (cloudinit.MacAddress config) then
                mret (Ok [conf])
              else if negb (bool_decide (cloudinit.MacAddress config = cloudinit.MacAddress conf)) then
                mret (Err (errors_New
                       "default network device ipv4 and ipv6 have different mac addresses"))
              else
                let config := cloudinit.set_IPV6Address (cloudinit.IPAddress conf) config in
                let config := cloudinit.set_Gateway6 (cloudinit.Gateway conf) config in
                mret (Ok [config])
          end
      | None => mret (Ok [config])
      end
  end.

(** The body of the loop of [getAdditionalNetworkDevices] for one device
    [nic]: the record [*config] at the end of the iteration, or the error
    the function returns with. *)
Definition additionalNetworkDevice (nic : infrav1alpha1.AdditionalNetworkDevice) :
    M (result cloudinit.NetworkConfigData) :=
  let config := cloudinit.zeroNetworkConfigData in
  r4 ← match infrav1alpha1.IPv4PoolRef nic with
       | Some _ =>
           let device := Sprintf_s_dash_s (infrav1alpha1.Device_Name nic) DefaultSuffix in
           r ← getNetworkConfigDataForDevice device;
           match r with
           | Err err =>
               mret (Err (errors_Wrap err
                       ("unable to get network config data for device=" +:+ device)))
           | Ok conf =>
               (* [config.DNSServers = nic.DNSServers] writes to the record
                  [config] points to, then [config = conf] drops that record. *)
               let config :=
                 if negb (bool_decide (length (infrav1alpha1.Device_DNSServers nic) = 0))
                 then cloudinit.set_DNSServers (infrav1alpha1.Device_DNSServers nic) config
                 else config in
               let config := conf in
               mret (Ok config)
           end
       | None => mret (Ok config)
       end;
  match r4 with
  | Err err => mret (Err err)
  | Ok config =>
      match infrav1alpha1.IPv6PoolRef nic with
      | Some _ =>
          let suffix := DefaultSuffix +:+ "6" in
          let device := Sprintf_s_dash_s (infrav1alpha1.Device_Name nic) suffix in
          r ← getNetworkConfigDataForDevice device;
          match r with
          | Err err =>
              mret (Err (errors_Wrap err
                      ("unable to get network config data for device=" +:+ device)))
          | Ok conf =>
              let config :=
                if negb (bool_decide (length (infrav1alpha1.Device_DNSServers nic) = 0))
                then cloudinit.set_DNSServers (infrav1alpha1.Device_DNSServers nic) config
                else config in
              if is_empty (cloudinit.MacAddress config) then
                mret (Ok conf)
              else if negb (bool_decide (cloudinit.MacAddress config = cloudinit.MacAddress conf)) then
                mret (Err (errors_New
                       "additional network device ipv4 and ipv6 have different mac addresses"))
              else
                let config := cloudinit.set_IPV6Address (cloudinit.IPAddress conf) config in
                let config := cloudinit.set_Gateway6 (cloudinit.Gateway conf) config in
                mret (Ok config)
          end
      | None => mret (Ok config)
      end
  end.

(** The loop of [getAdditionalNetworkDevices] over the devices still to
    visit, [networkConfigData] being the slice built so far. *)
Fixpoint additionalNetworkDevices_loop (nics : list infrav1alpha1.AdditionalNetworkDevice)
    (networkConfigData : list cloudinit.NetworkConfigData) :
    M (result (list cloudinit.NetworkConfigData)) :=
  match nics with
  | [] => mret (Ok networkConfigData)
  | nic :: rest =>
      r ← additionalNetworkDevice nic;
      match r with
      | Err err => mret (Err err)
      | Ok config =>
          if negb (is_empty (cloudinit.MacAddress config)) then
            additionalNetworkDevices_loop rest (networkConfigData ++ [config])
          else
            additionalNetworkDevices_loop rest networkConfigData
      end
  end.

(** [getAdditionalNetworkDevices]. *)
Definition getAdditionalNetworkDevices (network : infrav1alpha1.NetworkSpec) :
    M (result (list cloudinit.NetworkConfigData)) :=
  additionalNetworkDevices_loop (infrav1alpha1.AdditionalDevices network) [].

(** [getNetworkConfigData]. *)
Definition getNetworkConfigData : M (result (list cloudinit.NetworkConfigData)) :=
  s ← get_scope;
  (* provide a default in case network is not defined *)
  let network :=
    ptr_Deref (infrav1alpha1.Network (infrav1alpha1.Spec (scope.ProxmoxMachine s)))
      infrav1alpha1.zeroNetworkSpec in
  let networkConfigData : list cloudinit.NetworkConfigData := [] in
  r ← getDefaultNetworkDevice;
  match r with
  | Err err => mret (Err err)
  | Ok defaultConfig =>
      let networkConfigData := networkConfigData ++ defaultConfig in
      r ← getAdditionalNetworkDevices network;
      match r with
      | Err err => mret (Err err)
      | Ok additionalConfig =>
          let networkConfigData := networkConfigData ++ additionalConfig in
          mret (Ok networkConfigData)
      end
  end.

(** [vmHasMacAddresses]: the early [return false] inside the range loop
    makes the result independent of the iteration order of the map. *)
Definition vmHasMacAddresses (s : scope.MachineScope) : bool :=
  let nets := proxmox.MergeNets (proxmox.VirtualMachineConfig_ (scope.VirtualMachine s)) in
  if bool_decide (size nets = 0) then false
  else
    forallb
      (fun d => negb (bool_decide (extractMACAddress (default "" (nets !! d)) = "")))
      (map_to_list nets).*1.

(** [reconcileBootstrapData]: the pair [(requeue, err)]. *)
Definition reconcileBootstrapData : M (bool * option error) :=
  s ← get_scope;
  if ptr_Deref (infrav1alpha1.BootstrapDataProvided (infrav1alpha1.Status (scope.ProxmoxMachine s))) false
  then
    (* skip machine already have the bootstrap data. *)
    mret (false, None)
  else if negb (machineHasIPAddress (scope.ProxmoxMachine s)) then
    (* skip machine doesn't have an IpAddress yet. *)
    conditions_MarkFalse VMProvisionedCondition WaitingForStaticIPAllocationReason
      clusterv1.ConditionSeverityWarning "no ip address";;
    mret (true, None)
  else if negb (vmHasMacAddresses s) then
    (* make sure MacAddress is set. *)
    mret (true, None)
  else
    record (CallLoggerInfo "reconciling BootstrapData.");;
    (* Get the bootstrap data. *)
    r ← getBootstrapData;
    match r with
    | Err err =>
        conditions_MarkFalse VMProvisionedCondition CloningFailedReason
          clusterv1.ConditionSeverityWarning (Error err);;
        mret (false, Some err)
    | Ok bootstrapData =>
        let biosUUID :=
          extractUUID (proxmox.SMBios1 (proxmox.VirtualMachineConfig_ (scope.VirtualMachine s))) in
        r ← getNetworkConfigData;
        match r with
        | Err err =>
            conditions_MarkFalse VMProvisionedCondition WaitingForStaticIPAllocationReason
              clusterv1.ConditionSeverityWarning (Error err);;
            mret (false, Some err)
        | Ok nicData =>
            (* create network renderer *)
            let network := cloudinit.NewNetworkConfig nicData in
            (* create metadata renderer *)
            let metadata := cloudinit.NewMetadata biosUUID (scope.Name s) in
            r ← call_Inject (scope.VirtualMachine s) bootstrapData metadata network;
            match r with
            | Some err =>
                conditions_MarkFalse VMProvisionedCondition VMProvisionFailedReason
                  clusterv1.ConditionSeverityWarning (Error err);;
                mret (false, Some (errors_Wrap err "cloud-init iso inject failed"))
            | None =>
                modify_machine (infrav1alpha1.set_BootstrapDataProvided (ptr_To true));;
                mret (false, None)
            end
        end
    end.

(** [n] passes of the reconciler in a row, as the control loop makes
    them; the outcomes are listed oldest first. *)
Fixpoint reconcile_passes (n : nat) : M (list (bool * option error)) :=
  match n with
  | 0 => mret []
  | S n' =>
      r ← reconcileBootstrapData;
      rs ← reconcile_passes n';
      mret (r :: rs)
  end.

End Bootstrap.

End vmservice.


(** ** Concrete helpers, collaborators and machines *)

Module Samples.

Import vmservice.

(** A MAC extractor for configuration lines of the form
    [model=MAC,option=...]: the text between the first [=] and the
    following comma. *)
Definition sample_extractMACAddress (line : string) : string :=
  let '(_, after, _) := strings_Cut line "=" in
  let '(mac, _, _) := strings_Cut after "," in
  mac.

Definition sample_extractUUID (smbios1 : string) : string :=
  let '(_, after, _) := strings_Cut smbios1 "=" in
  after.

Definition sample_IPAddressWithPrefix (ip : string) (prefix : Z) : string :=
  if is_empty ip then "" else ip +:+ "/" +:+ pretty prefix.

Definition sample_machineHasIPAddress (m : infrav1alpha1.ProxmoxMachine) : bool :=
  match infrav1alpha1.IPAddresses (infrav1alpha1.Status m) !! "net0" with
  | Some a =>
      negb (is_empty (infrav1alpha1.IPV4 a) && is_empty (infrav1alpha1.IPV6 a))
  | None => false
  end.

#[export] Instance sampleHelpers : Helpers := {|
  extractMACAddress := sample_extractMACAddress;
  extractUUID := sample_extractUUID;
  IPAddressWithPrefix := sample_IPAddressWithPrefix;
  machineHasIPAddress := sample_machineHasIPAddress;
  DefaultNetworkDeviceIPV4 := "net0-inet";
  DefaultNetworkDeviceIPV6 := "net0-inet6";
  DefaultSuffix := "inet";
  VMProvisionedCondition := "VMProvisioned";
  WaitingForStaticIPAllocationReason := "WaitingForStaticIPAllocation";
  CloningFailedReason := "CloningFailed";
  VMProvisionFailedReason := "VMProvisionFailed"
|}.

(** Setting a condition replaces the one of the same type, or appends. *)
Fixpoint sample_conditions_Set (c : clusterv1.Condition) (cs : list clusterv1.Condition) :
    list clusterv1.Condition :=
  match cs with
  | [] => [c]
  | c' :: rest =>
      if bool_decide (clusterv1.Type_ c' = clusterv1.Type_ c) then c :: rest
      else c' :: sample_conditions_Set c rest
  end.

(** The address objects of the sample cluster, by device name. *)
Definition sample_findIPAddress (device : string) : result ipamv1.IPAddress :=
  if bool_decide (device = "net0-inet") then
    Ok (ipamv1.mkIPAddress "10.10.10.12" 24 "10.10.10.1")
  else if bool_decide (device = "net0-inet6") then
    Ok (ipamv1.mkIPAddress "2001:db8::2" 64 "2001:db8::1")
  else if bool_decide (device = "net1-inet") then
    Ok (ipamv1.mkIPAddress "196.168.100.124" 24 "196.168.100.254")
  else if bool_decide (device = "net1-inet6") then
    Ok (ipamv1.mkIPAddress "2001:db8:1::2" 64 "2001:db8:1::1")
  else Err (errors_New "ipaddress not found").

(** Collaborators that answer with the given secret and injection
    outcome; the messages in use carry no formatting verb, so formatting
    them changes nothing. *)
Definition sampleCollaborators (secret : result (gmap string (list byte)))
    (injection : option error) : Collaborators := {|
  fmt_Sprintf := fun format => format;
  conditions_Set := sample_conditions_Set;
  GetBootstrapSecret := fun _ => secret;
  findIPAddress := fun _ => sample_findIPAddress;
  Inject := fun _ _ _ _ => injection
|}.

Definition sample_secret : gmap string (list byte) :=
  {[ "value" := [x23; x63; x6c; x6f; x75; x64] ]}.

(** Everything works. *)
Definition goodCollaborators : Collaborators := sampleCollaborators (Ok sample_secret) None.

(** The secret cannot be fetched. *)
Definition noSecretCollaborators : Collaborators :=
  sampleCollaborators (Err (errors_New "secrets not found")) None.

Definition sample_nets : gmap string string :=
  {[ "net0" := "virtio=92:60:a0:5b:22:c2,bridge=vmbr0" ]}.

Definition sample_nets2 : gmap string string :=
  <[ "net1" := "virtio=b4:87:18:bf:a3:60,bridge=vmbr1" ]> sample_nets.

(** A second device whose configuration line carries no MAC yet. *)
Definition sample_nets_pending : gmap string string :=
  <[ "net1" := "" ]> sample_nets.

Definition sample_vm (nets : gmap string string) : proxmox.VirtualMachine :=
  proxmox.mkVirtualMachine
    (proxmox.mkVirtualMachineConfig "uuid=56603c36-46b9-4608-90ae-c731c15eae64" nets).

Definition sample_status (provided : option bool) (hasIP : bool) :
    infrav1alpha1.ProxmoxMachineStatus :=
  infrav1alpha1.mkProxmoxMachineStatus provided
    (if hasIP then {[ "net0" := infrav1alpha1.mkIPAddress "10.10.10.12" "" ]} else ∅)
    [].

Definition sample_dual_stack : infrav1alpha1.ProxmoxClusterSpec :=
  infrav1alpha1.mkProxmoxClusterSpec (Some ["10.10.10.10-10.10.10.20"])
    (Some ["2001:db8::2-2001:db8::9"]) ["8.8.8.8"; "8.8.4.4"].

Definition sample_scope (provided : option bool) (hasIP : bool)
    (nets : gmap string string) (devices : list infrav1alpha1.AdditionalNetworkDevice) :
    scope.MachineScope :=
  scope.mkMachineScope "test" (Some "bootstrap-secret")
    (infrav1alpha1.mkProxmoxMachine
       (infrav1alpha1.mkProxmoxMachineSpec (Some (infrav1alpha1.mkNetworkSpec devices)))
       (sample_status provided hasIP))
    sample_dual_stack
    (sample_vm nets).

Definition sample_world (provided : option bool) (hasIP : bool)
    (nets : gmap string string) (devices : list infrav1alpha1.AdditionalNetworkDevice) : World :=
  mkWorld (sample_scope provided hasIP nets devices) [].

(** A machine ready to receive its bootstrap data. *)
Definition ready_world : World := sample_world None true sample_nets [].

(** The same machine without a bootstrap secret reference. *)
Definition no_secret_ref_world : World :=
  mkWorld
    (scope.mkMachineScope "test" None
       (scope.ProxmoxMachine (machineScope ready_world))
       sample_dual_stack (sample_vm sample_nets))
    [].

(** An additional device on an IPv4 pool only, with its own DNS servers. *)
Definition nic_ipv4_dns : infrav1alpha1.AdditionalNetworkDevice :=
  infrav1alpha1.mkAdditionalNetworkDevice "net1" (Some "ipv4-pool") None ["1.1.1.1"].

(** The same on an IPv6 pool only. *)
Definition nic_ipv6_dns : infrav1alpha1.AdditionalNetworkDevice :=
  infrav1alpha1.mkAdditionalNetworkDevice "net1" None (Some "ipv6-pool") ["1.1.1.1"].

(** The same on both pools. *)
Definition nic_dual_dns : infrav1alpha1.AdditionalNetworkDevice :=
  infrav1alpha1.mkAdditionalNetworkDevice "net1" (Some "ipv4-pool") (Some "ipv6-pool")
    ["1.1.1.1"].

(** The machine after a successful pass. *)
Definition provisioned_world : World := sample_world (Some true) true sample_nets [].

(** The machine before its address is allocated. *)
Definition no_ip_world : World := sample_world None false sample_nets [].

(** The machine while its second device has no MAC yet. *)
Definition pending_mac_world : World := sample_world None true sample_nets_pending [].

(** The machine while the VM has no network device at all. *)
Definition no_nets_world : World := sample_world None true ∅ [].

(** The two resolutions of the default device of [ready_world]. *)
Definition ready_ipv4 : cloudinit.NetworkConfigData :=
  cloudinit.mkNetworkConfigData "92:60:a0:5b:22:c2" "10.10.10.12/24" "" "10.10.10.1" ""
    ["8.8.8.8"; "8.8.4.4"].

Definition ready_ipv6 : cloudinit.NetworkConfigData :=
  cloudinit.mkNetworkConfigData "92:60:a0:5b:22:c2" "2001:db8::2/64" "" "2001:db8::1" ""
    ["8.8.8.8"; "8.8.4.4"].

Definition ready_world_after (devices : list string) : World :=
  mkWorld (machineScope ready_world) (map CallFindIPAddress devices).

(** A device without a MAC address. *)
Definition no_mac_device : cloudinit.NetworkConfigData :=
  cloudinit.mkNetworkConfigData "" "196.168.100.124" "" "" "" [].

(** Helpers of a build whose two default device names belong to
    different devices. *)
Definition mismatchedHelpers : Helpers := {|
  extractMACAddress := sample_extractMACAddress;
  extractUUID := sample_extractUUID;
  IPAddressWithPrefix := sample_IPAddressWithPrefix;
  machineHasIPAddress := sample_machineHasIPAddress;
  DefaultNetworkDeviceIPV4 := "net0-inet";
  DefaultNetworkDeviceIPV6 := "net1-inet6";
  DefaultSuffix := "inet";
  VMProvisionedCondition := "VMProvisioned";
  WaitingForStaticIPAllocationReason := "WaitingForStaticIPAllocation";
  CloningFailedReason := "CloningFailed";
  VMProvisionFailedReason := "VMProvisionFailed"
|}.

End Samples.

(** ** Package v1alpha1: the status bookkeeping of [ProxmoxCluster] *)

(** [k8s.io/api/core/v1]. *)
Module corev1.

Record LocalObjectReference : Type := mkLocalObjectReference {
  Name : string
}.

End corev1.

Module proxmoxcluster.

(** Code that would dereference a nil pointer or slice out of bounds
    panics; a function that can panic returns [None] when it does. *)

(** [NodeLocation]: a machine and the Proxmox node it is on. *)
Record NodeLocation : Type := mkNodeLocation {
  Machine : corev1.LocalObjectReference;
  Node : string
}.

Record NodeLocations : Type := mkNodeLocations {
  ControlPlane : list NodeLocation;
  Workers : list NodeLocation
}.

(** [ProxmoxClusterStatus], the fields the methods below touch; a nil
    slice and a nil pointer are [None]. *)
Record ProxmoxClusterStatus : Type := mkProxmoxClusterStatus {
  InClusterIPPoolRef : option (list corev1.LocalObjectReference);
  NodeLocations_ : option NodeLocations
}.

(** [ProxmoxCluster], reduced to its status. *)
Record ProxmoxCluster : Type := mkProxmoxCluster {
  Status : ProxmoxClusterStatus
}.

Definition set_InClusterIPPoolRef (v : option (list corev1.LocalObjectReference))
    (c : ProxmoxCluster) : ProxmoxCluster :=
  mkProxmoxCluster (mkProxmoxClusterStatus v (NodeLocations_ (Status c))).

Definition set_NodeLocations (v : option NodeLocations) (c : ProxmoxCluster) : ProxmoxCluster :=
  mkProxmoxCluster (mkProxmoxClusterStatus (InClusterIPPoolRef (Status c)) v).

(** The list a role selects. *)
Definition role (isControlPlane : bool) (nl : NodeLocations) : list NodeLocation :=
  if isControlPlane then ControlPlane nl else Workers nl.

Definition set_role (isControlPlane : bool) (v : list NodeLocation) (nl : NodeLocations) :
    NodeLocations :=
  if isControlPlane then mkNodeLocations v (Workers nl) else mkNodeLocations (ControlPlane nl) v.

(** [len(s)], [for range s] and [append] treat a nil slice as the empty one. *)
Definition slice {A : Type} (s : option (list A)) : list A := default [] s.

(** [SetInClusterIPPoolRef(pool)]; [pool] is nil ([None]) or a pool with
    the name [pool.GetName()]. *)
Definition SetInClusterIPPoolRef (pool : option string) (c : ProxmoxCluster) : ProxmoxCluster :=
  match pool with
  | None => set_InClusterIPPoolRef None c
  | Some name =>
      if bool_decide (name = "") then set_InClusterIPPoolRef None c
      else
        let c :=
          match InClusterIPPoolRef (Status c) with
          | None => set_InClusterIPPoolRef (Some [corev1.mkLocalObjectReference name]) c
          | Some _ => c
          end in
        let found :=
          foldl (fun found ref => if bool_decide (corev1.Name ref = name) then true else found)
            false (slice (InClusterIPPoolRef (Status c))) in
        if negb found then
          set_InClusterIPPoolRef
            (Some (slice (InClusterIPPoolRef (Status c)) ++ [corev1.mkLocalObjectReference name]))
            c
        else c
  end.

(** The loop of [GetNode] over one role: the node of the first location
    of the machine, the empty string when the loop runs out. *)
Definition firstNode (locations : list NodeLocation) (machineName : string) : string :=
  match list_find (fun loc => corev1.Name (Machine loc) = machineName) locations with
  | Some (_, loc) => Node loc
  | None => ""
  end.

(** [GetNode(machineName, isControlPlane)]. *)
Definition GetNode (machineName : string) (isControlPlane : bool) (c : ProxmoxCluster) : string :=
  match NodeLocations_ (Status c) with
  | None => ""
  | Some nl => firstNode (role isControlPlane nl) machineName
  end.

(** [HasMachine(machineName, isControlPlane)]. *)
Definition HasMachine (machineName : string) (isControlPlane : bool) (c : ProxmoxCluster) : bool :=
  negb (bool_decide (GetNode machineName isControlPlane c = "")).

(** [addNodeLocation(loc, isControlPlane)]: panics on nil node locations. *)
Definition addNodeLocation (loc : NodeLocation) (isControlPlane : bool) (c : ProxmoxCluster) :
    option ProxmoxCluster :=
  nl ← NodeLocations_ (Status c);
  Some (set_NodeLocations
          (Some (set_role isControlPlane (role isControlPlane nl ++ [loc]) nl)) c).

(** [AddNodeLocation(loc, isControlPlane)]. *)
Definition AddNodeLocation (loc : NodeLocation) (isControlPlane : bool) (c : ProxmoxCluster) :
    option ProxmoxCluster :=
  let c :=
    match NodeLocations_ (Status c) with
    | None => set_NodeLocations (Some (mkNodeLocations [] [])) c
    | Some _ => c
    end in
  if negb (HasMachine (corev1.Name (Machine loc)) isControlPlane c) then
    addNodeLocation loc isControlPlane c
  else Some c.

(** The statement
    [s = append(s[:i], s[i+1:]...)] inside [for i, v := range s]: the
    range keeps reading the backing array [arr] of the slice it started
    with, while the slice stored in the field has the length [cur].  The
    slice expression [s[i+1:]] panics unless [i+1 <= cur]; [append]
    moves the elements [i+1 .. cur-1] one place down in the same array
    and the field gets the length [cur-1]. *)
Definition removeAt (arr : list NodeLocation) (cur i : nat) : option (list NodeLocation * nat) :=
  if bool_decide (i + 1 ≤ cur) then
    Some (take i arr ++ take (cur - (i + 1)) (drop (i + 1) arr) ++ drop (cur - 1) arr, cur - 1)
  else None.

(** The range loop of [RemoveNodeLocation] over the indices still to
    visit. *)
Fixpoint removeLoop (machineName : string) (indices : list nat) (arr : list NodeLocation)
    (cur : nat) : option (list NodeLocation * nat) :=
  match indices with
  | [] => Some (arr, cur)
  | i :: rest =>
      v ← arr !! i;
      if bool_decide (corev1.Name (Machine v) = machineName) then
        st ← removeAt arr cur i;
        removeLoop machineName rest st.1 st.2
      else removeLoop machineName rest arr cur
  end.

(** The slice the field holds when the loop over [locations] is over. *)
Definition removeFrom (machineName : string) (locations : list NodeLocation) :
    option (list NodeLocation) :=
  st ← removeLoop machineName (seq 0 (length locations)) locations (length locations);
  Some (take st.2 st.1).

(** [RemoveNodeLocation(machineName, isControlPlane)]. *)
Definition RemoveNodeLocation (machineName : string) (isControlPlane : bool) (c : ProxmoxCluster) :
    option ProxmoxCluster :=
  match NodeLocations_ (Status c) with
  | None => Some c
  | Some nodeLocations =>
      if negb (HasMachine machineName isControlPlane c) then Some c
      else
        locations ← removeFrom machineName (role isControlPlane nodeLocations);
        Some (set_NodeLocations (Some (set_role isControlPlane locations nodeLocations)) c)
  end.

(** [UpdateNodeLocation(machineName, node, isControlPlane)]: the cluster
    afterwards and the boolean returned.  [locations] shares its backing
    array with the field, so [locations[i].Node = node] updates the
    field. *)
Definition UpdateNodeLocation (machineName node : string) (isControlPlane : bool)
    (c : ProxmoxCluster) : option (ProxmoxCluster * bool) :=
  if negb (HasMachine machineName isControlPlane c) then
    let loc := mkNodeLocation (corev1.mkLocalObjectReference machineName) node in
    c ← AddNodeLocation loc isControlPlane c;
    Some (c, true)
  else
    nl ← NodeLocations_ (Status c);
    let locations := role isControlPlane nl in
    match list_find (fun loc => corev1.Name (Machine loc) = machineName) locations with
    | Some (i, loc) =>
        if negb (bool_decide (Node loc = node)) then
          Some (set_NodeLocations
                  (Some (set_role isControlPlane
                           (<[i := mkNodeLocation (Machine loc) node]> locations) nl)) c,
                true)
        else Some (c, false)
    | None => Some (c, false)
    end.

(** The machines recorded in a role, in order. *)
Definition machines (isControlPlane : bool) (c : ProxmoxCluster) : list string :=
  match NodeLocations_ (Status c) with
  | None => []
  | Some nl => map (fun loc => corev1.Name (Machine loc)) (role isControlPlane nl)
  end.

(** The locations recorded in a role. *)
Definition locationsOf (isControlPlane : bool) (c : ProxmoxCluster) : list NodeLocation :=
  match NodeLocations_ (Status c) with
  | None => []
  | Some nl => role isControlPlane nl
  end.

(** The bookkeeping is in order when no machine is recorded twice in a
    role and every recorded node is named. *)
Definition wellFormed (isControlPlane : bool) (c : ProxmoxCluster) : Prop :=
  NoDup (machines isControlPlane c) /\
  Forall (fun loc => Node loc ≠ "") (locationsOf isControlPlane c).

(** The names of the pool references. *)
Definition poolNames (c : ProxmoxCluster) : list string :=
  map corev1.Name (slice (InClusterIPPoolRef (Status c))).

End proxmoxcluster.

(** ** Package goproxmox: the API client *)

Module goproxmox.

(** [fmt.Errorf(prefix + ": %w", err)]: the text is the prefix, a colon
    and the text of [err], and [err] is the cause. *)
Definition fmt_Errorf_w (prefix : string) (err : error) : error := errors_Wrap err prefix.

(** [uint64] values are integers in [0, 2^64). *)
Definition uint64_max : Z := 2 ^ 64.

Definition is_uint64 (x : Z) : Prop := (0 ≤ x < uint64_max)%Z.

(** [a - b] on [uint64]. *)
Definition uint64_sub (a b : Z) : Z := ((a - b) `mod` uint64_max)%Z.

(** [proxmox.Node], [proxmox.VirtualMachine] and [proxmox.ClusterResource]
    as far as the client reads them. *)
Record Node : Type := mkNode {
  Node_Name : string;
  Memory_Total : Z
}.

Record VirtualMachine : Type := mkVirtualMachine {
  VM_VMID : Z;
  MaxMem : Z;
  Running : bool
}.

Record ClusterResource : Type := mkClusterResource {
  VMID : Z;
  Resource_Node : string
}.

(** A task is known by its UPID. *)
Definition Task : Type := string.

(** What the Proxmox API answers. *)
Class ProxmoxAPI : Type := {
  (** [c.Node(ctx, name)] *)
  api_Node : string -> result Node;
  (** [node.VirtualMachine(ctx, vmID)] *)
  api_VirtualMachine : Node -> Z -> result VirtualMachine;
  (** [node.VirtualMachines(ctx)] *)
  api_VirtualMachines : Node -> result (list VirtualMachine);
  (** [c.Cluster(ctx)] followed by [cluster.Resources(ctx, filter)] *)
  api_Cluster : result unit;
  api_Resources : string -> result (list ClusterResource);
  (** [vm.Stop(ctx)] and [vm.Delete(ctx)] *)
  api_Stop : VirtualMachine -> result Task;
  api_Delete : VirtualMachine -> result Task
}.

(** A request sent to the API. *)
Inductive Request : Type :=
| ReqNode (name : string)
| ReqVirtualMachine (node : string) (vmID : Z)
| ReqVirtualMachines (node : string)
| ReqCluster
| ReqResources (filter : string)
| ReqStop (vmID : Z)
| ReqDelete (vmID : Z).

(** A client operation: its answer and the requests it sent, in order. *)
Definition Op (A : Type) : Type := list Request -> A * list Request.

#[global] Instance Op_ret : MRet Op := fun A a sent => (a, sent).

#[global] Instance Op_bind : MBind Op :=
  fun A B k m sent => let (a, sent') := m sent in k a sent'.

Definition send {A : Type} (req : Request) (answer : A) : Op A :=
  fun sent => (answer, sent ++ [req]).

Section Client.

Context `{ProxmoxAPI}.

(** The loop of [GetReservableMemoryBytes] over the VMs of the node. *)
Fixpoint reservableLoop (vms : list VirtualMachine) (reservableMemory : Z) : Z :=
  match vms with
  | [] => reservableMemory
  | vm :: rest =>
      if (reservableMemory <? MaxMem vm)%Z then reservableLoop rest 0%Z
      else reservableLoop rest (uint64_sub reservableMemory (MaxMem vm))
  end.

(** [GetReservableMemoryBytes(ctx, nodeName)]: the pair [(uint64, error)]. *)
Definition GetReservableMemoryBytes (nodeName : string) : Op (Z * option error) :=
  r ← send (ReqNode nodeName) (api_Node nodeName);
  match r with
  | Err err =>
      mret (0%Z, Some (fmt_Errorf_w ("cannot find node with name " +:+ nodeName) err))
  | Ok node =>
      let reservableMemory := Memory_Total node in
      r ← send (ReqVirtualMachines (Node_Name node)) (api_VirtualMachines node);
      match r with
      | Err err =>
          mret (0%Z, Some (fmt_Errorf_w ("cannot list vms for node " +:+ nodeName) err))
      | Ok vms => mret (reservableLoop vms reservableMemory, None)
      end
  end.

(** [FindVMResource(ctx, vmID)]. *)
Definition FindVMResource (vmID : Z) : Op (result ClusterResource) :=
  r ← send ReqCluster api_Cluster;
  match r with
  | Err err => mret (Err (fmt_Errorf_w "cannot get cluster status" err))
  | Ok _ =>
      r ← send (ReqResources "vm") (api_Resources "vm");
      match r with
      | Err err => mret (Err (fmt_Errorf_w "could not list vm resources" err))
      | Ok vmResources =>
          match list_find (fun vm => VMID vm = vmID) vmResources with
          | Some (_, vm) => mret (Ok vm)
          | None =>
              mret (Err (errors_New
                     ("unable to find VM with ID " +:+ pretty vmID +:+ " on any of the nodes")))
          end
      end
  end.

(** [DeleteVM(ctx, nodeName, vmID)]. *)
Definition DeleteVM (nodeName : string) (vmID : Z) : Op (result Task) :=
  r ← send (ReqNode nodeName) (api_Node nodeName);
  match r with
  | Err err => mret (Err (fmt_Errorf_w ("cannot find node with name " +:+ nodeName) err))
  | Ok node =>
      r ← send (ReqVirtualMachine (Node_Name node) vmID) (api_VirtualMachine node vmID);
      match r with
      | Err err => mret (Err (fmt_Errorf_w ("cannot find vm with id " +:+ pretty vmID) err))
      | Ok vm =>
          stopped ←
            (if Running vm then
               r ← send (ReqStop vmID) (api_Stop vm);
               match r with
               | Err err =>
                   mret (Some (fmt_Errorf_w ("cannot stop vm id " +:+ pretty vmID) err))
               | Ok _ => mret None
               end
             else mret None);
          match stopped with
          | Some err => mret (Err err)
          | None =>
              r ← send (ReqDelete vmID) (api_Delete vm);
              match r with
              | Err err =>
                  mret (Err (fmt_Errorf_w ("cannot delete vm with id " +:+ pretty vmID) err))
              | Ok task => mret (Ok task)
              end
          end
      end
  end.

End Client.

(** The sum of the memory the VMs may use, as a mathematical integer. *)
Definition totalMaxMem (vms : list VirtualMachine) : Z :=
  foldr (fun vm acc => (MaxMem vm + acc)%Z) 0%Z vms.

End goproxmox.

(** ** What a pass of the reconciler leaves in the trace *)

Module passes.

Import vmservice.

Definition is_inject (c : Call) : bool :=
  match c with
  | CallInject _ _ _ => true
  | _ => false
  end.

(** The calls the resolver makes: the address lookup and the error log. *)
Definition is_resolver_call (c : Call) : bool :=
  match c with
  | CallFindIPAddress _ | CallLoggerError _ => true
  | _ => false
  end.

(** Whether an additional device draws from a pool at all. *)
Definition hasPoolRef (nic : infrav1alpha1.AdditionalNetworkDevice) : bool :=
  match infrav1alpha1.IPv4PoolRef nic, infrav1alpha1.IPv6PoolRef nic with
  | None, None => false
  | _, _ => true
  end.

(** The additional devices of a machine, none when the network is not
    defined. *)
Definition additionalDevicesOf (s : scope.MachineScope) :
    list infrav1alpha1.AdditionalNetworkDevice :=
  infrav1alpha1.AdditionalDevices
    (ptr_Deref (infrav1alpha1.Network (infrav1alpha1.Spec (scope.ProxmoxMachine s)))
       infrav1alpha1.zeroNetworkSpec).

(** A computation that only reads the scope: it leaves the scope alone,
    and its result and the calls it makes, all satisfying [P], depend on
    the scope only, not on the calls made before. *)
Definition reads (P : Call -> Prop) {A : Type} (m : M A) : Prop :=
  forall s : scope.MachineScope,
    exists (r : A) (l : list Call),
      Forall P l /\ forall cs : list Call, m (mkWorld s cs) = (r, mkWorld s (cs ++ l)).

Section Injections.

Context `{!Collaborators}.

(** Whether a call is an injection that succeeded on the VM. *)
Definition injected (vm : proxmox.VirtualMachine) (c : Call) : bool :=
  match c with
  | CallInject bootstrapData metadata network =>
      match Inject vm bootstrapData metadata network with
      | None => true
      | Some _ => false
      end
  | _ => false
  end.

(** The number of successful injections among the calls. *)
Definition successful_injections (vm : proxmox.VirtualMachine) (cs : list Call) : nat :=
  length (filter (fun c => injected vm c = true) cs).

Context `{!Helpers}.

(** The scope after [conditions.MarkFalse] on the VMProvisioned
    condition with warning severity. *)
Definition markedFalse (reason message : string) (s : scope.MachineScope) : scope.MachineScope :=
  scope.set_ProxmoxMachine
    (infrav1alpha1.SetConditions
       (conditions_Set
          (FalseCondition VMProvisionedCondition reason clusterv1.ConditionSeverityWarning message)
          (infrav1alpha1.GetConditions (scope.ProxmoxMachine s)))
       (scope.ProxmoxMachine s))
    s.

(** The scope after the flag is set. *)
Definition provided (s : scope.MachineScope) : scope.MachineScope :=
  scope.set_ProxmoxMachine
    (infrav1alpha1.set_BootstrapDataProvided (ptr_To true) (scope.ProxmoxMachine s)) s.

(** The identity document of a machine. *)
Definition metadataOf (s : scope.MachineScope) : cloudinit.Metadata :=
  cloudinit.NewMetadata
    (extractUUID (proxmox.SMBios1 (proxmox.VirtualMachineConfig_ (scope.VirtualMachine s))))
    (scope.Name s).

(** The MAC address of the VM device an additional device stands for:
    the one in the configuration line found under the device's name
    with the suffix attached and cut off again at the first dash. *)
Definition deviceMac (w : World) (nic : infrav1alpha1.AdditionalNetworkDevice) : string :=
  extractMACAddress
    (default ""
       (netsOf w !!
          (strings_Cut (Sprintf_s_dash_s (infrav1alpha1.Device_Name nic) DefaultSuffix) "-").1.1)).

(** The full-success path of a pass: the guard is off, the machine has
    its address, every device has its MAC address, and the secret, the
    assembler and the injector all answer without an error. *)
Definition fullSuccess (w : World) : Prop :=
  guard w = false /\
  machineHasIPAddress (scope.ProxmoxMachine (machineScope w)) = true /\
  vmHasMacAddresses (machineScope w) = true /\
  exists (bootstrapData : list byte) (nicData : list cloudinit.NetworkConfigData),
    (getBootstrapData w).1 = Ok bootstrapData /\
    (getNetworkConfigData w).1 = Ok nicData /\
    Inject (scope.VirtualMachine (machineScope w)) bootstrapData (metadataOf (machineScope w))
      (cloudinit.NewNetworkConfig nicData) = None.

(** The call a pass starts its work with. *)
Definition startLog : Call := CallLoggerInfo "reconciling BootstrapData.".

(** An error of the resolver for one of the two device names of one of
    the devices, wrapped by the assembler. *)
Definition wrappedResolverError (e : error) (nics : list infrav1alpha1.AdditionalNetworkDevice) :
    Prop :=
  exists (cause : error) (nic : infrav1alpha1.AdditionalNetworkDevice) (sfx : string),
    nic ∈ nics /\
    sfx ∈ [DefaultSuffix; DefaultSuffix +:+ "6"] /\
    e = errors_Wrap cause
          ("unable to get network config data for device=" +:+
           Sprintf_s_dash_s (infrav1alpha1.Device_Name nic) sfx).

End Injections.

End passes.

(** ** More concrete inputs *)

Module MoreSamples.

Import vmservice.

(** A cluster status with two control plane machines and one worker. *)
Definition location (machine node : string) : proxmoxcluster.NodeLocation :=
  proxmoxcluster.mkNodeLocation (corev1.mkLocalObjectReference machine) node.

Definition sample_cluster : proxmoxcluster.ProxmoxCluster :=
  proxmoxcluster.mkProxmoxCluster
    (proxmoxcluster.mkProxmoxClusterStatus
       (Some [corev1.mkLocalObjectReference "pool-v4"])
       (Some (proxmoxcluster.mkNodeLocations
                [location "cp-1" "pve1"; location "cp-2" "pve2"]
                [location "worker-1" "pve1"]))).

(** A status in which a control plane machine is recorded twice. *)
Definition doubled_cluster : proxmoxcluster.ProxmoxCluster :=
  proxmoxcluster.mkProxmoxCluster
    (proxmoxcluster.mkProxmoxClusterStatus None
       (Some (proxmoxcluster.mkNodeLocations
                [location "cp-1" "pve1"; location "cp-2" "pve2"; location "cp-1" "pve3"]
                []))).

(** The API of [TestProxmoxAPIClient_GetReservableMemoryBytes]: a node
    with 30 bytes of memory and one VM. *)
Definition test_node : goproxmox.Node := goproxmox.mkNode "test" 30.

Definition testAPI (maxMem : Z) (running : bool) : goproxmox.ProxmoxAPI := {|
  goproxmox.api_Node := fun name =>
    if bool_decide (name = "test") then Ok test_node else Err (errors_New "not found");
  goproxmox.api_VirtualMachine := fun _ vmID =>
    if bool_decide (vmID = 100%Z) then Ok (goproxmox.mkVirtualMachine 100 maxMem running)
    else Err (errors_New "not found");
  goproxmox.api_VirtualMachines := fun _ => Ok [goproxmox.mkVirtualMachine 100 maxMem running];
  goproxmox.api_Cluster := Ok tt;
  goproxmox.api_Resources := fun _ =>
    Ok [goproxmox.mkClusterResource 100 "test"; goproxmox.mkClusterResource 101 "test"];
  goproxmox.api_Stop := fun _ => Ok "UPID:stop";
  goproxmox.api_Delete := fun _ => Ok "UPID:delete"
|}.

(** Collaborators whose injector fails. *)
Definition failingInjection : Collaborators :=
  Samples.sampleCollaborators (Ok Samples.sample_secret) (Some (errors_New "iso upload failed")).

(** An additional device the VM does not have. *)
Definition nic_missing : infrav1alpha1.AdditionalNetworkDevice :=
  infrav1alpha1.mkAdditionalNetworkDevice "net5" (Some "ipv4-pool") None [].

(** An additional device that draws from no pool. *)
Definition nic_no_pool : infrav1alpha1.AdditionalNetworkDevice :=
  infrav1alpha1.mkAdditionalNetworkDevice "net2" None None [].

(** A machine with an additional device the VM does not have. *)
Definition missing_device_world : World :=
  Samples.sample_world None true Samples.sample_nets [nic_missing].

(** A machine with two additional devices, one of them without a pool. *)
Definition two_devices_world : World :=
  Samples.sample_world None true Samples.sample_nets2 [nic_no_pool; Samples.nic_dual_dns].

(** A VM with three devices, and an address for the third. *)
Definition sample_nets3 : gmap string string :=
  <[ "net2" := "virtio=de:ad:be:ef:00:02,bridge=vmbr2" ]> Samples.sample_nets2.

Definition threeNicCollaborators : Collaborators := {|
  fmt_Sprintf := fun format => format;
  conditions_Set := Samples.sample_conditions_Set;
  GetBootstrapSecret := fun _ => Ok Samples.sample_secret;
  findIPAddress := fun _ device =>
    if bool_decide (device = "net2-inet") then
      Ok (ipamv1.mkIPAddress "172.16.0.5" 16 "172.16.0.1")
    else Samples.sample_findIPAddress device;
  Inject := fun _ _ _ _ => None
|}.

(** An additional device on the third device of the VM. *)
Definition nic_net2 : infrav1alpha1.AdditionalNetworkDevice :=
  infrav1alpha1.mkAdditionalNetworkDevice "net2" (Some "ipv4-pool") None [].

(** A device that draws from no pool. *)
Definition nic_unused : infrav1alpha1.AdditionalNetworkDevice :=
  infrav1alpha1.mkAdditionalNetworkDevice "net3" None None [].

(** A machine with three additional devices: the third device of the VM
    first, one without a pool, the second device of the VM last. *)
Definition three_devices_world : World :=
  Samples.sample_world None true sample_nets3 [nic_net2; nic_unused; Samples.nic_dual_dns].

(** A machine whose VM has a second device only, while the cluster has
    both pools configured for the default device. *)
Definition no_default_mac_world : World :=
  Samples.sample_world None true
    {[ "net1" := "virtio=b4:87:18:bf:a3:60,bridge=vmbr1" ]} [].

(** The ready machine in a cluster with an IPv6 pool only. *)
Definition ipv6_only_world : World :=
  mkWorld
    (scope.mkMachineScope "test" (Some "bootstrap-secret")
       (scope.ProxmoxMachine (machineScope Samples.ready_world))
       (infrav1alpha1.mkProxmoxClusterSpec None (Some ["2001:db8::2-2001:db8::9"])
          ["8.8.8.8"; "8.8.4.4"])
       (Samples.sample_vm Samples.sample_nets))
    [].

End MoreSamples.

(** * Properties *)

Import vmservice.

(** Unfold the monad operations so that a pass becomes a cascade of
    conditionals and matches on the initial state. *)
Ltac unfold_M :=
  unfold mbind, M_bind, mret, M_ret, get_scope, record, modify_machine in *; simpl in *.

Section ReconcilerProperties.

Context `{!Helpers} `{!Collaborators}.

(** ** The MAC prerequisite *)

Lemma vmHasMacAddresses_spec (s : scope.MachineScope) :
  let nets := proxmox.MergeNets (proxmox.VirtualMachineConfig_ (scope.VirtualMachine s)) in
  vmHasMacAddresses s = true <->
  nets ≠ ∅ /\ forall (d line : string), nets !! d = Some line -> extractMACAddress line ≠ "".
Proof.
  intros nets. unfold vmHasMacAddresses. fold nets.
  case_bool_decide as Hsize.
  - apply map_size_empty_iff in Hsize. split; [discriminate | intros [Hne _]; contradiction].
  - rewrite forallb_forall. split.
    + intros Hall. split.
      * intros ->. apply Hsize. apply map_size_empty.
      * intros d line Hd Hmac.
        assert (Hin : In d (map_to_list nets).*1).
        { apply list_elem_of_In, list_elem_of_fmap. exists (d, line). split; [done |].
          by apply elem_of_map_to_list. }
        specialize (Hall d Hin). rewrite Hd in Hall. simpl in Hall.
        rewrite bool_decide_eq_true_2 in Hall by done. discriminate.
    + intros [_ Hall] d Hin.
      apply list_elem_of_In, list_elem_of_fmap in Hin as [[d' line] [-> Hin]].
      apply elem_of_map_to_list in Hin. simpl. rewrite Hin. simpl.
      apply negb_true_iff, bool_decide_eq_false. by apply (Hall d' line).
Qed.

Lemma vmHasMacAddresses_false_missing (s : scope.MachineScope) (d line : string) :
  proxmox.MergeNets (proxmox.VirtualMachineConfig_ (scope.VirtualMachine s)) !! d = Some line ->
  extractMACAddress line = "" ->
  vmHasMacAddresses s = false.
Proof.
  intros Hd Hmac. apply not_true_is_false. intros Htrue.
  apply vmHasMacAddresses_spec in Htrue as [_ Hall]. by apply (Hall d line).
Qed.

Lemma vmHasMacAddresses_false_empty (s : scope.MachineScope) :
  proxmox.MergeNets (proxmox.VirtualMachineConfig_ (scope.VirtualMachine s)) = ∅ ->
  vmHasMacAddresses s = false.
Proof.
  intros Hempty. apply not_true_is_false. intros Htrue.
  apply vmHasMacAddresses_spec in Htrue as [Hne _]. contradiction.
Qed.

(** ** The short circuit of the guard *)

Lemma reconcile_guarded (w : World) :
  guard w = true -> reconcileBootstrapData w = ((false, None), w).
Proof.
  unfold guard, bootstrapDataProvided, reconcileBootstrapData. unfold_M.
  intros ->. reflexivity.
Qed.

(** C1. Once the idempotency guard is true, a pass of the reconciler
    returns (requeue=false, err=nil) and leaves the state as it found
    it, the trace of calls included: nothing is fetched, assembled or
    injected and no condition is written.  The same holds for any number
    of passes in a row. *)
Theorem C1_guarded_pass_is_noop (w : World) (n : nat) :
  guard w = true ->
  reconcileBootstrapData w = ((false, None), w) /\
  reconcile_passes n w = (replicate n (false, None), w).
Proof.
  intros Hguard. split; [by apply reconcile_guarded |].
  induction n as [| n IH]; [reflexivity |].
  simpl. unfold mbind, M_bind at 1. rewrite reconcile_guarded by done.
  unfold mbind, M_bind at 1. rewrite IH. reflexivity.
Qed.

Lemma reconcile_no_ip (w : World) :
  guard w = false ->
  machineHasIPAddress (scope.ProxmoxMachine (machineScope w)) = false ->
  reconcileBootstrapData w =
    ((true, None),
     mkWorld
       (scope.set_ProxmoxMachine
          (infrav1alpha1.SetConditions
             (conditions_Set
                (FalseCondition VMProvisionedCondition WaitingForStaticIPAllocationReason
                   clusterv1.ConditionSeverityWarning "no ip address")
                (conditionsOf w))
             (scope.ProxmoxMachine (machineScope w)))
          (machineScope w))
       (calls w)).
Proof.
  unfold guard, bootstrapDataProvided, reconcileBootstrapData, conditions_MarkFalse.
  unfold_M. intros -> ->. reflexivity.
Qed.

(** C7. With the guard false and no usable IP address on the machine, a
    pass sets the VMProvisioned condition to false with the reason
    waiting-for-static-IP-allocation and warning severity, returns
    (requeue=true, err=nil), and has made no call by then: the trace is
    unchanged and only the condition list of the machine differs. *)
Theorem C7_waiting_for_ip (w : World) :
  guard w = false ->
  machineHasIPAddress (scope.ProxmoxMachine (machineScope w)) = false ->
  let (r, w') := reconcileBootstrapData w in
  r = (true, None) /\
  conditionsOf w' =
    conditions_Set
      (clusterv1.mkCondition VMProvisionedCondition clusterv1.ConditionFalse
         clusterv1.ConditionSeverityWarning WaitingForStaticIPAllocationReason
         (fmt_Sprintf "no ip address"))
      (conditionsOf w) /\
  calls w' = calls w /\
  machineScope w' =
    scope.set_ProxmoxMachine
      (infrav1alpha1.SetConditions (conditionsOf w') (scope.ProxmoxMachine (machineScope w)))
      (machineScope w).
Proof.
  intros Hguard HIP. rewrite reconcile_no_ip by done. auto.
Qed.

(** C8. With the guard false and an IP address on the machine, if some
    network device of the VM has a configuration line without a MAC
    address, a pass returns (requeue=true, err=nil) and leaves the whole
    state unchanged, the condition records in particular. *)
Theorem C8_waiting_for_mac (w : World) (d line : string) :
  guard w = false ->
  machineHasIPAddress (scope.ProxmoxMachine (machineScope w)) = true ->
  netsOf w !! d = Some line ->
  extractMACAddress line = "" ->
  reconcileBootstrapData w = ((true, None), w) /\
  conditionsOf (reconcileBootstrapData w).2 = conditionsOf w.
Proof.
  unfold guard, bootstrapDataProvided, netsOf. intros Hguard HIP Hd Hmac.
  assert (Hrun : reconcileBootstrapData w = ((true, None), w)).
  { unfold reconcileBootstrapData. unfold_M. rewrite Hguard, HIP. simpl.
    by rewrite (vmHasMacAddresses_false_missing _ d line). }
  split; [done | by rewrite Hrun].
Qed.

(** C10. With the guard false and an IP address on the machine, if the
    VM's merged network configuration has no device at all, a pass
    returns (requeue=true, err=nil) without touching the state, exactly
    as when a device lacks its MAC, although no device does. *)
Theorem C10_no_devices_requeues (w : World) :
  guard w = false ->
  machineHasIPAddress (scope.ProxmoxMachine (machineScope w)) = true ->
  netsOf w = ∅ ->
  vmHasMacAddresses (machineScope w) = false /\
  reconcileBootstrapData w = ((true, None), w) /\
  (forall (d line : string), netsOf w !! d = Some line -> extractMACAddress line ≠ "").
Proof.
  unfold guard, bootstrapDataProvided, netsOf. intros Hguard HIP Hempty.
  pose proof (vmHasMacAddresses_false_empty _ Hempty) as Hmac.
  split; [done |]. split.
  - unfold reconcileBootstrapData. unfold_M. by rewrite Hguard, HIP, Hmac.
  - intros d line. rewrite Hempty, lookup_empty. discriminate.
Qed.

(** ** Frame: what the readers leave alone *)

Lemma getBootstrapData_scope (w : World) :
  machineScope (getBootstrapData w).2 = machineScope w.
Proof.
  unfold getBootstrapData, call_GetBootstrapSecret. unfold_M.
  repeat case_match; reflexivity.
Qed.

Lemma getNetworkConfigDataForDevice_scope (device : string) (w : World) :
  machineScope (getNetworkConfigDataForDevice device w).2 = machineScope w.
Proof.
  unfold getNetworkConfigDataForDevice, call_findIPAddress. unfold_M.
  repeat case_match; reflexivity.
Qed.

(** A successful resolution found a MAC, asked for the address of the
    device once, and filled in the IPv4 fields only. *)
Lemma getNetworkConfigDataForDevice_Ok (device : string) (w w' : World)
    (conf : cloudinit.NetworkConfigData) :
  getNetworkConfigDataForDevice device w = (Ok conf, w') ->
  cloudinit.MacAddress conf ≠ "" /\
  cloudinit.IPV6Address conf = "" /\
  cloudinit.Gateway6 conf = "" /\
  cloudinit.DNSServers conf = infrav1alpha1.DNSServers (clusterSpecOf w) /\
  w' = mkWorld (machineScope w) (calls w ++ [CallFindIPAddress device]).
Proof.
  unfold getNetworkConfigDataForDevice, call_findIPAddress, clusterSpecOf. unfold_M.
  destruct (strings_Cut device "-") as [[formattedDevice after] found].
  unfold is_empty. case_bool_decide as Hmac; [discriminate |].
  destruct (findIPAddress (machineScope w) device) as [ipAddr | err]; [| discriminate].
  intros [= <- <-]. simpl. auto.
Qed.

Ltac step_resolver :=
  match goal with
  | |- context [getNetworkConfigDataForDevice ?d ?w] =>
      let Hs := fresh "Hs" in
      pose proof (getNetworkConfigDataForDevice_scope d w) as Hs;
      destruct (getNetworkConfigDataForDevice d w) as [[?conf | ?err] ?w];
      simpl in Hs; simpl
  end.

Lemma getDefaultNetworkDevice_scope (w : World) :
  machineScope (getDefaultNetworkDevice w).2 = machineScope w.
Proof.
  unfold getDefaultNetworkDevice. unfold_M.
  destruct (infrav1alpha1.IPv4Config _); [step_resolver |]; simpl; try done;
    (destruct (infrav1alpha1.IPv6Config _); [step_resolver |]; simpl; try congruence);
    repeat case_match; simpl; congruence.
Qed.

Lemma additionalNetworkDevice_scope (nic : infrav1alpha1.AdditionalNetworkDevice) (w : World) :
  machineScope (additionalNetworkDevice nic w).2 = machineScope w.
Proof.
  unfold additionalNetworkDevice. unfold_M.
  destruct (infrav1alpha1.IPv4PoolRef _); [step_resolver |]; simpl; try done;
    (destruct (infrav1alpha1.IPv6PoolRef _); [step_resolver |]; simpl; try congruence);
    repeat case_match; simpl; congruence.
Qed.

Lemma additionalNetworkDevices_loop_scope (nics : list infrav1alpha1.AdditionalNetworkDevice)
    (acc : list cloudinit.NetworkConfigData) (w : World) :
  machineScope (additionalNetworkDevices_loop nics acc w).2 = machineScope w.
Proof.
  revert acc w. induction nics as [| nic rest IH]; intros acc w; [reflexivity |].
  simpl. unfold mbind, M_bind at 1.
  pose proof (additionalNetworkDevice_scope nic w) as Hs.
  destruct (additionalNetworkDevice nic w) as [[config | err] w1]; simpl in Hs; [| done].
  case_match; rewrite IH; done.
Qed.

Lemma getNetworkConfigData_scope (w : World) :
  machineScope (getNetworkConfigData w).2 = machineScope w.
Proof.
  unfold getNetworkConfigData, getAdditionalNetworkDevices. unfold_M.
  pose proof (getDefaultNetworkDevice_scope w) as Hs.
  destruct (getDefaultNetworkDevice w) as [[defaultConfig | err] w1]; simpl in Hs; [| done].
  pose proof (additionalNetworkDevices_loop_scope
                (infrav1alpha1.AdditionalDevices
                   (ptr_Deref (infrav1alpha1.Network
                                 (infrav1alpha1.Spec (scope.ProxmoxMachine (machineScope w))))
                      infrav1alpha1.zeroNetworkSpec)) [] w1) as Hs'.
  destruct (additionalNetworkDevices_loop _ _ w1) as [[additionalConfig | err] w2];
    simpl in *; congruence.
Qed.

(** ** The pass as a whole *)

(** With the guard false and both prerequisites met, the pass is the
    cascade of the three fallible steps. *)
Lemma reconcile_unfold (w : World) :
  guard w = false ->
  machineHasIPAddress (scope.ProxmoxMachine (machineScope w)) = true ->
  vmHasMacAddresses (machineScope w) = true ->
  reconcileBootstrapData w =
    (record (CallLoggerInfo "reconciling BootstrapData.");;
     r ← getBootstrapData;
     match r with
     | Err err =>
         conditions_MarkFalse VMProvisionedCondition CloningFailedReason
           clusterv1.ConditionSeverityWarning (Error err);;
         mret (false, Some err)
     | Ok bootstrapData =>
         r ← getNetworkConfigData;
         match r with
         | Err err =>
             conditions_MarkFalse VMProvisionedCondition WaitingForStaticIPAllocationReason
               clusterv1.ConditionSeverityWarning (Error err);;
             mret (false, Some err)
         | Ok nicData =>
             r ← call_Inject (scope.VirtualMachine (machineScope w)) bootstrapData
                   (cloudinit.NewMetadata
                      (extractUUID
                         (proxmox.SMBios1
                            (proxmox.VirtualMachineConfig_
                               (scope.VirtualMachine (machineScope w)))))
                      (scope.Name (machineScope w)))
                   (cloudinit.NewNetworkConfig nicData);
             match r with
             | Some err =>
                 conditions_MarkFalse VMProvisionedCondition VMProvisionFailedReason
                   clusterv1.ConditionSeverityWarning (Error err);;
                 mret (false, Some (errors_Wrap err "cloud-init iso inject failed"))
             | None =>
                 modify_machine (infrav1alpha1.set_BootstrapDataProvided (ptr_To true));;
                 mret (false, None)
             end
         end
     end) w.
Proof.
  unfold guard, bootstrapDataProvided. intros Hguard HIP Hmac.
  unfold reconcileBootstrapData at 1. unfold mbind at 1, M_bind at 1, get_scope at 1.
  rewrite Hguard, HIP, Hmac. reflexivity.
Qed.

(** The path on which every step succeeds ends with the flag set. *)
Lemma reconcile_success (w w1 w2 : World) (bootstrapData : list byte)
    (nicData : list cloudinit.NetworkConfigData) :
  guard w = false ->
  machineHasIPAddress (scope.ProxmoxMachine (machineScope w)) = true ->
  vmHasMacAddresses (machineScope w) = true ->
  getBootstrapData
    (mkWorld (machineScope w) (calls w ++ [CallLoggerInfo "reconciling BootstrapData."])) =
    (Ok bootstrapData, w1) ->
  getNetworkConfigData w1 = (Ok nicData, w2) ->
  Inject (scope.VirtualMachine (machineScope w)) bootstrapData
    (cloudinit.NewMetadata
       (extractUUID
          (proxmox.SMBios1 (proxmox.VirtualMachineConfig_ (scope.VirtualMachine (machineScope w)))))
       (scope.Name (machineScope w)))
    (cloudinit.NewNetworkConfig nicData) = None ->
  let (r, w') := reconcileBootstrapData w in
  r = (false, None) /\ bootstrapDataProvided w' = Some true /\ conditionsOf w' = conditionsOf w.
Proof.
  intros Hguard HIP Hmac E1 E2 Hinj.
  rewrite reconcile_unfold by done. unfold call_Inject. unfold_M.
  rewrite E1, E2, Hinj. simpl.
  pose proof (getBootstrapData_scope
                (mkWorld (machineScope w)
                   (calls w ++ [CallLoggerInfo "reconciling BootstrapData."]))) as Hs1.
  pose proof (getNetworkConfigData_scope w1) as Hs2.
  rewrite E1 in Hs1. rewrite E2 in Hs2. simpl in Hs1, Hs2.
  unfold bootstrapDataProvided, conditionsOf. simpl. rewrite Hs2, Hs1. auto.
Qed.

(** The three ways the retrieval of the payload fails, and only these. *)
Lemma getBootstrapData_Err_iff (w : World) :
  (exists err, (getBootstrapData w).1 = Err err) <->
  scope.DataSecretName (machineScope w) = None \/
  (exists e, GetBootstrapSecret (machineScope w) = Err e) \/
  (exists data, GetBootstrapSecret (machineScope w) = Ok data /\ data !! "value" = None).
Proof.
  unfold getBootstrapData, call_GetBootstrapSecret. unfold_M.
  destruct (scope.DataSecretName (machineScope w)) as [name |]; simpl; cycle 1.
  { split; [by left | eauto]. }
  destruct (GetBootstrapSecret (machineScope w)) as [data | e]; simpl; cycle 1.
  { split; [intros _; right; left; eauto | eauto]. }
  destruct (data !! "value") as [value |] eqn:Hvalue; simpl.
  - split; [intros [err [=]] |].
    intros [[=] | [[e [=]] | [data' [[= <-] Hnone]]]]. congruence.
  - split; [intros _; right; right; eauto | eauto].
Qed.

(** C6. With the guard false and both prerequisites met, so that the
    payload is asked for: if the machine has no bootstrap data secret
    reference, or the secret cannot be fetched, or the secret has no
    [value] key, the pass sets the VMProvisioned condition to false with
    the reason cloning-failed and the text of the error, and returns
    (requeue=false, err) with that error; the flag stays as it was. *)
Theorem C6_payload_retrieval_failure (w : World) :
  guard w = false ->
  machineHasIPAddress (scope.ProxmoxMachine (machineScope w)) = true ->
  vmHasMacAddresses (machineScope w) = true ->
  (scope.DataSecretName (machineScope w) = None \/
   (exists e, GetBootstrapSecret (machineScope w) = Err e) \/
   (exists data, GetBootstrapSecret (machineScope w) = Ok data /\ data !! "value" = None)) ->
  let (r, w') := reconcileBootstrapData w in
  exists err : error,
    r = (false, Some err) /\
    conditionsOf w' =
      conditions_Set
        (clusterv1.mkCondition VMProvisionedCondition clusterv1.ConditionFalse
           clusterv1.ConditionSeverityWarning CloningFailedReason (fmt_Sprintf (Error err)))
        (conditionsOf w) /\
    bootstrapDataProvided w' = bootstrapDataProvided w.
Proof.
  intros Hguard HIP Hmac Hfail.
  rewrite reconcile_unfold by done.
  unfold conditions_MarkFalse. unfold_M.
  set (w0 := mkWorld (machineScope w) (calls w ++ [CallLoggerInfo "reconciling BootstrapData."])).
  assert (Hfail0 : exists err, (getBootstrapData w0).1 = Err err).
  { apply getBootstrapData_Err_iff. exact Hfail. }
  pose proof (getBootstrapData_scope w0) as Hs.
  destruct (getBootstrapData w0) as [r w1]. simpl in Hs, Hfail0.
  destruct Hfail0 as [err ->]. exists err.
  unfold conditionsOf, bootstrapDataProvided. simpl. rewrite Hs. auto.
Qed.

(** ** Additional devices and the DNS override *)

(** A device on an IPv4 pool only: the record is the resolution itself,
    with the DNS servers of the cluster, whatever the device lists. *)
Lemma additionalNetworkDevice_ipv4_only (nic : infrav1alpha1.AdditionalNetworkDevice)
    (w w' : World) (ref : string) (config : cloudinit.NetworkConfigData) :
  infrav1alpha1.IPv4PoolRef nic = Some ref ->
  infrav1alpha1.IPv6PoolRef nic = None ->
  additionalNetworkDevice nic w = (Ok config, w') ->
  cloudinit.DNSServers config = infrav1alpha1.DNSServers (clusterSpecOf w).
Proof.
  intros H4 H6. unfold additionalNetworkDevice. unfold_M. rewrite H4, H6.
  destruct (getNetworkConfigDataForDevice _ w) as [[conf | err] w1] eqn:E; simpl; [| discriminate].
  intros [= <- <-]. by apply getNetworkConfigDataForDevice_Ok in E as (_ & _ & _ & Hdns & _).
Qed.

(** The same for a device on an IPv6 pool only. *)
Lemma additionalNetworkDevice_ipv6_only (nic : infrav1alpha1.AdditionalNetworkDevice)
    (w w' : World) (ref : string) (config : cloudinit.NetworkConfigData) :
  infrav1alpha1.IPv4PoolRef nic = None ->
  infrav1alpha1.IPv6PoolRef nic = Some ref ->
  additionalNetworkDevice nic w = (Ok config, w') ->
  cloudinit.DNSServers config = infrav1alpha1.DNSServers (clusterSpecOf w).
Proof.
  intros H4 H6. unfold additionalNetworkDevice. unfold_M. rewrite H4, H6. simpl.
  destruct (getNetworkConfigDataForDevice _ w) as [[conf | err] w1] eqn:E; simpl; [| discriminate].
  apply getNetworkConfigDataForDevice_Ok in E as (_ & _ & _ & Hdns & _).
  destruct (negb (bool_decide (length (infrav1alpha1.Device_DNSServers nic) = 0)));
    simpl; intros [= <- <-]; exact Hdns.
Qed.

(** A device on both pools with DNS servers of its own: the record
    carries the servers of the device. *)
Lemma additionalNetworkDevice_dual_stack (nic : infrav1alpha1.AdditionalNetworkDevice)
    (w w' : World) (ref4 ref6 : string) (config : cloudinit.NetworkConfigData) :
  infrav1alpha1.IPv4PoolRef nic = Some ref4 ->
  infrav1alpha1.IPv6PoolRef nic = Some ref6 ->
  infrav1alpha1.Device_DNSServers nic ≠ [] ->
  additionalNetworkDevice nic w = (Ok config, w') ->
  cloudinit.DNSServers config = infrav1alpha1.Device_DNSServers nic.
Proof.
  intros H4 H6 Hdns. unfold additionalNetworkDevice. unfold_M. rewrite H4, H6.
  destruct (getNetworkConfigDataForDevice _ w) as [[conf4 | err] w1] eqn:E4; simpl;
    [| discriminate].
  destruct (getNetworkConfigDataForDevice _ w1) as [[conf6 | err] w2] eqn:E6; simpl;
    [| discriminate].
  apply getNetworkConfigDataForDevice_Ok in E4 as (Hmac4 & _).
  rewrite bool_decide_eq_false_2 by (by destruct (infrav1alpha1.Device_DNSServers nic)).
  simpl. unfold is_empty. rewrite bool_decide_eq_false_2 by done.
  case_match; simpl; [discriminate |]. by intros [= <- <-].
Qed.

End ReconcilerProperties.

(** C2. An additional device on an IPv4 pool only that lists the DNS
    server 1.1.1.1 of its own, in a cluster with the DNS servers 8.8.8.8
    and 8.8.4.4: the assembler emits one record for it, and the record
    carries the servers of the cluster, not the one of the device. *)
Theorem C2_dns_override_lost_ipv4_only :
  (@getAdditionalNetworkDevices Samples.sampleHelpers Samples.goodCollaborators
     (infrav1alpha1.mkNetworkSpec [Samples.nic_ipv4_dns])
     (Samples.sample_world None true Samples.sample_nets2 [])).1 =
    Ok [cloudinit.mkNetworkConfigData "b4:87:18:bf:a3:60" "196.168.100.124/24" ""
          "196.168.100.254" "" ["8.8.8.8"; "8.8.4.4"]] /\
  infrav1alpha1.Device_DNSServers Samples.nic_ipv4_dns = ["1.1.1.1"].
Proof. split; vm_compute; reflexivity. Qed.

(** The override is lost in the same way on an IPv6 pool only. *)
Lemma dns_override_lost_ipv6_only :
  (@getAdditionalNetworkDevices Samples.sampleHelpers Samples.goodCollaborators
     (infrav1alpha1.mkNetworkSpec [Samples.nic_ipv6_dns])
     (Samples.sample_world None true Samples.sample_nets2 [])).1 =
    Ok [cloudinit.mkNetworkConfigData "b4:87:18:bf:a3:60" "2001:db8:1::2/64" ""
          "2001:db8:1::1" "" ["8.8.8.8"; "8.8.4.4"]].
Proof. vm_compute. reflexivity. Qed.

(** On both pools the override takes effect. *)
Lemma dns_override_kept_dual_stack :
  (@getAdditionalNetworkDevices Samples.sampleHelpers Samples.goodCollaborators
     (infrav1alpha1.mkNetworkSpec [Samples.nic_dual_dns])
     (Samples.sample_world None true Samples.sample_nets2 [])).1 =
    Ok [cloudinit.mkNetworkConfigData "b4:87:18:bf:a3:60" "196.168.100.124/24"
          "2001:db8:1::2/64" "196.168.100.254" "2001:db8:1::1" ["1.1.1.1"]].
Proof. vm_compute. reflexivity. Qed.

(** ** The renderer *)

Section RendererProperties.

Import cloudinit.

(** The cases of [TestNetworkConfig_Render], run on the renderer. *)
Lemma test_InvalidNetworkConfigIp :
  Render (NewNetworkConfig case_InvalidNetworkConfigIp) = inl ErrMissingIPAddress.
Proof. reflexivity. Qed.

Lemma test_InvalidNetworkConfigMalformedIp :
  Render (NewNetworkConfig case_InvalidNetworkConfigMalformedIp) = inl ErrMalformedIPAddress.
Proof. reflexivity. Qed.

Lemma test_InvalidNetworkConfigMalformedIP :
  Render (NewNetworkConfig case_InvalidNetworkConfigMalformedIP) = inl ErrMalformedIPAddress.
Proof. reflexivity. Qed.

Lemma test_InvalidNetworkConfigGW :
  Render (NewNetworkConfig case_InvalidNetworkConfigGW) = inl ErrMissingGateway.
Proof. reflexivity. Qed.

Lemma test_InvalidNetworkConfigMacAddress :
  Render (NewNetworkConfig case_InvalidNetworkConfigMacAddress) = inl ErrMissingMacAddress.
Proof. reflexivity. Qed.

Lemma test_InvalidNetworkConfigData :
  Render (NewNetworkConfig []) = inl ErrMissingNetworkConfigData.
Proof. reflexivity. Qed.

Lemma test_ValidNetworkConfigMultipleNics :
  Render (NewNetworkConfig case_ValidNetworkConfigMultipleNics) =
    inr expectedValidNetworkConfigMultipleNics.
Proof. vm_compute. reflexivity. Qed.

Lemma test_ValidNetworkConfigDualStack :
  Render (NewNetworkConfig case_ValidNetworkConfigDualStack) =
    inr expectedValidNetworkConfigDualStack.
Proof. vm_compute. reflexivity. Qed.

Lemma test_ValidNetworkConfigIPV6 :
  Render (NewNetworkConfig case_ValidNetworkConfigIPV6) = inr expectedValidNetworkConfigIPV6.
Proof. vm_compute. reflexivity. Qed.

(** Validation passes over the devices that are in order and answers
    with the verdict on the first one that is not. *)
Lemma validateDevices_app (pre post : list NetworkConfigData) (d : NetworkConfigData) :
  validateDevices pre = None ->
  validateDevices (pre ++ d :: post) =
    match validateDevice d with
    | Some e => Some e
    | None => validateDevices post
    end.
Proof.
  induction pre as [| p pre IH]; simpl; [reflexivity |].
  destruct (validateDevice p); [discriminate | exact IH].
Qed.

Lemma Render_first_invalid (pre post : list NetworkConfigData) (d : NetworkConfigData)
    (e : RenderError) :
  validateDevices pre = None ->
  validateDevice d = Some e ->
  Render (NewNetworkConfig (pre ++ d :: post)) = inl e.
Proof.
  intros Hpre Hd.
  assert (Hv : validate (NewNetworkConfig (pre ++ d :: post)) = Some e).
  { unfold validate. cbn [NetworkConfig_data].
    destruct (pre ++ d :: post) as [| d0 ds] eqn:Hl; [by destruct pre |].
    rewrite <- Hl, validateDevices_app, Hd by done. reflexivity. }
  unfold Render. by rewrite Hv.
Qed.

(** C4. The renderer rejects the empty device list with
    ErrMissingNetworkConfigData.  For a device [d] that comes after
    devices which all pass, the renderer fails with ErrMissingMacAddress
    when the MAC of [d] is empty, whatever its other fields; with
    ErrMissingIPAddress when it has a MAC and neither address; with
    ErrMalformedIPAddress when a present address has no /length suffix;
    and with ErrMissingGateway when a present, well-formed address comes
    without its gateway; the IPv4 family is checked before the IPv6
    family, and the first violated rule is the error returned. *)
Theorem C4_validation_order (pre post : list NetworkConfigData) (d : NetworkConfigData) :
  validateDevices pre = None ->
  let out := Render (NewNetworkConfig (pre ++ d :: post)) in
  Render (NewNetworkConfig []) = inl ErrMissingNetworkConfigData /\
  (MacAddress d = "" -> out = inl ErrMissingMacAddress) /\
  (MacAddress d ≠ "" -> IPAddress d = "" -> IPV6Address d = "" ->
   out = inl ErrMissingIPAddress) /\
  (MacAddress d ≠ "" -> IPAddress d ≠ "" -> hasPrefixLength (IPAddress d) = false ->
   out = inl ErrMalformedIPAddress) /\
  (MacAddress d ≠ "" -> IPAddress d ≠ "" -> hasPrefixLength (IPAddress d) = true ->
   Gateway d = "" ->
   out = inl ErrMissingGateway) /\
  (MacAddress d ≠ "" -> validateFamily (IPAddress d) (Gateway d) = None ->
   IPV6Address d ≠ "" -> hasPrefixLength (IPV6Address d) = false ->
   out = inl ErrMalformedIPAddress) /\
  (MacAddress d ≠ "" -> validateFamily (IPAddress d) (Gateway d) = None ->
   IPV6Address d ≠ "" -> hasPrefixLength (IPV6Address d) = true -> Gateway6 d = "" ->
   out = inl ErrMissingGateway).
Proof.
  intros Hpre out. subst out.
  split; [reflexivity |].
  repeat split; intros; apply Render_first_invalid; try done; unfold validateDevice;
    repeat match goal with
           | Hf : validateFamily _ _ = None |- _ => rewrite Hf; clear Hf
           end;
    unfold validateFamily, is_empty;
    repeat match goal with
           | Hp : hasPrefixLength _ = _ |- _ => rewrite Hp; clear Hp
           | He : _ = "" |- _ => rewrite (bool_decide_eq_true_2 _ He); clear He
           | Hn : _ ≠ "" |- _ => rewrite (bool_decide_eq_false_2 _ Hn); clear Hn
           end;
    rewrite ?andb_false_r; reflexivity.
Qed.


End RendererProperties.

(** ** The properties at work on concrete machines *)

Section Witnesses.

Import Samples.

(** A full pass on a machine that is ready: the payload is fetched, the
    two addresses of the default device are looked up, the injection is
    called, and the flag is set. *)
Example ready_world_pass :
  let (r, w') := @reconcileBootstrapData sampleHelpers goodCollaborators ready_world in
  r = (false, None) /\
  bootstrapDataProvided w' = Some true /\
  conditionsOf w' = [] /\
  map (fun c => match c with CallInject _ _ _ => true | _ => false end) (calls w') =
    [false; false; false; false; true].
Proof. vm_compute. auto. Qed.

(** A pass on a machine without a bootstrap secret reference. *)
Example no_secret_ref_pass :
  let (r, w') := @reconcileBootstrapData sampleHelpers goodCollaborators no_secret_ref_world in
  r = (false, Some (errors_New "machine has no bootstrap data")) /\
  conditionsOf w' =
    [clusterv1.mkCondition "VMProvisioned" clusterv1.ConditionFalse
       clusterv1.ConditionSeverityWarning "CloningFailed" "machine has no bootstrap data"] /\
  bootstrapDataProvided w' = None.
Proof. vm_compute. auto. Qed.

(** Were the two default device names to belong to devices with
    different MAC addresses, the assembler would refuse. *)
Example default_device_mac_mismatch :
  (@getDefaultNetworkDevice mismatchedHelpers goodCollaborators
     (sample_world None true sample_nets2 [])).1 =
    Err (errors_New "default network device ipv4 and ipv6 have different mac addresses").
Proof. vm_compute. reflexivity. Qed.

Lemma C1_guarded_pass_is_noop_witness :
  guard provisioned_world = true /\
  @reconcileBootstrapData sampleHelpers goodCollaborators provisioned_world =
    ((false, None), provisioned_world) /\
  @reconcile_passes sampleHelpers goodCollaborators 3 provisioned_world =
    (replicate 3 (false, None), provisioned_world).
Proof.
  split; [reflexivity |].
  apply (@C1_guarded_pass_is_noop sampleHelpers goodCollaborators provisioned_world 3).
  reflexivity.
Defined.

Lemma C4_validation_order_witness :
  cloudinit.validateDevices cloudinit.case_ValidNetworkConfig = None /\
  cloudinit.MacAddress no_mac_device = "" /\
  cloudinit.Render
    (cloudinit.NewNetworkConfig (cloudinit.case_ValidNetworkConfig ++ no_mac_device :: [])) =
    inl cloudinit.ErrMissingMacAddress.
Proof.
  split; [reflexivity |]. split; [reflexivity |].
  refine (proj1 (proj2
    (C4_validation_order cloudinit.case_ValidNetworkConfig [] no_mac_device _)) _);
    reflexivity.
Defined.

Lemma C6_payload_retrieval_failure_witness :
  let (r, w') := @reconcileBootstrapData sampleHelpers noSecretCollaborators ready_world in
  exists err : error,
    r = (false, Some err) /\
    conditionsOf w' =
      sample_conditions_Set
        (clusterv1.mkCondition "VMProvisioned" clusterv1.ConditionFalse
           clusterv1.ConditionSeverityWarning "CloningFailed" (Error err))
        (conditionsOf ready_world) /\
    bootstrapDataProvided w' = bootstrapDataProvided ready_world.
Proof.
  apply (@C6_payload_retrieval_failure sampleHelpers noSecretCollaborators ready_world).
  - reflexivity.
  - reflexivity.
  - vm_compute. reflexivity.
  - right. left. exists (errors_New "secrets not found"). reflexivity.
Defined.

Lemma C7_waiting_for_ip_witness :
  guard no_ip_world = false /\
  sample_machineHasIPAddress (scope.ProxmoxMachine (machineScope no_ip_world)) = false /\
  (let (r, w') := @reconcileBootstrapData sampleHelpers goodCollaborators no_ip_world in
   r = (true, None) /\
   conditionsOf w' =
     [clusterv1.mkCondition "VMProvisioned" clusterv1.ConditionFalse
        clusterv1.ConditionSeverityWarning "WaitingForStaticIPAllocation" "no ip address"] /\
   calls w' = [] /\
   machineScope w' =
     scope.set_ProxmoxMachine
       (infrav1alpha1.SetConditions (conditionsOf w')
          (scope.ProxmoxMachine (machineScope no_ip_world)))
       (machineScope no_ip_world)).
Proof.
  split; [reflexivity |]. split; [reflexivity |].
  apply (@C7_waiting_for_ip sampleHelpers goodCollaborators no_ip_world); reflexivity.
Defined.

Lemma C8_waiting_for_mac_witness :
  netsOf pending_mac_world !! "net1" = Some "" /\
  sample_extractMACAddress "" = "" /\
  @reconcileBootstrapData sampleHelpers goodCollaborators pending_mac_world =
    ((true, None), pending_mac_world).
Proof.
  split; [vm_compute; reflexivity |]. split; [reflexivity |].
  refine (proj1
    (@C8_waiting_for_mac sampleHelpers goodCollaborators pending_mac_world "net1" "" _ _ _ _));
    vm_compute; reflexivity.
Defined.

Lemma C10_no_devices_requeues_witness :
  netsOf no_nets_world = ∅ /\
  @reconcileBootstrapData sampleHelpers goodCollaborators no_nets_world =
    ((true, None), no_nets_world).
Proof.
  split; [reflexivity |].
  refine (proj1 (proj2
    (@C10_no_devices_requeues sampleHelpers goodCollaborators no_nets_world _ _ _)));
    reflexivity.
Defined.

End Witnesses.

(** * Further properties *)

(** ** The pool references of the cluster status *)

Section PoolRefProperties.

Import proxmoxcluster.

Lemma found_loop (name : string) (refs : list corev1.LocalObjectReference) (found : bool) :
  foldl (fun found ref => if bool_decide (corev1.Name ref = name) then true else found)
    found refs =
  found || bool_decide (name ∈ map corev1.Name refs).
Proof.
  revert found. induction refs as [| ref refs IH]; intros found; cbn [foldl map].
  - rewrite bool_decide_eq_false_2 by apply not_elem_of_nil. by rewrite orb_false_r.
  - rewrite IH. destruct (decide (corev1.Name ref = name)) as [Href | Href].
    + rewrite (bool_decide_eq_true_2 _ Href).
      rewrite (bool_decide_eq_true_2 (name ∈ _ :: _)) by (apply elem_of_cons; by left).
      by rewrite orb_true_r.
    + rewrite (bool_decide_eq_false_2 _ Href). f_equal.
      apply bool_decide_ext. rewrite elem_of_cons. split; [auto | intros [-> | ?]; [done | auto]].
Qed.

(** What [SetInClusterIPPoolRef] does to the names for a named pool. *)
Lemma SetInClusterIPPoolRef_names (name : string) (c : ProxmoxCluster) :
  name ≠ "" ->
  poolNames (SetInClusterIPPoolRef (Some name) c) =
    if bool_decide (name ∈ poolNames c) then poolNames c else poolNames c ++ [name].
Proof.
  intros Hname. unfold SetInClusterIPPoolRef, poolNames.
  rewrite bool_decide_eq_false_2 by done.
  destruct c as [[refs nl]]. destruct refs as [refs |]; simpl.
  - cbn [Status InClusterIPPoolRef slice default set_InClusterIPPoolRef].
    rewrite found_loop. cbn [orb]. case_bool_decide; cbn [negb]; [done |].
    cbn [Status InClusterIPPoolRef slice default set_InClusterIPPoolRef id].
    by rewrite List.map_app.
  - rewrite bool_decide_eq_true_2 by done. reflexivity.
Qed.

Lemma SetInClusterIPPoolRef_nodeLocations (pool : option string) (c : ProxmoxCluster) :
  NodeLocations_ (Status (SetInClusterIPPoolRef pool c)) = NodeLocations_ (Status c).
Proof.
  unfold SetInClusterIPPoolRef. destruct pool as [name |]; [| done].
  case_bool_decide; [done |].
  destruct c as [[[refs |] nl]]; simpl; repeat case_match; done.
Qed.


(** X13. The named pool is referenced afterwards, the references that were
    there stay in place, no name is doubled, the node locations are left
    alone, and a second call changes nothing. *)
Theorem SetInClusterIPPoolRef_adds_once (name : string) (c : proxmoxcluster.ProxmoxCluster) :
  name ≠ "" ->
  let c' := proxmoxcluster.SetInClusterIPPoolRef (Some name) c in
  name ∈ proxmoxcluster.poolNames c' /\
  proxmoxcluster.poolNames c `prefix_of` proxmoxcluster.poolNames c' /\
  (NoDup (proxmoxcluster.poolNames c) -> NoDup (proxmoxcluster.poolNames c')) /\
  proxmoxcluster.NodeLocations_ (proxmoxcluster.Status c') =
    proxmoxcluster.NodeLocations_ (proxmoxcluster.Status c) /\
  proxmoxcluster.SetInClusterIPPoolRef (Some name) c' = c'.
Proof.
  intros Hname c'.
  assert (Hnames := SetInClusterIPPoolRef_names name c Hname). fold c' in Hnames.
  assert (Hin : name ∈ proxmoxcluster.poolNames c').
  { rewrite Hnames. case_bool_decide; [done |]. apply elem_of_app. right. by left. }
  split; [exact Hin |]. split; [| split; [| split]].
  - rewrite Hnames. case_bool_decide; [done |]. by apply prefix_app_r.
  - intros Hnodup. rewrite Hnames. case_bool_decide as Hold; [done |].
    apply NoDup_app. split; [done |]. split; [| apply NoDup_singleton].
    intros x Hx ->%list_elem_of_singleton. contradiction.
  - apply SetInClusterIPPoolRef_nodeLocations.
  - assert (Hsome : proxmoxcluster.InClusterIPPoolRef (proxmoxcluster.Status c') ≠ None).
    { subst c'. unfold proxmoxcluster.SetInClusterIPPoolRef.
      rewrite bool_decide_eq_false_2 by done.
      destruct c as [[[refs |] nl]]; simpl; repeat case_match; done. }
    clearbody c'. destruct c' as [[[refs |] nl]]; [| done].
    unfold proxmoxcluster.SetInClusterIPPoolRef.
    rewrite bool_decide_eq_false_2 by done.
    cbn [proxmoxcluster.Status proxmoxcluster.InClusterIPPoolRef proxmoxcluster.slice default].
    rewrite found_loop. unfold proxmoxcluster.poolNames in Hin. simpl in Hin.
    rewrite (bool_decide_eq_true_2 _ Hin). reflexivity.
Qed.

End PoolRefProperties.

(** ** The node locations of the cluster status *)

Section NodeLocationProperties.

Import proxmoxcluster.

Abbreviation nameOf := (fun loc : NodeLocation => corev1.Name (Machine loc)).

Lemma firstNode_cons (loc : NodeLocation) (l : list NodeLocation) (m : string) :
  firstNode (loc :: l) m = if decide (nameOf loc = m) then Node loc else firstNode l m.
Proof.
  unfold firstNode. cbn [list_find]. case_decide; [done |].
  by destruct (list_find _ l) as [[i x] |].
Qed.

Lemma firstNode_app_not_in (l1 l2 : list NodeLocation) (m : string) :
  m ∉ map nameOf l1 -> firstNode (l1 ++ l2) m = firstNode l2 m.
Proof.
  induction l1 as [| loc l1 IH]; intros Hnot; [done |].
  simpl in *. rewrite firstNode_cons. apply not_elem_of_cons in Hnot as [Hne Hnot].
  rewrite decide_False by congruence. by apply IH.
Qed.

Lemma firstNode_not_in (l : list NodeLocation) (m : string) :
  m ∉ map nameOf l -> firstNode l m = "".
Proof.
  intros Hnot. rewrite <- (app_nil_r l). by rewrite firstNode_app_not_in.
Qed.

Lemma firstNode_in (l : list NodeLocation) (m : string) :
  Forall (fun loc => Node loc ≠ "") l -> m ∈ map nameOf l -> firstNode l m ≠ "".
Proof.
  induction 1 as [| loc l Hloc Hl IH]; simpl; intros Hin.
  - by apply elem_of_nil in Hin.
  - rewrite firstNode_cons. case_decide as Hname; [done |].
    apply elem_of_cons in Hin as [-> | Hin]; [done | by apply IH].
Qed.

(** Where every node is named, a machine is present exactly when it is
    recorded. *)
Lemma HasMachine_iff (m : string) (cp : bool) (c : ProxmoxCluster) :
  Forall (fun loc => Node loc ≠ "") (locationsOf cp c) ->
  HasMachine m cp c = true <-> m ∈ machines cp c.
Proof.
  unfold HasMachine, GetNode, locationsOf, machines.
  destruct (NodeLocations_ (Status c)) as [nl |]; intros Hnodes.
  - rewrite negb_true_iff, bool_decide_eq_false. split.
    + intros Hnode. destruct (decide (m ∈ map nameOf (role cp nl))) as [| Hnot]; [done |].
      by apply firstNode_not_in in Hnot.
    + by apply firstNode_in.
  - rewrite bool_decide_eq_true_2 by done. split; [done | by intros ?%elem_of_nil].
Qed.

Lemma role_set_role (cp : bool) (v : list NodeLocation) (nl : NodeLocations) :
  role cp (set_role cp v nl) = v.
Proof. by destruct cp. Qed.

Lemma role_set_role_other (cp : bool) (v : list NodeLocation) (nl : NodeLocations) :
  role (negb cp) (set_role cp v nl) = role (negb cp) nl.
Proof. by destruct cp. Qed.

Lemma set_role_role (cp : bool) (nl : NodeLocations) : set_role cp (role cp nl) nl = nl.
Proof. by destruct cp, nl. Qed.

(** What [AddNodeLocation] does, in all cases. *)
Lemma AddNodeLocation_locations (loc : NodeLocation) (cp : bool) (c : ProxmoxCluster) :
  exists c' : ProxmoxCluster,
    AddNodeLocation loc cp c = Some c' /\
    locationsOf cp c' =
      (if HasMachine (nameOf loc) cp c then locationsOf cp c else locationsOf cp c ++ [loc]) /\
    locationsOf (negb cp) c' = locationsOf (negb cp) c /\
    InClusterIPPoolRef (Status c') = InClusterIPPoolRef (Status c) /\
    NodeLocations_ (Status c') ≠ None.
Proof.
  unfold AddNodeLocation, addNodeLocation, HasMachine, GetNode, locationsOf.
  destruct c as [[refs [nl |]]]; simpl.
  - destruct (negb (bool_decide (firstNode (role cp nl) (nameOf loc) = ""))) eqn:Hhas; simpl.
    + eexists. split; [reflexivity |]. simpl. by destruct cp.
    + eexists. split; [reflexivity |]. simpl.
      rewrite role_set_role, role_set_role_other. done.
  - destruct cp; simpl; eexists; (split; [reflexivity |]); simpl; done.
Qed.

(** ** The removal loop *)

Lemma removeLoop_no_match (m : string) (indices : list nat) (arr : list NodeLocation)
    (cur : nat) :
  (forall i : nat, i ∈ indices -> exists v, arr !! i = Some v /\ nameOf v ≠ m) ->
  removeLoop m indices arr cur = Some (arr, cur).
Proof.
  induction indices as [| i rest IH]; intros Hall; [done |].
  destruct (Hall i) as (v & Hv & Hne); [by left |].
  cbn [removeLoop]. rewrite Hv. simpl. rewrite bool_decide_eq_false_2 by done.
  apply IH. intros j Hj. apply Hall. by right.
Qed.

Lemma removeLoop_app (m : string) (xs ys : list nat) (arr : list NodeLocation) (cur : nat) :
  removeLoop m (xs ++ ys) arr cur =
    removeLoop m xs arr cur ≫= fun st => removeLoop m ys st.1 st.2.
Proof.
  revert arr cur. induction xs as [| i xs IH]; intros arr cur; [done |].
  cbn [removeLoop app]. destruct (arr !! i) as [v |]; simpl; [| done].
  case_bool_decide; [| by apply IH].
  destruct (removeAt arr cur i) as [[arr' cur'] |]; simpl; [by apply IH | done].
Qed.

(** Removing a machine that is recorded once takes its location out and
    keeps the others in order. *)
Lemma removeFrom_unique (pre post : list NodeLocation) (x : NodeLocation) (m : string) :
  nameOf x = m ->
  m ∉ map nameOf pre ->
  m ∉ map nameOf post ->
  removeFrom m (pre ++ x :: post) = Some (pre ++ post).
Proof.
  intros Hx Hpre Hpost. unfold removeFrom.
  assert (Hlen : length (pre ++ x :: post) = length pre + S (length post)).
  { by rewrite length_app. }
  rewrite Hlen at 1. rewrite List.seq_app, removeLoop_app. simpl.
  rewrite removeLoop_no_match; cycle 1.
  { intros i Hi. apply elem_of_seq in Hi as [_ Hi]. simpl in Hi.
    destruct (lookup_lt_is_Some_2 pre i Hi) as [v Hv]. exists v.
    split; [by apply lookup_app_l_Some |].
    intros Hname. apply Hpre. apply list_elem_of_fmap. exists v.
    split; [done | by eapply list_elem_of_lookup_2]. }
  simpl. rewrite list_lookup_middle by done. simpl.
  rewrite bool_decide_eq_true_2 by done.
  unfold removeAt. rewrite bool_decide_eq_true_2 by lia. simpl.
  set (tail := drop (length (pre ++ x :: post) - 1) (pre ++ x :: post)).
  assert (Htake : take (length pre) (pre ++ x :: post) = pre) by apply take_app_length.
  assert (Hdrop : drop (length pre + 1) (pre ++ x :: post) = post).
  { rewrite cons_middle, app_assoc.
    replace (length pre + 1) with (length (pre ++ [x])) by (rewrite length_app; simpl; lia).
    apply drop_app_length. }
  rewrite Htake, Hdrop.
  replace (length (pre ++ x :: post) - (length pre + 1)) with (length post) by lia.
  rewrite firstn_all.
  assert (Htail : forall v, v ∈ tail -> post ≠ [] -> v ∈ post).
  { intros v Hv Hne. subst tail. rewrite Hlen in Hv.
    replace (length pre + S (length post) - 1) with (length pre + length post) in Hv by lia.
    rewrite <- drop_drop, drop_app_length in Hv.
    destruct post as [| p post']; [done |]. simpl in Hv.
    by eapply subseteq_drop. }
  rewrite removeLoop_no_match; cycle 1.
  { intros i Hi. apply elem_of_seq in Hi as [Hlo Hhi].
    assert (Hpost_ne : post ≠ []) by (destruct post; simpl in *; [lia | done]).
    assert (Hsome : is_Some ((pre ++ post ++ tail) !! i)).
    { apply lookup_lt_is_Some_2. rewrite !length_app. subst tail.
      rewrite length_drop. lia. }
    destruct Hsome as [v Hv]. exists v. split; [done |].
    rewrite lookup_app_r in Hv by lia.
    assert (Hin : v ∈ post).
    { apply list_elem_of_lookup_2 in Hv. apply elem_of_app in Hv as [Hv | Hv]; [done |].
      by apply Htail. }
    intros Hname. apply Hpost. apply list_elem_of_fmap. by exists v. }
  simpl. f_equal.
  replace (length (pre ++ x :: post) - 1) with (length (pre ++ post))
    by (rewrite Hlen, length_app; lia).
  rewrite app_assoc. apply take_app_length.
Qed.


Lemma GetNode_locationsOf (m : string) (cp : bool) (c : ProxmoxCluster) :
  GetNode m cp c = firstNode (locationsOf cp c) m.
Proof. unfold GetNode, locationsOf. by destruct (NodeLocations_ (Status c)). Qed.

Lemma machines_locationsOf (cp : bool) (c : ProxmoxCluster) :
  machines cp c = map nameOf (locationsOf cp c).
Proof. unfold machines, locationsOf. by destruct (NodeLocations_ (Status c)). Qed.

Lemma firstNode_app_in (l1 l2 : list NodeLocation) (m : string) :
  m ∈ map nameOf l1 -> firstNode (l1 ++ l2) m = firstNode l1 m.
Proof.
  induction l1 as [| loc l1 IH]; simpl; intros Hin.
  - by apply elem_of_nil in Hin.
  - rewrite !firstNode_cons. case_decide as Hname; [done |].
    apply elem_of_cons in Hin as [-> | Hin]; [done | by apply IH].
Qed.

(** Appending a location changes the node of no machine but its own. *)
Lemma firstNode_snoc_other (l : list NodeLocation) (loc : NodeLocation) (m : string) :
  nameOf loc ≠ m -> firstNode (l ++ [loc]) m = firstNode l m.
Proof.
  intros Hne. destruct (decide (m ∈ map nameOf l)) as [Hin | Hnot].
  - by apply firstNode_app_in.
  - rewrite (firstNode_app_not_in l), (firstNode_not_in l) by done.
    rewrite firstNode_cons, decide_False by done. reflexivity.
Qed.

(** Renaming the node of the first location of [m] changes the node of
    [m] and of no other machine. *)
#[local] Arguments firstNode : simpl never.

Lemma firstNode_update (l : list NodeLocation) (i : nat) (loc : NodeLocation)
    (m m' node : string) :
  list_find (fun loc => nameOf loc = m) l = Some (i, loc) ->
  firstNode (<[i := mkNodeLocation (Machine loc) node]> l) m' =
    if decide (m' = m) then node else firstNode l m'.
Proof.
  revert i. induction l as [| a l IH]; intros i Hfind; [done |].
  cbn [list_find] in Hfind. destruct (decide (nameOf a = m)) as [Ha | Ha].
  - injection Hfind as <- <-.
    change (firstNode (mkNodeLocation (Machine a) node :: l) m' =
              if decide (m' = m) then node else firstNode (a :: l) m').
    rewrite !firstNode_cons. simpl. destruct (decide (m' = m)) as [-> | Hm].
    + by rewrite decide_True by done.
    + by rewrite !decide_False by congruence.
  - destruct (list_find _ l) as [[i' loc'] |] eqn:Hl; [| done].
    simpl in Hfind. injection Hfind as <- <-.
    change (firstNode (a :: <[i' := mkNodeLocation (Machine loc') node]> l) m' =
              if decide (m' = m) then node else firstNode (a :: l) m').
    rewrite !firstNode_cons. destruct (decide (nameOf a = m')) as [Ha' | Ha'].
    + by rewrite decide_False by congruence.
    + by apply IH.
Qed.

Lemma filter_other_names (l : list NodeLocation) (m : string) :
  m ∉ map nameOf l -> filter (fun loc => nameOf loc ≠ m) l = l.
Proof.
  induction l as [| a l IH]; [done |]. simpl. intros [Hne Hnot]%not_elem_of_cons.
  rewrite filter_cons_True by congruence. f_equal. by apply IH.
Qed.

(** The locations of a role in which [m] is recorded once. *)
Lemma split_unique (l : list NodeLocation) (m : string) :
  NoDup (map nameOf l) ->
  m ∈ map nameOf l ->
  exists pre x post,
    l = pre ++ x :: post /\ nameOf x = m /\ (m ∉ map nameOf pre) /\ (m ∉ map nameOf post).
Proof.
  intros Hnodup Hin.
  apply list_elem_of_fmap in Hin as (x & Hx & Hin).
  apply list_elem_of_split in Hin as (pre & post & ->).
  exists pre, x, post. split; [done |]. split; [done |].
  rewrite List.map_app in Hnodup. simpl in Hnodup.
  apply NoDup_app in Hnodup as (_ & Hdisj & Hrest).
  apply NoDup_cons in Hrest as [Hpost _]. split; [| congruence].
  intros Hpre. apply (Hdisj _ Hpre). rewrite Hx. by left.
Qed.

(** What [RemoveNodeLocation] does where the bookkeeping is in order. *)
Lemma RemoveNodeLocation_locations (m : string) (cp : bool) (c : ProxmoxCluster) :
  wellFormed cp c ->
  exists c' : ProxmoxCluster,
    RemoveNodeLocation m cp c = Some c' /\
    locationsOf cp c' = filter (fun loc => nameOf loc ≠ m) (locationsOf cp c) /\
    locationsOf (negb cp) c' = locationsOf (negb cp) c /\
    InClusterIPPoolRef (Status c') = InClusterIPPoolRef (Status c).
Proof.
  intros [Hnodup Hnodes].
  pose proof (HasMachine_iff m cp c Hnodes) as Hhas.
  rewrite machines_locationsOf in Hnodup, Hhas.
  unfold RemoveNodeLocation. unfold locationsOf in *.
  destruct c as [[refs [nl |]]]; simpl in *; [| by exists (mkProxmoxCluster (mkProxmoxClusterStatus refs None))].
  destruct (HasMachine m cp _) eqn:Hm; simpl.
  - destruct (split_unique _ m Hnodup) as (pre & x & post & Hl & Hx & Hpre & Hpost).
    { by apply Hhas. }
    rewrite Hl, removeFrom_unique by done. simpl. eexists. split; [reflexivity |]. simpl.
    rewrite role_set_role, role_set_role_other. split; [| done].
    rewrite filter_app, filter_cons_False by (intros Hne; by apply Hne).
    by rewrite !filter_other_names.
  - eexists. split; [reflexivity |]. simpl. split; [| done].
    rewrite filter_other_names; [done |]. intros Hin. apply Hhas in Hin. congruence.
Qed.

Lemma NoDup_names_filter (P : NodeLocation -> Prop) `{forall x, Decision (P x)}
    (l : list NodeLocation) :
  NoDup (map nameOf l) -> NoDup (map nameOf (filter P l)).
Proof.
  intros Hnodup. eapply sublist_NoDup; [exact Hnodup |].
  apply (fmap_sublist nameOf). apply sublist_filter.
Qed.


Lemma HasMachine_locationsOf (m : string) (cp : bool) (c : ProxmoxCluster) :
  HasMachine m cp c = negb (bool_decide (firstNode (locationsOf cp c) m = "")).
Proof. unfold HasMachine. by rewrite GetNode_locationsOf. Qed.

Lemma HasMachine_false_not_in (m : string) (cp : bool) (c : ProxmoxCluster) :
  m ∉ machines cp c -> HasMachine m cp c = false.
Proof.
  rewrite machines_locationsOf, HasMachine_locationsOf. intros Hnot.
  by rewrite firstNode_not_in, bool_decide_eq_true_2.
Qed.

(** Adding a location with a named node keeps the bookkeeping in order. *)
Lemma AddNodeLocation_wf (loc : NodeLocation) (cp : bool) (c c' : ProxmoxCluster) :
  Node loc ≠ "" ->
  wellFormed cp c ->
  AddNodeLocation loc cp c = Some c' ->
  wellFormed cp c' /\ HasMachine (nameOf loc) cp c' = true.
Proof.
  intros Hnode [Hnodup Hnodes] Hadd.
  destruct (AddNodeLocation_locations loc cp c) as (c0 & Hadd0 & Hlocs & _).
  rewrite Hadd in Hadd0. injection Hadd0 as <-.
  pose proof (HasMachine_iff (nameOf loc) cp c Hnodes) as Hiff.
  unfold wellFormed. rewrite !machines_locationsOf in *.
  rewrite (HasMachine_locationsOf _ cp c'), Hlocs.
  destruct (HasMachine (nameOf loc) cp c) eqn:Hhas.
  - split; [done |]. by rewrite <- HasMachine_locationsOf.
  - assert (Hnot : nameOf loc ∉ map nameOf (locationsOf cp c)).
    { intros Hin. apply Hiff in Hin. congruence. }
    split; [split |].
    + rewrite List.map_app. apply NoDup_app. split; [done |]. split; [| apply NoDup_singleton].
      intros x Hx ->%list_elem_of_singleton. contradiction.
    + apply Forall_app. split; [done |]. by apply Forall_singleton.
    + rewrite firstNode_app_not_in by done. rewrite firstNode_cons, decide_True by done.
      by rewrite bool_decide_eq_false_2.
Qed.

(** X14. [AddNodeLocation] on a well-formed role with a named node never
    panics, leaves the role well-formed and the machine present; a
    machine that was present keeps the node it had, a new one gets the
    node of the location; no other machine and not the other role is
    touched. *)
Theorem AddNodeLocation_keeps_wellFormed (loc : NodeLocation) (cp : bool)
    (c : ProxmoxCluster) :
  Node loc ≠ "" ->
  wellFormed cp c ->
  exists c' : ProxmoxCluster,
    AddNodeLocation loc cp c = Some c' /\
    wellFormed cp c' /\
    HasMachine (nameOf loc) cp c' = true /\
    GetNode (nameOf loc) cp c' =
      (if HasMachine (nameOf loc) cp c then GetNode (nameOf loc) cp c else Node loc) /\
    (forall m : string, m ≠ nameOf loc -> GetNode m cp c' = GetNode m cp c) /\
    locationsOf (negb cp) c' = locationsOf (negb cp) c.
Proof.
  intros Hnode Hwf.
  destruct (AddNodeLocation_locations loc cp c) as (c' & Hadd & Hlocs & Hother & _).
  exists c'. split; [done |].
  destruct (AddNodeLocation_wf loc cp c c' Hnode Hwf Hadd) as [Hwf' Hhas'].
  split; [done |]. split; [done |].
  rewrite !GetNode_locationsOf, Hlocs. destruct Hwf as [_ Hnodes].
  pose proof (HasMachine_iff (nameOf loc) cp c Hnodes) as Hiff.
  rewrite machines_locationsOf in Hiff.
  destruct (HasMachine (nameOf loc) cp c) eqn:Hhas.
  - split; [done |]. split; [| done]. intros m _. by rewrite !GetNode_locationsOf, Hlocs.
  - assert (Hnot : nameOf loc ∉ map nameOf (locationsOf cp c)).
    { intros Hin. apply Hiff in Hin. congruence. }
    split; [| split; [| done]].
    + rewrite firstNode_app_not_in by done. by rewrite firstNode_cons, decide_True.
    + intros m Hm. rewrite !GetNode_locationsOf, Hlocs.
      apply firstNode_snoc_other. congruence.
Qed.

(** X15. Adding the same location a second time changes nothing. *)
Theorem AddNodeLocation_idempotent (loc : NodeLocation) (cp : bool) (c : ProxmoxCluster) :
  Node loc ≠ "" ->
  wellFormed cp c ->
  exists c' : ProxmoxCluster,
    AddNodeLocation loc cp c = Some c' /\ AddNodeLocation loc cp c' = Some c'.
Proof.
  intros Hnode Hwf.
  destruct (AddNodeLocation_locations loc cp c) as (c' & Hadd & _ & _ & _ & Hsome).
  exists c'. split; [done |].
  destruct (AddNodeLocation_wf loc cp c c' Hnode Hwf Hadd) as [_ Hhas'].
  unfold AddNodeLocation.
  destruct (NodeLocations_ (Status c')) as [nl |] eqn:Hnl; [| done].
  by rewrite Hhas'.
Qed.

(** X16. A location whose node is the empty string does not make its machine
    present: added twice for a machine not yet recorded, it is recorded
    twice. *)
Theorem AddNodeLocation_empty_node_twice (loc : NodeLocation) (cp : bool)
    (c : ProxmoxCluster) :
  Node loc = "" ->
  nameOf loc ∉ machines cp c ->
  exists c1 c2 : ProxmoxCluster,
    AddNodeLocation loc cp c = Some c1 /\
    AddNodeLocation loc cp c1 = Some c2 /\
    HasMachine (nameOf loc) cp c2 = false /\
    locationsOf cp c2 = locationsOf cp c ++ [loc; loc] /\
    ~ NoDup (machines cp c2).
Proof.
  intros Hnode Hnot.
  destruct (AddNodeLocation_locations loc cp c) as (c1 & Hadd1 & Hlocs1 & _).
  destruct (AddNodeLocation_locations loc cp c1) as (c2 & Hadd2 & Hlocs2 & _).
  exists c1, c2. split; [done |]. split; [done |].
  rewrite HasMachine_false_not_in in Hlocs1 by done.
  rewrite machines_locationsOf in Hnot.
  assert (Hhas1 : HasMachine (nameOf loc) cp c1 = false).
  { rewrite HasMachine_locationsOf, Hlocs1, firstNode_app_not_in by done.
    rewrite firstNode_cons, decide_True, Hnode by done. reflexivity. }
  rewrite Hhas1 in Hlocs2. rewrite Hlocs1 in Hlocs2.
  assert (Hhas2 : HasMachine (nameOf loc) cp c2 = false).
  { rewrite HasMachine_locationsOf, Hlocs2, <- app_assoc, firstNode_app_not_in by done.
    cbn [app]. rewrite firstNode_cons, decide_True, Hnode by done. reflexivity. }
  split; [done |]. split; [by rewrite Hlocs2, <- app_assoc |].
  rewrite machines_locationsOf, Hlocs2, <- app_assoc, List.map_app. simpl.
  intros Hnodup. apply NoDup_app in Hnodup as (_ & _ & Hdup).
  apply NoDup_cons in Hdup as [Hdup _]. apply Hdup. by left.
Qed.

Lemma locationsOf_set_role (cp : bool) (v : list NodeLocation) (nl : NodeLocations)
    (c : ProxmoxCluster) :
  locationsOf cp (set_NodeLocations (Some (set_role cp v nl)) c) = v /\
  locationsOf (negb cp) (set_NodeLocations (Some (set_role cp v nl)) c) = role (negb cp) nl.
Proof. unfold locationsOf. simpl. by rewrite role_set_role, role_set_role_other. Qed.

(** The two ways [UpdateNodeLocation] goes. *)
Lemma UpdateNodeLocation_cases (m node : string) (cp : bool) (c : ProxmoxCluster) :
  (HasMachine m cp c = false /\
   exists c', AddNodeLocation (mkNodeLocation (corev1.mkLocalObjectReference m) node) cp c =
                Some c' /\
              UpdateNodeLocation m node cp c = Some (c', true)) \/
  (HasMachine m cp c = true /\
   exists nl i loc,
     NodeLocations_ (Status c) = Some nl /\
     list_find (fun loc => nameOf loc = m) (role cp nl) = Some (i, loc) /\
     UpdateNodeLocation m node cp c =
       Some (if bool_decide (Node loc = node) then (c, false)
             else (set_NodeLocations
                     (Some (set_role cp (<[i := mkNodeLocation (Machine loc) node]> (role cp nl))
                              nl)) c, true))).
Proof.
  unfold UpdateNodeLocation. destruct (HasMachine m cp c) eqn:Hhas; simpl.
  - right. split; [done |].
    unfold HasMachine, GetNode, firstNode in Hhas.
    destruct (NodeLocations_ (Status c)) as [nl |]; [| done]. simpl.
    destruct (list_find _ (role cp nl)) as [[i loc] |] eqn:Hfind; [| done].
    exists nl, i, loc. split; [done |]. split; [exact Hfind |].
    destruct (bool_decide (Node loc = node)); reflexivity.
  - left. split; [done |].
    destruct (AddNodeLocation_locations
                (mkNodeLocation (corev1.mkLocalObjectReference m) node) cp c)
      as (c' & Hadd & _).
    exists c'. split; [done |]. by rewrite Hadd.
Qed.

(** X17. After [UpdateNodeLocation] the machine is on the given node; no
    other machine and not the other role is touched.  The nodes recorded
    before must be named. *)
Theorem UpdateNodeLocation_then_GetNode (m node : string) (cp : bool) (c : ProxmoxCluster) :
  Forall (fun loc => Node loc ≠ "") (locationsOf cp c) ->
  exists (c' : ProxmoxCluster) (b : bool),
    UpdateNodeLocation m node cp c = Some (c', b) /\
    GetNode m cp c' = node /\
    (forall m' : string, m' ≠ m -> GetNode m' cp c' = GetNode m' cp c) /\
    locationsOf (negb cp) c' = locationsOf (negb cp) c.
Proof.
  intros Hnodes.
  destruct (UpdateNodeLocation_cases m node cp c)
    as [(Hhas & c' & Hadd & Hupd) | (Hhas & nl & i & loc & Hnl & Hfind & Hupd)].
  - exists c', true. split; [done |].
    destruct (AddNodeLocation_locations
                (mkNodeLocation (corev1.mkLocalObjectReference m) node) cp c)
      as (c0 & Hadd0 & Hlocs & Hother & _).
    rewrite Hadd in Hadd0. injection Hadd0 as <-. simpl in Hlocs. rewrite Hhas in Hlocs.
    assert (Hnot : m ∉ map nameOf (locationsOf cp c)).
    { rewrite <- machines_locationsOf. intros Hin.
      apply (HasMachine_iff m cp c Hnodes) in Hin. congruence. }
    rewrite !GetNode_locationsOf, Hlocs. split; [| split; [| done]].
    + rewrite firstNode_app_not_in by done. by rewrite firstNode_cons, decide_True.
    + intros m' Hm'. rewrite GetNode_locationsOf, Hlocs, GetNode_locationsOf.
      apply firstNode_snoc_other. simpl. congruence.
  - assert (Hl : locationsOf cp c = role cp nl) by (unfold locationsOf; by rewrite Hnl).
    assert (Hl' : locationsOf (negb cp) c = role (negb cp) nl)
      by (unfold locationsOf; by rewrite Hnl).
    pose proof (proj1 (list_find_Some _ _ _ _) Hfind) as (Hi & Hname & _).
    case_bool_decide as Hsame.
    + exists c, false. split; [done |]. split; [| done].
      rewrite GetNode_locationsOf, Hl. unfold firstNode. by rewrite Hfind.
    + eexists _, true. split; [exact Hupd |].
      destruct (locationsOf_set_role cp
                  (<[i := mkNodeLocation (Machine loc) node]> (role cp nl)) nl c)
        as [Hsame' Hother'].
      rewrite Hother', Hl'. split; [| split; [| done]].
      * rewrite GetNode_locationsOf, Hsame', (firstNode_update _ _ _ m) by done.
        by rewrite decide_True.
      * intros m' Hm'. rewrite !GetNode_locationsOf, Hsame', Hl.
        rewrite (firstNode_update _ _ _ m) by done. by rewrite decide_False.
Qed.

(** X18. [UpdateNodeLocation] never panics, and the boolean it returns tells
    whether it changed the cluster: it is false exactly when the cluster
    is left as it was, which is exactly when the machine already was on
    the given, named node. *)
Theorem UpdateNodeLocation_reports_change (m node : string) (cp : bool) (c : ProxmoxCluster) :
  exists (c' : ProxmoxCluster) (b : bool),
    UpdateNodeLocation m node cp c = Some (c', b) /\
    (b = false <-> c' = c) /\
    (b = false <-> GetNode m cp c = node /\ node ≠ "").
Proof.
  destruct (UpdateNodeLocation_cases m node cp c)
    as [(Hhas & c' & Hadd & Hupd) | (Hhas & nl & i & loc & Hnl & Hfind & Hupd)].
  - exists c', true. split; [done |].
    destruct (AddNodeLocation_locations
                (mkNodeLocation (corev1.mkLocalObjectReference m) node) cp c)
      as (c0 & Hadd0 & Hlocs & _).
    rewrite Hadd in Hadd0. injection Hadd0 as <-. simpl in Hlocs. rewrite Hhas in Hlocs.
    split; split; try done.
    + intros ->. apply (f_equal length) in Hlocs. rewrite length_app in Hlocs. simpl in Hlocs. lia.
    + intros [Hnode Hne]. unfold HasMachine in Hhas. rewrite Hnode in Hhas.
      by rewrite bool_decide_eq_false_2 in Hhas.
  - assert (Hget : GetNode m cp c = Node loc).
    { unfold GetNode, firstNode. by rewrite Hnl, Hfind. }
    assert (Hne : Node loc ≠ "").
    { unfold HasMachine in Hhas. rewrite Hget in Hhas.
      by apply negb_true_iff, bool_decide_eq_false in Hhas. }
    pose proof (proj1 (list_find_Some _ _ _ _) Hfind) as (Hi & _).
    case_bool_decide as Hsame.
    + exists c, false. split; [done |]. split; [done |]. split; [| done].
      intros _. rewrite Hget. split; congruence.
    + eexists _, true. split; [exact Hupd |]. split; split; try done.
      * intros Heq. apply (f_equal (locationsOf cp)) in Heq.
        rewrite (proj1 (locationsOf_set_role cp _ nl c)) in Heq.
        unfold locationsOf in Heq. rewrite Hnl in Heq.
        apply (f_equal (fun l => l !! i)) in Heq.
        rewrite list_lookup_insert_eq in Heq by (by eapply lookup_lt_Some).
        rewrite Hi in Heq. injection Heq as Heq. destruct loc; simpl in *. congruence.
      * intros [Hnode _]. congruence.
Qed.


Lemma firstNode_filter_other (l : list NodeLocation) (m m' : string) :
  m' ≠ m -> firstNode (filter (fun loc => nameOf loc ≠ m) l) m' = firstNode l m'.
Proof.
  intros Hne. induction l as [| a l IH]; [done |].
  rewrite filter_cons. case_decide as Ha.
  - rewrite !firstNode_cons. by case_decide.
  - rewrite firstNode_cons, decide_False; [done |].
    congruence.
Qed.

Lemma names_filter_out (l : list NodeLocation) (m : string) :
  m ∉ map nameOf (filter (fun loc => nameOf loc ≠ m) l).
Proof.
  intros (x & Hx & Hin)%list_elem_of_fmap. apply list_elem_of_filter in Hin as [Hne _].
  by apply Hne.
Qed.

(** X19. [RemoveNodeLocation] on a well-formed role never panics: the
    locations of the machine are gone and the machine is no longer
    present, the others stay in order, the nodes of the other machines,
    the other role and well-formedness are kept. *)
Theorem RemoveNodeLocation_removes (m : string) (cp : bool) (c : ProxmoxCluster) :
  wellFormed cp c ->
  exists c' : ProxmoxCluster,
    RemoveNodeLocation m cp c = Some c' /\
    locationsOf cp c' = filter (fun loc => nameOf loc ≠ m) (locationsOf cp c) /\
    HasMachine m cp c' = false /\
    (forall m' : string, m' ≠ m -> GetNode m' cp c' = GetNode m' cp c) /\
    locationsOf (negb cp) c' = locationsOf (negb cp) c /\
    wellFormed cp c'.
Proof.
  intros Hwf.
  destruct (RemoveNodeLocation_locations m cp c Hwf) as (c' & Hrem & Hlocs & Hother & _).
  exists c'. split; [done |]. split; [done |]. destruct Hwf as [Hnodup Hnodes].
  split; [| split; [| split; [done |]]].
  - apply HasMachine_false_not_in. rewrite machines_locationsOf, Hlocs.
    apply names_filter_out.
  - intros m' Hm'. rewrite !GetNode_locationsOf, Hlocs. by apply firstNode_filter_other.
  - unfold wellFormed. rewrite machines_locationsOf in *. rewrite Hlocs. split.
    + by apply NoDup_names_filter.
    + apply Forall_forall. intros v [_ Hv]%list_elem_of_filter.
      by apply (proj1 (Forall_forall _ _) Hnodes).
Qed.

(** X20. Adding a machine that is not recorded, with a named node, and
    removing it again gives back the locations of both roles and the pool
    references, whatever the role held before. *)
Theorem RemoveNodeLocation_after_AddNodeLocation (loc : NodeLocation) (cp : bool)
    (c : ProxmoxCluster) :
  Node loc ≠ "" ->
  nameOf loc ∉ machines cp c ->
  exists c1 c2 : ProxmoxCluster,
    AddNodeLocation loc cp c = Some c1 /\
    RemoveNodeLocation (nameOf loc) cp c1 = Some c2 /\
    locationsOf cp c1 = locationsOf cp c ++ [loc] /\
    locationsOf cp c2 = locationsOf cp c /\
    locationsOf (negb cp) c2 = locationsOf (negb cp) c /\
    InClusterIPPoolRef (Status c2) = InClusterIPPoolRef (Status c).
Proof.
  intros Hnode Hnot.
  destruct (AddNodeLocation_locations loc cp c) as (c1 & Hadd & Hlocs1 & Hother1 & Hrefs1 & Hnl1).
  rewrite HasMachine_false_not_in in Hlocs1 by done.
  rewrite machines_locationsOf in Hnot.
  assert (Hhas : HasMachine (nameOf loc) cp c1 = true).
  { rewrite HasMachine_locationsOf, Hlocs1, firstNode_app_not_in by done.
    rewrite firstNode_cons, decide_True by done.
    by rewrite bool_decide_eq_false_2. }
  assert (Hrem : removeFrom (nameOf loc) (locationsOf cp c1) = Some (locationsOf cp c)).
  { rewrite Hlocs1.
    rewrite <- (app_nil_r (locationsOf cp c)) at 2.
    apply removeFrom_unique; [done | done | apply not_elem_of_nil]. }
  assert (Hnl : exists nl1, NodeLocations_ (Status c1) = Some nl1) by
    (destruct (NodeLocations_ (Status c1)); [by eexists | done]).
  destruct Hnl as [nl1 Hnl].
  assert (Hrole : forall b, locationsOf b c1 = role b nl1) by
    (intros b; unfold locationsOf; by rewrite Hnl).
  exists c1, (set_NodeLocations (Some (set_role cp (locationsOf cp c) nl1)) c1).
  split; [done |]. split.
  { unfold RemoveNodeLocation. rewrite Hnl, Hhas. simpl.
    rewrite <- Hrole, Hrem. done. }
  split; [done |].
  rewrite (proj1 (locationsOf_set_role cp _ nl1 c1)).
  rewrite (proj2 (locationsOf_set_role cp _ nl1 c1)).
  split; [done |]. split; [| done].
  by rewrite <- Hrole.
Qed.

(** ** The removal loop on a machine recorded twice *)

(** Once the field is shorter than the array the range runs over, the
    loop panics at the latest on the last index, if the last location of
    the array is the machine's. *)
Lemma removeLoop_panics (m : string) (y : NodeLocation) (n : nat) (indices : list nat)
    (arr : list NodeLocation) (cur : nat) :
  nameOf y = m ->
  length arr = S n ->
  arr !! n = Some y ->
  cur ≤ n ->
  Forall (fun i => i < n) indices ->
  removeLoop m (indices ++ [n]) arr cur = None.
Proof.
  intros Hy. revert arr cur.
  induction indices as [| i rest IH]; intros arr cur Hlen Hlast Hcur Hidx.
  - simpl. rewrite Hlast. simpl. rewrite bool_decide_eq_true_2 by done.
    unfold removeAt. rewrite bool_decide_eq_false_2 by lia. reflexivity.
  - apply Forall_cons in Hidx as [Hi Hidx]. cbn [app removeLoop].
    destruct (arr !! i) as [v |]; simpl; [| done].
    case_bool_decide as Hv; [| by apply IH].
    unfold removeAt. case_bool_decide as Hbound; simpl; [| done].
    apply IH; [| | lia | done].
    + rewrite !length_app, length_take, length_take, !length_drop. lia.
    + rewrite !lookup_app_r; rewrite ?length_take, ?length_drop; try lia.
      rewrite lookup_drop. rewrite <- Hlast. f_equal. lia.
Qed.

(** X21. [RemoveNodeLocation] panics when the machine is present, recorded
    more than once, and its last location is the last of the role. *)
Theorem RemoveNodeLocation_duplicate_panics (m : string) (cp : bool) (c : ProxmoxCluster)
    (pre mid : list NodeLocation) (x y : NodeLocation) :
  locationsOf cp c = pre ++ x :: mid ++ [y] ->
  m ∉ map nameOf pre ->
  nameOf x = m ->
  Node x ≠ "" ->
  nameOf y = m ->
  RemoveNodeLocation m cp c = None.
Proof.
  intros Hlocs Hpre Hx Hnode Hy.
  assert (Hhas : HasMachine m cp c = true).
  { rewrite HasMachine_locationsOf, Hlocs, firstNode_app_not_in by done.
    rewrite firstNode_cons, decide_True by done. by rewrite bool_decide_eq_false_2. }
  unfold RemoveNodeLocation. rewrite Hhas. unfold locationsOf in Hlocs.
  destruct (NodeLocations_ (Status c)) as [nl |]; [| by destruct pre].
  simpl. rewrite Hlocs. unfold removeFrom.
  set (l := pre ++ x :: mid ++ [y]).
  assert (Hlen : length l = S (length pre + S (length mid))).
  { subst l. rewrite length_app. simpl. rewrite length_app. simpl. lia. }
  assert (Hlast : l !! (length pre + S (length mid)) = Some y).
  { subst l. rewrite lookup_app_r by lia.
    replace (length pre + S (length mid) - length pre) with (S (length mid)) by lia.
    simpl. rewrite lookup_app_r by lia. by rewrite Nat.sub_diag. }
  rewrite Hlen. rewrite seq_S. simpl.
  replace (seq 0 (length pre + S (length mid)))
    with (seq 0 (length pre) ++ length pre :: seq (S (length pre)) (length mid))
    by (by rewrite List.seq_app).
  rewrite <- app_assoc, removeLoop_app.
  rewrite removeLoop_no_match; cycle 1.
  { intros i Hi. apply elem_of_seq in Hi as [_ Hi]. simpl in Hi.
    destruct (lookup_lt_is_Some_2 pre i Hi) as [v Hv]. exists v.
    split; [subst l; by apply lookup_app_l_Some |].
    intros Hname. apply Hpre. apply list_elem_of_fmap. exists v.
    split; [done | by eapply list_elem_of_lookup_2]. }
  simpl. assert (Hi : l !! length pre = Some x) by (subst l; by apply list_lookup_middle).
  rewrite Hi. simpl. rewrite bool_decide_eq_true_2 by done.
  unfold removeAt. rewrite bool_decide_eq_true_2 by lia. simpl.
  rewrite (removeLoop_panics m y (length pre + S (length mid))); try done.
  - rewrite !length_app, length_take, length_take, !length_drop. lia.
  - rewrite !lookup_app_r; rewrite ?length_take, ?length_drop; try lia.
    rewrite lookup_drop. rewrite <- Hlast. f_equal. lia.
  - lia.
  - apply Forall_forall. intros i Hi'. apply elem_of_seq in Hi'. lia.
Qed.

End NodeLocationProperties.

(** ** The API client *)

Section ClientProperties.

Import goproxmox.

Context `{!ProxmoxAPI}.

Lemma totalMaxMem_nonneg (vms : list VirtualMachine) :
  Forall (fun vm => is_uint64 (MaxMem vm)) vms -> (0 ≤ totalMaxMem vms)%Z.
Proof.
  induction 1 as [| vm vms [Hvm _] _ IH]; simpl; lia.
Qed.

(** The loop subtracts with saturation at zero and never wraps around. *)
Lemma reservableLoop_saturates (vms : list VirtualMachine) (reservableMemory : Z) :
  is_uint64 reservableMemory ->
  Forall (fun vm => is_uint64 (MaxMem vm)) vms ->
  reservableLoop vms reservableMemory = Z.max 0 (reservableMemory - totalMaxMem vms).
Proof.
  intros Hr Hvms. revert reservableMemory Hr.
  induction Hvms as [| vm vms Hvm Hvms IH]; intros r Hr; simpl.
  - unfold is_uint64 in Hr. lia.
  - pose proof (totalMaxMem_nonneg vms Hvms) as Hsum. unfold is_uint64 in *.
    destruct (Z.ltb_spec r (MaxMem vm)) as [Hlt | Hge].
    + rewrite IH by (unfold uint64_max; lia). lia.
    + assert (Hsub : uint64_sub r (MaxMem vm) = (r - MaxMem vm)%Z).
      { unfold uint64_sub. apply Z.mod_small. lia. }
      rewrite Hsub, IH by lia. lia.
Qed.

(** X22. When the node and its VMs can be read, [GetReservableMemoryBytes]
    returns the total memory of the node minus the maximum memory of all
    its VMs, or zero when the VMs may use more than the node has; the
    result is a [uint64] no larger than the total, and two requests are
    sent. *)
Theorem GetReservableMemoryBytes_saturates (nodeName : string) (node : Node)
    (vms : list VirtualMachine) (sent : list Request) :
  api_Node nodeName = Ok node ->
  api_VirtualMachines node = Ok vms ->
  is_uint64 (Memory_Total node) ->
  Forall (fun vm => is_uint64 (MaxMem vm)) vms ->
  let reservable := Z.max 0 (Memory_Total node - totalMaxMem vms) in
  GetReservableMemoryBytes nodeName sent =
    ((reservable, None), sent ++ [ReqNode nodeName; ReqVirtualMachines (Node_Name node)]) /\
  is_uint64 reservable /\
  (reservable ≤ Memory_Total node)%Z.
Proof.
  intros Hnode Hvms Htotal Hmax reservable.
  pose proof (totalMaxMem_nonneg vms Hmax) as Hsum.
  split; [| unfold is_uint64 in *; subst reservable; lia].
  unfold GetReservableMemoryBytes, send, mbind, Op_bind, mret, Op_ret.
  rewrite Hnode, Hvms, reservableLoop_saturates by done.
  by rewrite <- app_assoc.
Qed.

(** X23. [FindVMResource] answers with the first resource of the listing that
    has the requested id, and fails, when the listing could be read,
    only if no resource has it. *)
Theorem FindVMResource_finds (vmID : Z) (vmResources : list ClusterResource)
    (sent : list Request) :
  api_Cluster = Ok tt ->
  api_Resources "vm" = Ok vmResources ->
  let r := (FindVMResource vmID sent).1 in
  (forall vm : ClusterResource,
     r = Ok vm <->
     exists i : nat,
       vmResources !! i = Some vm /\ VMID vm = vmID /\
       forall (j : nat) (other : ClusterResource),
         vmResources !! j = Some other -> j < i -> VMID other ≠ vmID) /\
  ((exists err, r = Err err) <-> Forall (fun vm => VMID vm ≠ vmID) vmResources).
Proof.
  intros Hcluster Hres r. subst r.
  unfold FindVMResource, send, mbind, Op_bind, mret, Op_ret.
  rewrite Hcluster, Hres. simpl.
  destruct (list_find _ vmResources) as [[i vm'] |] eqn:Hfind; simpl.
  - pose proof (proj1 (list_find_Some _ _ _ _) Hfind) as (Hi & Hid & Hleast).
    split.
    + intros vm. split.
      * intros [= <-]. by exists i.
      * intros (i' & Hi' & Hid' & Hleast').
        assert (Heq : list_find (fun vm => VMID vm = vmID) vmResources = Some (i', vm)).
        { apply list_find_Some. split; [done |]. split; [done |]. exact Hleast'. }
        rewrite Hfind in Heq. by injection Heq as _ ->.
    + split; [intros [err [=]] |].
      intros Hnone. apply (proj1 (Forall_lookup _ _) Hnone i vm') in Hi. contradiction.
  - apply list_find_None in Hfind. split.
    + intros vm. split; [intros [=] |].
      intros (i & Hi & Hid & _). exfalso.
      by apply (proj1 (Forall_lookup _ _) Hfind i vm).
    + split; [done | eauto].
Qed.

(** X24. [DeleteVM] sends the request to delete only for a VM it has read,
    and for a running VM only after the request to stop it was answered
    without error; when it returns a task, that is the answer to the
    delete request, the last request sent. *)
Theorem DeleteVM_stops_before_delete (nodeName : string) (vmID : Z) (sent : list Request) :
  let (r, sent') := DeleteVM nodeName vmID sent in
  exists l : list Request,
    sent' = sent ++ l /\
    (ReqDelete vmID ∈ l ->
     exists (node : Node) (vm : VirtualMachine),
       api_Node nodeName = Ok node /\
       api_VirtualMachine node vmID = Ok vm /\
       last l = Some (ReqDelete vmID) /\
       (Running vm = true ->
        (exists task, api_Stop vm = Ok task) /\
        exists l1, l = l1 ++ [ReqStop vmID; ReqDelete vmID]) /\
       (Running vm = false -> ReqStop vmID ∉ l)) /\
    (forall task : Task, r = Ok task -> ReqDelete vmID ∈ l).
Proof.
  unfold DeleteVM, send, mbind, Op_bind, mret, Op_ret.
  destruct (api_Node nodeName) as [node | err] eqn:Hnode; cycle 1.
  { exists [ReqNode nodeName]. split; [done |]. split; [| done].
    intros Hin. apply list_elem_of_singleton in Hin. discriminate. }
  destruct (api_VirtualMachine node vmID) as [vm | err] eqn:Hvm; cycle 1.
  { exists [ReqNode nodeName; ReqVirtualMachine (Node_Name node) vmID].
    split; [by rewrite <- app_assoc |]. split; [| done].
    intros Hin. repeat (apply elem_of_cons in Hin as [Hin | Hin]; [discriminate |]).
    by apply elem_of_nil in Hin. }
  destruct (Running vm) eqn:Hrun.
  - destruct (api_Stop vm) as [task | err] eqn:Hstop; cycle 1.
    { exists [ReqNode nodeName; ReqVirtualMachine (Node_Name node) vmID; ReqStop vmID].
      split; [by rewrite <- !app_assoc |]. split; [| done].
      intros Hin. repeat (apply elem_of_cons in Hin as [Hin | Hin]; [discriminate |]).
      by apply elem_of_nil in Hin. }
    assert (Hl : forall r : result Task,
              exists l : list Request,
                ((sent ++ [ReqNode nodeName]) ++ [ReqVirtualMachine (Node_Name node) vmID]) ++
                  [ReqStop vmID] ++ [ReqDelete vmID] = sent ++ l /\
                (ReqDelete vmID ∈ l ->
                 exists (node0 : Node) (vm0 : VirtualMachine),
                   Ok node = Ok node0 /\
                   api_VirtualMachine node0 vmID = Ok vm0 /\
                   last l = Some (ReqDelete vmID) /\
                   (Running vm0 = true ->
                    (exists task0, api_Stop vm0 = Ok task0) /\
                    exists l1, l = l1 ++ [ReqStop vmID; ReqDelete vmID]) /\
                   (Running vm0 = false -> ReqStop vmID ∉ l)) /\
                (forall task0 : Task, r = Ok task0 -> ReqDelete vmID ∈ l)).
    { intros r.
      exists [ReqNode nodeName; ReqVirtualMachine (Node_Name node) vmID;
              ReqStop vmID; ReqDelete vmID].
      split; [by rewrite <- !app_assoc |]. split; [| intros; set_solver].
      intros _. exists node, vm. split; [done |]. split; [done |]. split; [done |].
      split; [| congruence]. intros _. split; [eauto |].
      by exists [ReqNode nodeName; ReqVirtualMachine (Node_Name node) vmID]. }
    rewrite <- !app_assoc in Hl. rewrite <- !app_assoc.
    destruct (api_Delete vm) as [task' | err]; apply Hl.
  - assert (Hl : forall r : result Task,
              exists l : list Request,
                ((sent ++ [ReqNode nodeName]) ++ [ReqVirtualMachine (Node_Name node) vmID]) ++
                  [ReqDelete vmID] = sent ++ l /\
                (ReqDelete vmID ∈ l ->
                 exists (node0 : Node) (vm0 : VirtualMachine),
                   Ok node = Ok node0 /\
                   api_VirtualMachine node0 vmID = Ok vm0 /\
                   last l = Some (ReqDelete vmID) /\
                   (Running vm0 = true ->
                    (exists task0, api_Stop vm0 = Ok task0) /\
                    exists l1, l = l1 ++ [ReqStop vmID; ReqDelete vmID]) /\
                   (Running vm0 = false -> ReqStop vmID ∉ l)) /\
                (forall task0 : Task, r = Ok task0 -> ReqDelete vmID ∈ l)).
    { intros r.
      exists [ReqNode nodeName; ReqVirtualMachine (Node_Name node) vmID; ReqDelete vmID].
      split; [by rewrite <- !app_assoc |]. split; [| intros; set_solver].
      intros _. exists node, vm. split; [done |]. split; [done |]. split; [done |].
      split; [congruence |]. intros _ Hin.
      repeat (apply elem_of_cons in Hin as [Hin | Hin]; [discriminate |]).
      by apply elem_of_nil in Hin. }
    destruct (api_Delete vm) as [task' | err]; apply Hl.
Qed.

End ClientProperties.

(** ** Readers of the machine scope *)

Section Readers.

Import passes.

Context `{!Helpers} `{!Collaborators}.

Lemma reads_ret (P : Call -> Prop) {A : Type} (a : A) : reads P (mret a : M A).
Proof.
  intros s. exists a, []. split; [constructor |]. intros cs.
  unfold mret, M_ret. by rewrite app_nil_r.
Qed.

Lemma reads_bind (P : Call -> Prop) {A B : Type} (m : M A) (k : A -> M B) :
  reads P m -> (forall a, reads P (k a)) -> reads P (m ≫= k).
Proof.
  intros Hm Hk s. destruct (Hm s) as (a & l1 & Hl1 & Hrun1).
  destruct (Hk a s) as (b & l2 & Hl2 & Hrun2).
  exists b, (l1 ++ l2). split; [by apply Forall_app |]. intros cs.
  unfold mbind, M_bind. rewrite Hrun1, Hrun2. by rewrite app_assoc.
Qed.

Lemma reads_get_scope (P : Call -> Prop) {A : Type} (k : scope.MachineScope -> M A) :
  (forall s, reads P (k s)) -> reads P (get_scope ≫= k).
Proof.
  intros Hk s. destruct (Hk s s) as (a & l & Hl & Hrun).
  exists a, l. split; [done |]. intros cs. unfold mbind, M_bind, get_scope. simpl. apply Hrun.
Qed.

Lemma reads_record (P : Call -> Prop) (c : Call) : P c -> reads P (record c).
Proof.
  intros Hc s. exists tt, [c]. split; [by constructor |]. by intros cs.
Qed.

Lemma reads_weaken (P Q : Call -> Prop) {A : Type} (m : M A) :
  (forall c, P c -> Q c) -> reads P m -> reads Q m.
Proof.
  intros HPQ Hm s. destruct (Hm s) as (a & l & Hl & Hrun).
  exists a, l. split; [by eapply Forall_impl | done].
Qed.

(** What a reader does to any state. *)
Lemma reads_run (P : Call -> Prop) {A : Type} (m : M A) (w : World) :
  reads P m ->
  exists (r : A) (l : list Call),
    Forall P l /\
    m w = (r, mkWorld (machineScope w) (calls w ++ l)) /\
    forall w2 : World, machineScope w2 = machineScope w -> (m w2).1 = r.
Proof.
  intros Hm. destruct (Hm (machineScope w)) as (r & l & Hl & Hrun).
  exists r, l. split; [done |]. split; [by destruct w |].
  intros [s2 cs2] Hs. simpl in Hs. subst s2. by rewrite Hrun.
Qed.

Ltac reads_step :=
  first
    [ apply reads_ret
    | apply reads_get_scope; intros ?
    | apply reads_record; reflexivity
    | apply reads_bind; [| intros ?]
    | progress case_match ].

Lemma getBootstrapData_reads : reads (fun c => is_inject c = false) getBootstrapData.
Proof.
  unfold getBootstrapData, call_GetBootstrapSecret. repeat reads_step.
Qed.

Lemma getNetworkConfigDataForDevice_reads (device : string) :
  reads (fun c => is_resolver_call c = true) (getNetworkConfigDataForDevice device).
Proof.
  unfold getNetworkConfigDataForDevice, call_findIPAddress. repeat reads_step.
Qed.

Lemma getDefaultNetworkDevice_reads :
  reads (fun c => is_resolver_call c = true) getDefaultNetworkDevice.
Proof.
  unfold getDefaultNetworkDevice.
  repeat first [ apply getNetworkConfigDataForDevice_reads | reads_step ].
Qed.

Lemma additionalNetworkDevice_reads (nic : infrav1alpha1.AdditionalNetworkDevice) :
  reads (fun c => is_resolver_call c = true) (additionalNetworkDevice nic).
Proof.
  unfold additionalNetworkDevice.
  repeat first [ apply getNetworkConfigDataForDevice_reads | reads_step ].
Qed.

Lemma additionalNetworkDevices_loop_reads (nics : list infrav1alpha1.AdditionalNetworkDevice)
    (acc : list cloudinit.NetworkConfigData) :
  reads (fun c => is_resolver_call c = true) (additionalNetworkDevices_loop nics acc).
Proof.
  revert acc. induction nics as [| nic rest IH]; intros acc; simpl.
  - apply reads_ret.
  - apply reads_bind; [apply additionalNetworkDevice_reads |].
    intros [config | err]; [| apply reads_ret]. case_match; apply IH.
Qed.

Lemma getNetworkConfigData_reads :
  reads (fun c => is_resolver_call c = true) getNetworkConfigData.
Proof.
  unfold getNetworkConfigData, getAdditionalNetworkDevices.
  repeat first [ apply getDefaultNetworkDevice_reads
               | apply additionalNetworkDevices_loop_reads | reads_step ].
Qed.

Lemma resolver_call_not_inject (c : Call) : is_resolver_call c = true -> is_inject c = false.
Proof. by destruct c. Qed.

End Readers.

(** ** A pass of the reconciler, step by step *)

Section PassProperties.

Import passes.

Context `{!Helpers} `{!Collaborators}.

Lemma reconcile_no_mac (w : World) :
  guard w = false ->
  machineHasIPAddress (scope.ProxmoxMachine (machineScope w)) = true ->
  vmHasMacAddresses (machineScope w) = false ->
  reconcileBootstrapData w = ((true, None), w).
Proof.
  unfold guard, bootstrapDataProvided, reconcileBootstrapData. unfold_M.
  intros -> -> ->. reflexivity.
Qed.

(** Past the three checks, a pass is decided by what the secret, the
    assembler and the injector answer for the scope; the trace grows by
    the log line, the calls of the two readers and, when both succeed,
    the injection. *)
Lemma reconcile_run (w : World) :
  guard w = false ->
  machineHasIPAddress (scope.ProxmoxMachine (machineScope w)) = true ->
  vmHasMacAddresses (machineScope w) = true ->
  exists (rb : result (list byte)) (lb : list Call)
         (rn : result (list cloudinit.NetworkConfigData)) (ln : list Call),
    Forall (fun c => is_inject c = false) lb /\
    Forall (fun c => is_resolver_call c = true) ln /\
    (forall w2, machineScope w2 = machineScope w -> (getBootstrapData w2).1 = rb) /\
    (forall w2, machineScope w2 = machineScope w -> (getNetworkConfigData w2).1 = rn) /\
    reconcileBootstrapData w =
      match rb with
      | Err err =>
          ((false, Some err),
           mkWorld (markedFalse CloningFailedReason (Error err) (machineScope w))
             (calls w ++ startLog :: lb))
      | Ok bootstrapData =>
          match rn with
          | Err err =>
              ((false, Some err),
               mkWorld
                 (markedFalse WaitingForStaticIPAllocationReason (Error err) (machineScope w))
                 (calls w ++ startLog :: lb ++ ln))
          | Ok nicData =>
              let inject :=
                CallInject bootstrapData (metadataOf (machineScope w))
                  (cloudinit.NewNetworkConfig nicData) in
              match Inject (scope.VirtualMachine (machineScope w)) bootstrapData
                      (metadataOf (machineScope w)) (cloudinit.NewNetworkConfig nicData) with
              | Some err =>
                  ((false, Some (errors_Wrap err "cloud-init iso inject failed")),
                   mkWorld (markedFalse VMProvisionFailedReason (Error err) (machineScope w))
                     (calls w ++ startLog :: lb ++ ln ++ [inject]))
              | None =>
                  ((false, None),
                   mkWorld (provided (machineScope w))
                     (calls w ++ startLog :: lb ++ ln ++ [inject]))
              end
          end
      end.
Proof.
  intros Hguard HIP Hmac. rewrite reconcile_unfold by done.
  set (w0 := mkWorld (machineScope w) (calls w ++ [startLog])).
  destruct (reads_run _ getBootstrapData w0 getBootstrapData_reads)
    as (rb & lb & Hlb & Hrunb & Hindb).
  set (w1 := mkWorld (machineScope w0) (calls w0 ++ lb)) in Hrunb.
  destruct (reads_run _ getNetworkConfigData w1 getNetworkConfigData_reads)
    as (rn & ln & Hln & Hrunn & Hindn).
  exists rb, lb, rn, ln. split; [done |]. split; [done |].
  split; [intros w2 Hw2; by apply Hindb |]. split; [intros w2 Hw2; by apply Hindn |].
  subst w1 w0.
  unfold conditions_MarkFalse, call_Inject, markedFalse, provided, metadataOf, startLog in *.
  unfold_M. rewrite Hrunb.
  destruct rb as [bootstrapData | err]; simpl.
  { rewrite Hrunn. destruct rn as [nicData | err]; simpl.
    - destruct (Inject _ bootstrapData _ _) as [err |]; simpl;
        by rewrite <- !app_assoc.
    - by rewrite <- !app_assoc. }
  by rewrite <- !app_assoc.
Qed.


Ltac pass_cases w :=
  let Hguard := fresh "Hguard" in
  let HIP := fresh "HIP" in
  let Hmac := fresh "Hmac" in
  destruct (guard w) eqn:Hguard;
  [ rewrite (reconcile_guarded w Hguard)
  | destruct (machineHasIPAddress (scope.ProxmoxMachine (machineScope w))) eqn:HIP;
    [ destruct (vmHasMacAddresses (machineScope w)) eqn:Hmac;
      [ let rb := fresh "rb" in
        let lb := fresh "lb" in
        let rn := fresh "rn" in
        let ln := fresh "ln" in
        let Hlb := fresh "Hlb" in
        let Hln := fresh "Hln" in
        let Hindb := fresh "Hindb" in
        let Hindn := fresh "Hindn" in
        let Hrun := fresh "Hrun" in
        let Hinj := fresh "Hinj" in
        destruct (reconcile_run w Hguard HIP Hmac)
          as (rb & lb & rn & ln & Hlb & Hln & Hindb & Hindn & Hrun);
        rewrite Hrun; clear Hrun;
        destruct rb as [?bootstrapData | ?err];
        [ destruct rn as [?nicData | ?err];
          [ cbv zeta;
            match goal with
            | |- context [Inject ?vm ?b ?m ?n] => destruct (Inject vm b m n) as [?err |] eqn:Hinj
            end
          | ]
        | ]
      | rewrite (reconcile_no_mac w Hguard HIP Hmac) ]
    | rewrite (reconcile_no_ip w Hguard HIP) ] ].

Lemma filter_inject_nil (l : list Call) :
  Forall (fun c => is_inject c = false) l -> filter (fun c => is_inject c = true) l = [].
Proof.
  induction 1 as [| c l Hc _ IH]; [done |].
  rewrite filter_cons_False by congruence. exact IH.
Qed.

Lemma resolver_calls_not_inject (l : list Call) :
  Forall (fun c => is_resolver_call c = true) l -> Forall (fun c => is_inject c = false) l.
Proof.
  intros Hl. eapply Forall_impl; [exact Hl |]. intros c. apply resolver_call_not_inject.
Qed.

(** X1. A pass asks for a requeue exactly in the two waiting states, with
    the guard false and either no IP address or a MAC address missing;
    it then returns no error, makes no call and leaves the flag alone. *)
Theorem reconcile_requeue_iff (w : World) :
  let (r, w') := reconcileBootstrapData w in
  (r.1 = true <->
   guard w = false /\
   (machineHasIPAddress (scope.ProxmoxMachine (machineScope w)) = false \/
    vmHasMacAddresses (machineScope w) = false)) /\
  (r.1 = true ->
   r.2 = None /\ calls w' = calls w /\ bootstrapDataProvided w' = bootstrapDataProvided w).
Proof.
  pass_cases w; simpl; (split; [split; [try done | intros [? [? | ?]]; congruence] | try done]).
  - auto.
  - auto.
Qed.


(** X2. When the assembler fails, a pass sets the VMProvisioned condition to
    false with the reason waiting-for-static-IP-allocation and the text
    of the assembler's error, returns that error without requeue, leaves
    the flag alone and does not call the injector. *)
Theorem reconcile_assembler_failure (w : World) (bootstrapData : list byte) (err : error) :
  guard w = false ->
  machineHasIPAddress (scope.ProxmoxMachine (machineScope w)) = true ->
  vmHasMacAddresses (machineScope w) = true ->
  (getBootstrapData w).1 = Ok bootstrapData ->
  (getNetworkConfigData w).1 = Err err ->
  let (r, w') := reconcileBootstrapData w in
  r = (false, Some err) /\
  machineScope w' =
    markedFalse WaitingForStaticIPAllocationReason (Error err) (machineScope w) /\
  bootstrapDataProvided w' = bootstrapDataProvided w /\
  exists l : list Call, calls w' = calls w ++ l /\ Forall (fun c => is_inject c = false) l.
Proof.
  intros Hguard HIP Hmac Hb Hn.
  destruct (reconcile_run w Hguard HIP Hmac)
    as (rb & lb & rn & ln & Hlb & Hln & Hindb & Hindn & Hrun).
  rewrite Hrun. rewrite (Hindb w eq_refl) in Hb. rewrite (Hindn w eq_refl) in Hn.
  subst rb rn. split; [done |]. split; [done |]. split; [done |].
  exists (startLog :: lb ++ ln). split; [done |].
  constructor; [done |]. apply Forall_app. split; [done |].
  by apply resolver_calls_not_inject.
Qed.

(** X3. When the injector fails, a pass sets the VMProvisioned condition to
    false with the reason provisioning-failed and the text of the
    injector's error, returns that error wrapped, without requeue, and
    leaves the flag alone; the injection was the last call, made with
    the payload of the secret, the identity document of the machine and
    the records of the assembler. *)
Theorem reconcile_injection_failure (w : World) (bootstrapData : list byte)
    (nicData : list cloudinit.NetworkConfigData) (err : error) :
  guard w = false ->
  machineHasIPAddress (scope.ProxmoxMachine (machineScope w)) = true ->
  vmHasMacAddresses (machineScope w) = true ->
  (getBootstrapData w).1 = Ok bootstrapData ->
  (getNetworkConfigData w).1 = Ok nicData ->
  Inject (scope.VirtualMachine (machineScope w)) bootstrapData (metadataOf (machineScope w))
    (cloudinit.NewNetworkConfig nicData) = Some err ->
  let (r, w') := reconcileBootstrapData w in
  r = (false, Some (errors_Wrap err "cloud-init iso inject failed")) /\
  machineScope w' = markedFalse VMProvisionFailedReason (Error err) (machineScope w) /\
  bootstrapDataProvided w' = bootstrapDataProvided w /\
  last (calls w') =
    Some (CallInject bootstrapData (metadataOf (machineScope w))
            (cloudinit.NewNetworkConfig nicData)).
Proof.
  intros Hguard HIP Hmac Hb Hn Hinj.
  destruct (reconcile_run w Hguard HIP Hmac)
    as (rb & lb & rn & ln & Hlb & Hln & Hindb & Hindn & Hrun).
  rewrite Hrun. rewrite (Hindb w eq_refl) in Hb. rewrite (Hindn w eq_refl) in Hn.
  subst rb rn. cbv zeta. rewrite Hinj. split; [done |]. split; [done |]. split; [done |].
  cbn [calls]. rewrite app_comm_cons, !app_assoc. apply last_snoc.
Qed.

(** X4. A pass that returns without error and without requeue writes no
    condition; a pass that returns an error does not ask for a requeue
    and has set the VMProvisioned condition to false once, with warning
    severity and one of the three failure reasons. *)
Theorem reconcile_error_sets_condition (w : World) :
  let (r, w') := reconcileBootstrapData w in
  (r = (false, None) -> conditionsOf w' = conditionsOf w) /\
  (forall err : error,
     r.2 = Some err ->
     r.1 = false /\
     exists reason message : string,
       reason ∈ [CloningFailedReason; WaitingForStaticIPAllocationReason;
                 VMProvisionFailedReason] /\
       conditionsOf w' =
         conditions_Set
           (FalseCondition VMProvisionedCondition reason clusterv1.ConditionSeverityWarning
              message)
           (conditionsOf w)).
Proof.
  pass_cases w; simpl; (split; [try done | intros e He; try done]).
  - split; [done |]. exists VMProvisionFailedReason, (Error err).
    split; [set_solver | done].
  - split; [done |]. exists WaitingForStaticIPAllocationReason, (Error err).
    split; [set_solver | done].
  - split; [done |]. exists CloningFailedReason, (Error err).
    split; [set_solver | done].
Qed.

(** X5. A pass changes nothing of the scope but the condition list and the
    flag of the machine status, only appends to the trace, and calls the
    injector at most once, as its last call. *)
Theorem reconcile_frame (w : World) :
  let (r, w') := reconcileBootstrapData w in
  (exists (flag : option bool) (conditions : list clusterv1.Condition),
     machineScope w' =
       scope.set_ProxmoxMachine
         (infrav1alpha1.mkProxmoxMachine
            (infrav1alpha1.Spec (scope.ProxmoxMachine (machineScope w)))
            (infrav1alpha1.mkProxmoxMachineStatus flag
               (infrav1alpha1.IPAddresses
                  (infrav1alpha1.Status (scope.ProxmoxMachine (machineScope w))))
               conditions))
         (machineScope w)) /\
  exists l : list Call,
    calls w' = calls w ++ l /\
    length (filter (fun c => is_inject c = true) l) ≤ 1 /\
    (forall c : Call, c ∈ l -> is_inject c = true -> last l = Some c).
Proof.
  assert (Heta : forall s : scope.MachineScope,
            s = scope.set_ProxmoxMachine
                  (infrav1alpha1.mkProxmoxMachine
                     (infrav1alpha1.Spec (scope.ProxmoxMachine s))
                     (infrav1alpha1.mkProxmoxMachineStatus
                        (infrav1alpha1.BootstrapDataProvided
                           (infrav1alpha1.Status (scope.ProxmoxMachine s)))
                        (infrav1alpha1.IPAddresses
                           (infrav1alpha1.Status (scope.ProxmoxMachine s)))
                        (infrav1alpha1.Conditions
                           (infrav1alpha1.Status (scope.ProxmoxMachine s)))))
                  s).
  { by intros [name secret [spec [flag ips conds]] cluster vm]. }
  assert (Hnone : forall cs : list Call,
            exists l : list Call,
              cs = cs ++ l /\
              length (filter (fun c => is_inject c = true) l) ≤ 1 /\
              (forall c : Call, c ∈ l -> is_inject c = true -> last l = Some c)).
  { intros cs. exists []. split; [by rewrite app_nil_r |]. split; [simpl; lia |].
    by intros c Hc%elem_of_nil. }
  assert (Hquiet : forall cs l : list Call,
            Forall (fun c => is_inject c = false) l ->
            exists l' : list Call,
              cs ++ l = cs ++ l' /\
              length (filter (fun c => is_inject c = true) l') ≤ 1 /\
              (forall c : Call, c ∈ l' -> is_inject c = true -> last l' = Some c)).
  { intros cs l Hl. exists l. split; [done |]. rewrite filter_inject_nil by done.
    split; [simpl; lia |]. intros c Hc Hinject.
    apply (proj1 (Forall_forall _ _) Hl) in Hc. congruence. }
  assert (Hloud : forall (cs lb ln : list Call) (c0 c : Call),
            is_inject c0 = false ->
            Forall (fun c => is_inject c = false) lb ->
            Forall (fun c => is_inject c = false) ln ->
            exists l' : list Call,
              cs ++ c0 :: lb ++ ln ++ [c] = cs ++ l' /\
              length (filter (fun c => is_inject c = true) l') ≤ 1 /\
              (forall c : Call, c ∈ l' -> is_inject c = true -> last l' = Some c)).
  { intros cs lb ln c0 c Hc0 Hlb Hln. exists (c0 :: lb ++ ln ++ [c]). split; [done |].
    rewrite filter_cons_False, !filter_app, !filter_inject_nil by (done || congruence).
    split.
    - simpl. rewrite filter_cons. case_decide; simpl; lia.
    - intros c' Hc' Hinject.
      rewrite app_comm_cons, !app_assoc, last_snoc.
      apply elem_of_cons in Hc' as [-> | Hc']; [congruence |].
      apply elem_of_app in Hc' as [Hc' | Hc'].
      { apply (proj1 (Forall_forall _ _) Hlb) in Hc'. congruence. }
      apply elem_of_app in Hc' as [Hc' | ->%list_elem_of_singleton]; [| done].
      apply (proj1 (Forall_forall _ _) Hln) in Hc'. congruence. }
  pass_cases w; cbn [machineScope calls];
    (split; [first [eexists _, _; reflexivity | eexists _, _; apply Heta] |]).
  - apply Hnone.
  - apply Hloud; [done | done | by apply resolver_calls_not_inject].
  - apply Hloud; [done | done | by apply resolver_calls_not_inject].
  - apply Hquiet. constructor; [done |]. apply Forall_app.
    split; [done | by apply resolver_calls_not_inject].
  - apply Hquiet. by constructor.
  - apply Hnone.
  - apply Hnone.
Qed.


Lemma injected_is_inject (vm : proxmox.VirtualMachine) (c : Call) :
  is_inject c = false -> injected vm c = false.
Proof. by destruct c. Qed.

Lemma successful_injections_app (vm : proxmox.VirtualMachine) (l1 l2 : list Call) :
  successful_injections vm (l1 ++ l2) =
    successful_injections vm l1 + successful_injections vm l2.
Proof. unfold successful_injections. by rewrite filter_app, length_app. Qed.

Lemma successful_injections_quiet (vm : proxmox.VirtualMachine) (l : list Call) :
  Forall (fun c => is_inject c = false) l -> successful_injections vm l = 0.
Proof.
  unfold successful_injections. induction 1 as [| c l Hc _ IH]; [done |].
  rewrite filter_cons_False; [done |]. rewrite injected_is_inject by done. discriminate.
Qed.

(** What one pass adds to the trace: no successful injection, or one,
    and then the guard is set. *)
Lemma reconcile_injects (w : World) :
  let vm := scope.VirtualMachine (machineScope w) in
  let w' := (reconcileBootstrapData w).2 in
  exists l : list Call,
    calls w' = calls w ++ l /\
    scope.VirtualMachine (machineScope w') = vm /\
    (guard w = true -> l = []) /\
    (successful_injections vm l = 0 \/ (successful_injections vm l = 1 /\ guard w' = true)).
Proof.
  pass_cases w; cbn [snd machineScope calls].
  - exists []. rewrite app_nil_r. auto.
  - eexists. split; [reflexivity |]. split; [done |]. split; [done |]. left.
    rewrite app_comm_cons, !app_assoc, successful_injections_app.
    rewrite (successful_injections_quiet _ ((startLog :: lb) ++ ln)); cycle 1.
    { apply Forall_app. split; [by constructor | by apply resolver_calls_not_inject]. }
    unfold successful_injections. rewrite filter_cons_False; [done |].
    unfold injected. rewrite Hinj. discriminate.
  - eexists. split; [reflexivity |]. split; [done |]. split; [done |]. right. split; [| done].
    rewrite app_comm_cons, !app_assoc, successful_injections_app.
    rewrite (successful_injections_quiet _ ((startLog :: lb) ++ ln)); cycle 1.
    { apply Forall_app. split; [by constructor | by apply resolver_calls_not_inject]. }
    unfold successful_injections. rewrite filter_cons_True; [done |].
    unfold injected. by rewrite Hinj.
  - eexists. split; [reflexivity |]. split; [done |]. split; [done |]. left.
    rewrite app_comm_cons. apply successful_injections_quiet.
    apply Forall_app. split; [by constructor | by apply resolver_calls_not_inject].
  - eexists. split; [reflexivity |]. split; [done |]. split; [done |]. left.
    apply successful_injections_quiet. by constructor.
  - exists []. rewrite app_nil_r. auto.
  - exists []. rewrite app_nil_r. auto.
Qed.

Lemma reconcile_passes_guarded (n : nat) (w : World) :
  guard w = true -> (reconcile_passes n w).2 = w.
Proof.
  intros Hguard. induction n as [| n IH]; [done |].
  simpl. unfold mbind, M_bind at 1. rewrite reconcile_guarded by done.
  unfold mbind, M_bind at 1. destruct (reconcile_passes n w) as [rs w']. simpl in *.
  by subst w'.
Qed.

(** X6. However many passes are made in a row, and whatever the
    collaborators answer, at most one of the injections called in them
    succeeds: the payload is handed to a VM at most once. *)
Theorem at_most_one_successful_injection (n : nat) (w : World) :
  exists l : list Call,
    calls (reconcile_passes n w).2 = calls w ++ l /\
    successful_injections (scope.VirtualMachine (machineScope w)) l ≤ 1.
Proof.
  revert w. induction n as [| n IH]; intros w.
  - exists []. simpl. rewrite app_nil_r. split; [done |].
    unfold successful_injections. simpl. lia.
  - destruct (reconcile_injects w) as (l1 & Hcalls1 & Hvm1 & Hguard1 & Hcount1).
    cbv zeta in *. simpl. unfold mbind, M_bind at 1.
    destruct (reconcileBootstrapData w) as [r w1]. simpl in *.
    unfold mbind, M_bind at 1.
    destruct Hcount1 as [Hzero | [Hone Hguard']].
    + destruct (IH w1) as (l2 & Hcalls2 & Hcount2).
      destruct (reconcile_passes n w1) as [rs w2]. simpl in *.
      exists (l1 ++ l2). split; [by rewrite Hcalls2, Hcalls1, app_assoc |].
      rewrite successful_injections_app, Hzero. rewrite <- Hvm1. simpl. exact Hcount2.
    + pose proof (reconcile_passes_guarded n w1 Hguard') as Hsame.
      destruct (reconcile_passes n w1) as [rs w2]. simpl in *. subst w2.
      exists l1. split; [done | lia].
Qed.

(** C5. Whatever the state, a pass never sets the BootstrapDataProvided
    flag to false.  On the full-success path, where the secret, the
    assembler and the injector all succeed, it sets the flag to true and
    returns (requeue=false, err=nil), the injection being its last call;
    on every other path, so on every failure and every requeue, it
    leaves the flag as it was. *)
Theorem C5_flag_lifecycle (w : World) :
  let (r, w') := reconcileBootstrapData w in
  (fullSuccess w ->
   r = (false, None) /\
   bootstrapDataProvided w' = Some true /\
   machineScope w' = provided (machineScope w)) /\
  (~ fullSuccess w -> bootstrapDataProvided w' = bootstrapDataProvided w) /\
  (bootstrapDataProvided w' = bootstrapDataProvided w \/
   (bootstrapDataProvided w' = Some true /\
    r = (false, None) /\
    exists bootstrapData metadata network,
      last (calls w') = Some (CallInject bootstrapData metadata network) /\
      Inject (scope.VirtualMachine (machineScope w)) bootstrapData metadata network = None)) /\
  (r ≠ (false, None) -> bootstrapDataProvided w' = bootstrapDataProvided w) /\
  (bootstrapDataProvided w' = Some false -> bootstrapDataProvided w = Some false).
Proof.
  assert (Hno : forall P : Prop, (fullSuccess w -> False) -> (fullSuccess w -> P)) by tauto.
  pass_cases w.
  - (* guarded *)
    split; [apply Hno; intros (Hg & _); congruence |]. repeat split; auto.
  - (* the injector fails *)
    split.
    { apply Hno. intros (_ & _ & _ & b & n & Hb & Hn & Hi).
      rewrite (Hindb w eq_refl) in Hb. rewrite (Hindn w eq_refl) in Hn. congruence. }
    repeat split; auto.
  - (* every step succeeds *)
    split; [intros _; by repeat split |].
    split.
    { intros Hnot. exfalso. apply Hnot. repeat split; try done.
      exists bootstrapData, nicData. by rewrite (Hindb w eq_refl), (Hindn w eq_refl). }
    split; [| split; [done |]].
    + right. split; [done |]. split; [done |]. eexists _, _, _. split; [| exact Hinj].
      rewrite app_comm_cons, !app_assoc. apply last_snoc.
    + simpl. unfold guard in Hguard. intros Hfalse. discriminate Hfalse.
  - (* the assembler fails *)
    split.
    { apply Hno. intros (_ & _ & _ & b & n & _ & Hn & _).
      rewrite (Hindn w eq_refl) in Hn. congruence. }
    repeat split; auto.
  - (* the secret fails *)
    split.
    { apply Hno. intros (_ & _ & _ & b & n & Hb & _).
      rewrite (Hindb w eq_refl) in Hb. congruence. }
    repeat split; auto.
  - (* no MAC address yet *)
    split; [apply Hno; intros (_ & _ & Hm & _); congruence |]. repeat split; auto.
  - (* no IP address yet *)
    split; [apply Hno; intros (_ & Hi & _); congruence |]. repeat split; auto.
Qed.

End PassProperties.

(** ** The assembler *)

Section AssemblerProperties.

Import passes.

Context `{!Helpers} `{!Collaborators}.

(** Two device names that differ after the dash only are cut to the
    same name. *)
Lemma strings_Cut_same_base (name s1 s2 : string) :
  (strings_Cut (Sprintf_s_dash_s name s1) "-").1.1 =
  (strings_Cut (Sprintf_s_dash_s name s2) "-").1.1.
Proof.
  unfold Sprintf_s_dash_s. induction name as [| c name IH]; [done |].
  simpl. case_bool_decide; [done |].
  destruct (strings_Cut (name +:+ "-" +:+ s1) "-") as [[b1 a1] f1].
  destruct (strings_Cut (name +:+ "-" +:+ s2) "-") as [[b2 a2] f2].
  simpl in *. by rewrite IH.
Qed.

(** A name without a dash comes back when a suffix is attached and cut. *)
Lemma strings_Cut_base (name sfx : string) :
  (strings_Cut name "-").2 = false ->
  (strings_Cut (Sprintf_s_dash_s name sfx) "-").1.1 = name.
Proof.
  unfold Sprintf_s_dash_s. induction name as [| c name IH]; [done |].
  simpl. case_bool_decide; [done |].
  destruct (strings_Cut name "-") as [[b a] f].
  destruct (strings_Cut (name +:+ "-" +:+ sfx) "-") as [[b1 a1] f1].
  simpl in *. intros Hf. by rewrite IH.
Qed.

(** The two outcomes of the resolver that do not depend on the address
    lookup failing. *)
Lemma getNetworkConfigDataForDevice_cases (device : string) (w : World) :
  let mac :=
    extractMACAddress (default "" (netsOf w !! (strings_Cut device "-").1.1)) in
  getNetworkConfigDataForDevice device w =
    if is_empty mac then
      (Err (errors_New "unable to extract mac address"),
       mkWorld (machineScope w) (calls w ++ [CallLoggerError "device has no mac address"]))
    else
      (match findIPAddress (machineScope w) device with
       | Err err => Err (errors_Wrap err ("unable to find IPAddress, device=" +:+ device))
       | Ok ipAddr =>
           Ok (cloudinit.mkNetworkConfigData mac
                 (IPAddressWithPrefix (ipamv1.Address ipAddr) (ipamv1.Prefix ipAddr)) ""
                 (ipamv1.Gateway ipAddr) ""
                 (infrav1alpha1.DNSServers (clusterSpecOf w)))
       end,
       mkWorld (machineScope w) (calls w ++ [CallFindIPAddress device])).
Proof.
  unfold getNetworkConfigDataForDevice, call_findIPAddress, netsOf, clusterSpecOf. unfold_M.
  destruct (strings_Cut device "-") as [[formattedDevice after] found]. simpl.
  destruct (is_empty _); [done |].
  by destruct (findIPAddress (machineScope w) device).
Qed.

(** X8. The resolver looks the MAC address up under the device name without
    its suffix and the address under the full name: for a base name
    without a dash and any suffix, it fails without asking for the
    address when the base device has no MAC address, and otherwise a
    record it returns carries the MAC address of the base device and the
    address, prefix and gateway found under the full name. *)
Theorem resolver_strips_suffix (base sfx : string) (w : World) :
  (strings_Cut base "-").2 = false ->
  let device := Sprintf_s_dash_s base sfx in
  let mac := extractMACAddress (default "" (netsOf w !! base)) in
  (mac = "" ->
   getNetworkConfigDataForDevice device w =
     (Err (errors_New "unable to extract mac address"),
      mkWorld (machineScope w) (calls w ++ [CallLoggerError "device has no mac address"]))) /\
  (forall (conf : cloudinit.NetworkConfigData) (w' : World),
     getNetworkConfigDataForDevice device w = (Ok conf, w') ->
     cloudinit.MacAddress conf = mac /\
     mac ≠ "" /\
     w' = mkWorld (machineScope w) (calls w ++ [CallFindIPAddress device]) /\
     exists ipAddr : ipamv1.IPAddress,
       findIPAddress (machineScope w) device = Ok ipAddr /\
       cloudinit.IPAddress conf =
         IPAddressWithPrefix (ipamv1.Address ipAddr) (ipamv1.Prefix ipAddr) /\
       cloudinit.Gateway conf = ipamv1.Gateway ipAddr).
Proof.
  intros Hbase device mac.
  pose proof (getNetworkConfigDataForDevice_cases device w) as Hrun. cbv zeta in Hrun.
  subst device. rewrite (strings_Cut_base base sfx Hbase) in Hrun. fold mac in Hrun.
  rewrite Hrun. unfold is_empty. split.
  - intros Hmac. by rewrite bool_decide_eq_true_2.
  - intros conf w'. case_bool_decide as Hmac; [discriminate |].
    destruct (findIPAddress _ _) as [ipAddr | err]; [| discriminate].
    intros [= <- <-]. simpl. eauto 10.
Qed.


(** What the loop body does with one additional device. *)
Lemma additionalNetworkDevice_outcome (nic : infrav1alpha1.AdditionalNetworkDevice)
    (w : World) :
  let (r, w') := additionalNetworkDevice nic w in
  match r with
  | Ok config =>
      if hasPoolRef nic then cloudinit.MacAddress config ≠ ""
      else config = cloudinit.zeroNetworkConfigData /\ w' = w
  | Err e =>
      exists (cause : error) (sfx : string),
        e = errors_Wrap cause
              ("unable to get network config data for device=" +:+
               Sprintf_s_dash_s (infrav1alpha1.Device_Name nic) sfx) /\
        sfx ∈ [DefaultSuffix; DefaultSuffix +:+ "6"]
  end.
Proof.
  unfold additionalNetworkDevice, hasPoolRef. unfold_M.
  set (name := infrav1alpha1.Device_Name nic).
  pose proof (strings_Cut_same_base name DefaultSuffix (DefaultSuffix +:+ "6")) as Hcut.
  destruct (infrav1alpha1.IPv4PoolRef nic) as [ref4 |],
           (infrav1alpha1.IPv6PoolRef nic) as [ref6 |]; simpl.
  - (* both pools *)
    rewrite getNetworkConfigDataForDevice_cases. cbv zeta. rewrite Hcut.
    set (mac := extractMACAddress _).
    unfold is_empty at 1. case_bool_decide as Hmac; simpl.
    { eexists _, DefaultSuffix. split; [reflexivity | set_solver]. }
    destruct (findIPAddress (machineScope w) (Sprintf_s_dash_s name DefaultSuffix))
      as [ip4 | err4]; simpl; cycle 1.
    { eexists _, DefaultSuffix. split; [reflexivity | set_solver]. }
    rewrite getNetworkConfigDataForDevice_cases. cbv zeta. unfold netsOf at 1.
    cbn [machineScope]. fold (netsOf w). fold mac.
    unfold is_empty at 1. rewrite bool_decide_eq_false_2 by done. simpl.
    destruct (findIPAddress (machineScope w) (Sprintf_s_dash_s name (DefaultSuffix +:+ "6")))
      as [ip6 | err6]; simpl; cycle 1.
    { eexists _, (DefaultSuffix +:+ "6"). split; [reflexivity | set_solver]. }
    destruct (negb (bool_decide (length (infrav1alpha1.Device_DNSServers nic) = 0))); simpl;
      unfold is_empty; rewrite bool_decide_eq_false_2 by done;
      rewrite bool_decide_eq_true_2 by done; simpl; done.
  - (* the IPv4 pool only *)
    rewrite getNetworkConfigDataForDevice_cases. cbv zeta.
    unfold is_empty at 1. case_bool_decide as Hmac; simpl.
    { eexists _, DefaultSuffix. split; [reflexivity | set_solver]. }
    destruct (findIPAddress _ _) as [ip4 | err4]; simpl; [done |].
    eexists _, DefaultSuffix. split; [reflexivity | set_solver].
  - (* the IPv6 pool only *)
    rewrite getNetworkConfigDataForDevice_cases. cbv zeta.
    unfold is_empty at 1. case_bool_decide as Hmac; simpl.
    { eexists _, (DefaultSuffix +:+ "6"). split; [reflexivity | set_solver]. }
    destruct (findIPAddress _ _) as [ip6 | err6]; simpl; cycle 1.
    { eexists _, (DefaultSuffix +:+ "6"). split; [reflexivity | set_solver]. }
    destruct (negb (bool_decide (length (infrav1alpha1.Device_DNSServers nic) = 0))); simpl;
      done.
  - (* no pool *)
    by destruct w.
Qed.


(** What the loop over the additional devices returns. *)
Lemma additionalNetworkDevices_loop_outcome
    (nics : list infrav1alpha1.AdditionalNetworkDevice)
    (acc : list cloudinit.NetworkConfigData) (w : World) :
  match (additionalNetworkDevices_loop nics acc w).1 with
  | Ok records =>
      exists new : list cloudinit.NetworkConfigData,
        records = acc ++ new /\
        Forall (fun config => cloudinit.MacAddress config ≠ "") new /\
        length new = length (filter (fun nic => hasPoolRef nic = true) nics)
  | Err e => wrappedResolverError e nics
  end.
Proof.
  revert acc w. induction nics as [| nic rest IH]; intros acc w.
  - simpl. exists []. by rewrite app_nil_r.
  - cbn [additionalNetworkDevices_loop]. unfold mbind, M_bind at 1.
    pose proof (additionalNetworkDevice_outcome nic w) as Hnic.
    destruct (additionalNetworkDevice nic w) as [[config | e] w1]; cycle 1.
    { simpl. destruct Hnic as (cause & sfx & -> & Hsfx).
      exists cause, nic, sfx. split; [by left | done]. }
    rewrite filter_cons.
    destruct (hasPoolRef nic) eqn:Href.
    + rewrite decide_True by done. unfold is_empty.
      rewrite bool_decide_eq_false_2 by done. cbn [negb].
      specialize (IH (acc ++ [config]) w1).
      destruct (additionalNetworkDevices_loop rest (acc ++ [config]) w1).1 as [records | e].
      * destruct IH as (new & -> & Hnew & Hlen). exists (config :: new).
        split; [by rewrite <- app_assoc |]. split; [by constructor |]. simpl. by rewrite Hlen.
      * destruct IH as (cause & nic' & sfx & Hin & Hsfx & ->).
        exists cause, nic', sfx. split; [by right | done].
    + rewrite decide_False by done. destruct Hnic as [-> ->]. simpl.
      specialize (IH acc w).
      destruct (additionalNetworkDevices_loop rest acc w).1 as [records | e]; [done |].
      destruct IH as (cause & nic' & sfx & Hin & Hsfx & ->).
      exists cause, nic', sfx. split; [by right | done].
Qed.

(** X10. The records of the additional devices: one for each device that
    draws from a pool, in order, each with a MAC address; a device
    without a pool reference is skipped. *)
Theorem additional_devices_records (network : infrav1alpha1.NetworkSpec) (w : World)
    (records : list cloudinit.NetworkConfigData) :
  (getAdditionalNetworkDevices network w).1 = Ok records ->
  Forall (fun config => cloudinit.MacAddress config ≠ "") records /\
  length records =
    length (filter (fun nic => hasPoolRef nic = true) (infrav1alpha1.AdditionalDevices network)) /\
  length records ≤ length (infrav1alpha1.AdditionalDevices network).
Proof.
  unfold getAdditionalNetworkDevices. intros Hrun.
  pose proof (additionalNetworkDevices_loop_outcome
                (infrav1alpha1.AdditionalDevices network) [] w) as Hloop.
  rewrite Hrun in Hloop. destruct Hloop as (new & -> & Hnew & Hlen). simpl.
  split; [done |]. split; [done |]. rewrite Hlen. apply length_filter.
Qed.

(** X11. Every error of [getAdditionalNetworkDevices] is an error of the
    resolver for one of the two device names of a device, wrapped; the
    error for differing MAC addresses is never returned, since both
    names of a device are cut to the same name. *)
Theorem additional_devices_errors (network : infrav1alpha1.NetworkSpec) (w : World)
    (e : error) :
  (getAdditionalNetworkDevices network w).1 = Err e ->
  (exists (cause : error) (nic : infrav1alpha1.AdditionalNetworkDevice) (sfx : string),
     nic ∈ infrav1alpha1.AdditionalDevices network /\
     sfx ∈ [DefaultSuffix; DefaultSuffix +:+ "6"] /\
     e = errors_Wrap cause
           ("unable to get network config data for device=" +:+
            Sprintf_s_dash_s (infrav1alpha1.Device_Name nic) sfx)) /\
  e ≠ errors_New "additional network device ipv4 and ipv6 have different mac addresses".
Proof.
  unfold getAdditionalNetworkDevices. intros Hrun.
  pose proof (additionalNetworkDevices_loop_outcome
                (infrav1alpha1.AdditionalDevices network) [] w) as Hloop.
  rewrite Hrun in Hloop. split; [exact Hloop |].
  by destruct Hloop as (cause & nic & sfx & _ & _ & ->).
Qed.

(** The same facts for use in other proofs. *)
Lemma additional_devices_outcome_of (network : infrav1alpha1.NetworkSpec) (w : World)
    (records : list cloudinit.NetworkConfigData) :
  (getAdditionalNetworkDevices network w).1 = Ok records ->
  Forall (fun config => cloudinit.MacAddress config ≠ "") records /\
  length records =
    length (filter (fun nic => hasPoolRef nic = true) (infrav1alpha1.AdditionalDevices network)).
Proof.
  unfold getAdditionalNetworkDevices. intros Hrun.
  pose proof (additionalNetworkDevices_loop_outcome
                (infrav1alpha1.AdditionalDevices network) [] w) as Hloop.
  rewrite Hrun in Hloop. by destruct Hloop as (new & -> & Hnew & Hlen).
Qed.

(** ** The default device *)

(** C3. With an IPv6 pool configured for the default device:
    when an IPv4 pool is configured too, the assembler resolves IPv4 and
    then IPv6; a successful IPv4 resolution always carries a MAC
    address; when the two MAC addresses are equal it returns one record,
    the IPv4 resolution with the address and gateway of the IPv6
    resolution as its IPv6 fields; when they differ it returns the
    dual-stack inconsistency error and no record; and when the IPv4
    device has no MAC address it returns the resolver's error, wrapped
    with the device name, without resolving IPv6.  The IPv6 resolution
    is returned alone when no IPv4 pool is configured. *)
Theorem C3_default_device_dual_stack_amended (w : World) (p6 : list string) :
  infrav1alpha1.IPv6Config (clusterSpecOf w) = Some p6 ->
  (infrav1alpha1.IPv4Config (clusterSpecOf w) ≠ None ->
   (forall (c4 c6 : cloudinit.NetworkConfigData) (w4 w6 : World),
      getNetworkConfigDataForDevice DefaultNetworkDeviceIPV4 w = (Ok c4, w4) ->
      getNetworkConfigDataForDevice DefaultNetworkDeviceIPV6 w4 = (Ok c6, w6) ->
      cloudinit.MacAddress c4 ≠ "" /\
      calls w6 =
        calls w ++ [CallFindIPAddress DefaultNetworkDeviceIPV4;
                    CallFindIPAddress DefaultNetworkDeviceIPV6] /\
      (cloudinit.MacAddress c4 = cloudinit.MacAddress c6 ->
       getDefaultNetworkDevice w =
         (Ok [cloudinit.mkNetworkConfigData (cloudinit.MacAddress c4)
                (cloudinit.IPAddress c4) (cloudinit.IPAddress c6)
                (cloudinit.Gateway c4) (cloudinit.Gateway c6)
                (cloudinit.DNSServers c4)], w6)) /\
      (cloudinit.MacAddress c4 ≠ cloudinit.MacAddress c6 ->
       getDefaultNetworkDevice w =
         (Err (errors_New "default network device ipv4 and ipv6 have different mac addresses"),
          w6))) /\
   (extractMACAddress
      (default "" (netsOf w !! (strings_Cut DefaultNetworkDeviceIPV4 "-").1.1)) = "" ->
    getDefaultNetworkDevice w =
      (Err (errors_Wrap (errors_New "unable to extract mac address")
              ("unable to get network config data for device=" +:+ DefaultNetworkDeviceIPV4)),
       mkWorld (machineScope w) (calls w ++ [CallLoggerError "device has no mac address"])))) /\
  (infrav1alpha1.IPv4Config (clusterSpecOf w) = None ->
   forall (c6 : cloudinit.NetworkConfigData) (w6 : World),
     getNetworkConfigDataForDevice DefaultNetworkDeviceIPV6 w = (Ok c6, w6) ->
     getDefaultNetworkDevice w = (Ok [c6], w6)).
Proof.
  unfold clusterSpecOf. intros H6. split.
  - intros H4.
    destruct (infrav1alpha1.IPv4Config (scope.ProxmoxCluster_Spec (machineScope w)))
      as [p4 |] eqn:E; [clear H4 | done].
    split.
    + intros c4 c6 w4 w6 E4 E6.
      pose proof (getNetworkConfigDataForDevice_Ok _ _ _ _ E4) as (Hmac4 & _ & _ & _ & Hw4).
      pose proof (getNetworkConfigDataForDevice_Ok _ _ _ _ E6) as (_ & _ & _ & _ & Hw6).
      assert (Hrun : getDefaultNetworkDevice w =
                (if negb (bool_decide (cloudinit.MacAddress c4 = cloudinit.MacAddress c6))
                 then Err (errors_New
                             "default network device ipv4 and ipv6 have different mac addresses")
                 else Ok [cloudinit.set_Gateway6 (cloudinit.Gateway c6)
                            (cloudinit.set_IPV6Address (cloudinit.IPAddress c6) c4)], w6)).
      { unfold getDefaultNetworkDevice. unfold_M. rewrite E, H6, E4. simpl. rewrite E6. simpl.
        unfold is_empty. rewrite bool_decide_eq_false_2 by done.
        repeat case_match; reflexivity. }
      rewrite Hrun. split; [done |]. split; [| split].
      * rewrite Hw6, Hw4. simpl. by rewrite <- app_assoc.
      * intros Heq. rewrite (bool_decide_eq_true_2 _ Heq). reflexivity.
      * intros Hne. rewrite (bool_decide_eq_false_2 _ Hne). reflexivity.
    + intros Hmac.
      pose proof (getNetworkConfigDataForDevice_cases DefaultNetworkDeviceIPV4 w) as Hrun.
      cbv zeta in Hrun. rewrite Hmac in Hrun. unfold is_empty in Hrun.
      rewrite bool_decide_eq_true_2 in Hrun by done.
      unfold getDefaultNetworkDevice. unfold_M. rewrite E, Hrun. reflexivity.
  - intros H4 c6 w6 E6.
    unfold getDefaultNetworkDevice. unfold_M. rewrite H4, H6. simpl.
    rewrite E6. reflexivity.
Qed.

(** A successful [getDefaultNetworkDevice] returns one record, with a MAC
    address exactly when a pool is configured. *)
Lemma getDefaultNetworkDevice_outcome (w : World)
    (records : list cloudinit.NetworkConfigData) :
  (getDefaultNetworkDevice w).1 = Ok records ->
  exists config : cloudinit.NetworkConfigData,
    records = [config] /\
    (cloudinit.MacAddress config = "" <->
     infrav1alpha1.IPv4Config (clusterSpecOf w) = None /\
     infrav1alpha1.IPv6Config (clusterSpecOf w) = None).
Proof.
  unfold getDefaultNetworkDevice, clusterSpecOf. unfold_M.
  destruct (infrav1alpha1.IPv4Config _) as [p4 |], (infrav1alpha1.IPv6Config _) as [p6 |];
    simpl.
  - rewrite getNetworkConfigDataForDevice_cases. cbv zeta.
    unfold is_empty at 1. case_bool_decide as Hmac4; simpl; [done |].
    destruct (findIPAddress _ DefaultNetworkDeviceIPV4) as [ip4 | err4]; simpl; [| done].
    rewrite getNetworkConfigDataForDevice_cases. cbv zeta.
    unfold is_empty at 1. case_bool_decide as Hmac6; simpl; [done |].
    destruct (findIPAddress _ DefaultNetworkDeviceIPV6) as [ip6 | err6]; simpl; [| done].
    unfold is_empty. rewrite bool_decide_eq_false_2 by done.
    case_bool_decide; simpl; [| done].
    intros [= <-]. eexists. split; [reflexivity |]. simpl. split; [done | by intros []].
  - rewrite getNetworkConfigDataForDevice_cases. cbv zeta.
    unfold is_empty at 1. case_bool_decide as Hmac4; simpl; [done |].
    destruct (findIPAddress _ DefaultNetworkDeviceIPV4) as [ip4 | err4]; simpl; [| done].
    intros [= <-]. eexists. split; [reflexivity |]. simpl. split; [done | by intros []].
  - rewrite getNetworkConfigDataForDevice_cases. cbv zeta.
    unfold is_empty at 1. case_bool_decide as Hmac6; simpl; [done |].
    destruct (findIPAddress _ DefaultNetworkDeviceIPV6) as [ip6 | err6]; simpl; [| done].
    intros [= <-]. eexists. split; [reflexivity |]. simpl. split; [done | by intros []].
  - intros [= <-]. eexists. split; [reflexivity |]. done.
Qed.

(** X9. The default device: the assembler returns exactly one record for it;
    the record has a MAC address exactly when the cluster has a pool
    configured, and with no pool it is the empty record, returned
    without any call. *)
Theorem default_device_one_record (w : World) :
  (forall records : list cloudinit.NetworkConfigData,
     (getDefaultNetworkDevice w).1 = Ok records ->
     exists config : cloudinit.NetworkConfigData,
       records = [config] /\
       (cloudinit.MacAddress config = "" <->
        infrav1alpha1.IPv4Config (clusterSpecOf w) = None /\
        infrav1alpha1.IPv6Config (clusterSpecOf w) = None)) /\
  (infrav1alpha1.IPv4Config (clusterSpecOf w) = None ->
   infrav1alpha1.IPv6Config (clusterSpecOf w) = None ->
   getDefaultNetworkDevice w = (Ok [cloudinit.zeroNetworkConfigData], w)).
Proof.
  split; [intros records; apply getDefaultNetworkDevice_outcome |].
  unfold getDefaultNetworkDevice, clusterSpecOf. unfold_M.
  intros -> ->. by destruct w.
Qed.

(** The loop body answers the same whatever was called before. *)
Lemma additionalNetworkDevice_same_scope (nic : infrav1alpha1.AdditionalNetworkDevice)
    (w w2 : World) :
  machineScope w2 = machineScope w ->
  (additionalNetworkDevice nic w2).1 = (additionalNetworkDevice nic w).1.
Proof.
  intros Hs.
  destruct (reads_run _ (additionalNetworkDevice nic) w (additionalNetworkDevice_reads nic))
    as (r & l & _ & _ & Hind).
  by rewrite (Hind w2 Hs), (Hind w eq_refl).
Qed.

(** The record of a device that draws from a pool carries the MAC
    address of the VM device it stands for. *)
Lemma additionalNetworkDevice_mac (nic : infrav1alpha1.AdditionalNetworkDevice) (w : World)
    (config : cloudinit.NetworkConfigData) :
  hasPoolRef nic = true ->
  (additionalNetworkDevice nic w).1 = Ok config ->
  cloudinit.MacAddress config = deviceMac w nic.
Proof.
  unfold additionalNetworkDevice, hasPoolRef, deviceMac. unfold_M.
  set (name := infrav1alpha1.Device_Name nic).
  pose proof (strings_Cut_same_base name DefaultSuffix (DefaultSuffix +:+ "6")) as Hcut.
  destruct (infrav1alpha1.IPv4PoolRef nic) as [ref4 |],
           (infrav1alpha1.IPv6PoolRef nic) as [ref6 |]; simpl; intros Href.
  - rewrite getNetworkConfigDataForDevice_cases. cbv zeta.
    set (mac := extractMACAddress _).
    unfold is_empty at 1. case_bool_decide as Hmac; simpl; [done |].
    destruct (findIPAddress (machineScope w) (Sprintf_s_dash_s name DefaultSuffix))
      as [ip4 | err4]; simpl; [| done].
    rewrite getNetworkConfigDataForDevice_cases. cbv zeta. unfold netsOf at 1.
    cbn [machineScope]. fold (netsOf w). rewrite <- Hcut. fold mac.
    unfold is_empty at 1. rewrite bool_decide_eq_false_2 by done. simpl.
    destruct (findIPAddress (machineScope w) (Sprintf_s_dash_s name (DefaultSuffix +:+ "6")))
      as [ip6 | err6]; simpl; [| done].
    destruct (negb (bool_decide (length (infrav1alpha1.Device_DNSServers nic) = 0))); simpl;
      unfold is_empty; rewrite bool_decide_eq_false_2 by done;
      rewrite bool_decide_eq_true_2 by done; simpl; by intros [= <-].
  - rewrite getNetworkConfigDataForDevice_cases. cbv zeta.
    unfold is_empty at 1. case_bool_decide as Hmac; simpl; [done |].
    destruct (findIPAddress _ _) as [ip4 | err4]; simpl; [| done]. by intros [= <-].
  - rewrite getNetworkConfigDataForDevice_cases. cbv zeta. rewrite <- Hcut.
    unfold is_empty at 1. case_bool_decide as Hmac; simpl; [done |].
    destruct (findIPAddress _ _) as [ip6 | err6]; simpl; [| done].
    destruct (negb (bool_decide (length (infrav1alpha1.Device_DNSServers nic) = 0))); simpl;
      by intros [= <-].
  - done.
Qed.

(** The loop appends, in the order of the devices, what its body
    returns for each device that draws from a pool. *)
Lemma additionalNetworkDevices_loop_order
    (nics : list infrav1alpha1.AdditionalNetworkDevice)
    (acc records : list cloudinit.NetworkConfigData) (w : World) :
  (additionalNetworkDevices_loop nics acc w).1 = Ok records ->
  exists new : list cloudinit.NetworkConfigData,
    records = acc ++ new /\
    Forall2 (fun nic config => (additionalNetworkDevice nic w).1 = Ok config)
      (filter (fun nic => hasPoolRef nic = true) nics) new.
Proof.
  revert acc w. induction nics as [| nic rest IH]; intros acc w.
  - simpl. intros [= <-]. exists []. by rewrite app_nil_r.
  - cbn [additionalNetworkDevices_loop]. unfold mbind, M_bind at 1.
    pose proof (additionalNetworkDevice_outcome nic w) as Hnic.
    destruct (reads_run _ (additionalNetworkDevice nic) w (additionalNetworkDevice_reads nic))
      as (r & l & _ & Hrun & _).
    rewrite Hrun in Hnic |- *.
    destruct r as [config | e]; [| done].
    rewrite filter_cons.
    destruct (hasPoolRef nic) eqn:Href.
    + rewrite decide_True by done. unfold is_empty.
      rewrite bool_decide_eq_false_2 by done. cbn [negb].
      intros Hloop. destruct (IH _ _ Hloop) as (new & -> & Hnew).
      exists (config :: new). split; [by rewrite <- app_assoc |].
      constructor; [by rewrite Hrun |].
      eapply Forall2_impl; [exact Hnew |]. intros nic' config' Hrec. simpl in Hrec.
      by rewrite (additionalNetworkDevice_same_scope nic' w
                    (mkWorld (machineScope w) (calls w ++ l)) eq_refl) in Hrec.
    + rewrite decide_False by done. destruct Hnic as [-> Hw]. simpl.
      rewrite Hw. apply IH.
Qed.

(** Records returned for devices that draw from a pool carry the MAC
    addresses of these devices, one by one. *)
Lemma additionalNetworkDevices_macs (w : World)
    (nics : list infrav1alpha1.AdditionalNetworkDevice)
    (configs : list cloudinit.NetworkConfigData) :
  Forall (fun nic => hasPoolRef nic = true) nics ->
  Forall2 (fun nic config => (additionalNetworkDevice nic w).1 = Ok config) nics configs ->
  map cloudinit.MacAddress configs = map (deviceMac w) nics.
Proof.
  intros Hall Hrec. induction Hrec as [| nic config nics configs Hrun _ IH]; [done |].
  apply Forall_cons in Hall as [Href Hall]. simpl. f_equal.
  - by apply additionalNetworkDevice_mac.
  - by apply IH.
Qed.

(** X12. With a pool configured for the cluster, the records the assembler
    returns are the record of the default device followed by the records
    of the additional devices that draw from a pool, in the order of the
    devices: the k-th of them is what the loop body returns for the k-th
    such device and carries its MAC address.  Every record has a MAC
    address, and there is one record more than there are such devices. *)
Theorem assembler_records_have_mac (w : World) (records : list cloudinit.NetworkConfigData) :
  infrav1alpha1.IPv4Config (clusterSpecOf w) ≠ None \/
  infrav1alpha1.IPv6Config (clusterSpecOf w) ≠ None ->
  (getNetworkConfigData w).1 = Ok records ->
  exists (config : cloudinit.NetworkConfigData) (rest : list cloudinit.NetworkConfigData),
    records = config :: rest /\
    (getDefaultNetworkDevice w).1 = Ok [config] /\
    (getAdditionalNetworkDevices (infrav1alpha1.mkNetworkSpec (additionalDevicesOf (machineScope w)))
       w).1 = Ok rest /\
    Forall2 (fun nic config => (additionalNetworkDevice nic w).1 = Ok config)
      (filter (fun nic => hasPoolRef nic = true) (additionalDevicesOf (machineScope w))) rest /\
    map cloudinit.MacAddress rest =
      map (deviceMac w)
        (filter (fun nic => hasPoolRef nic = true) (additionalDevicesOf (machineScope w))) /\
    Forall (fun config => cloudinit.MacAddress config ≠ "") records /\
    length records =
      1 + length (filter (fun nic => hasPoolRef nic = true) (additionalDevicesOf (machineScope w))).
Proof.
  intros Hpool. unfold getNetworkConfigData. unfold_M.
  pose proof (getDefaultNetworkDevice_outcome w) as Hone.
  destruct (reads_run _ getDefaultNetworkDevice w getDefaultNetworkDevice_reads)
    as (rd & ld & _ & Hrund & _).
  rewrite Hrund in Hone |- *. simpl in Hone |- *.
  destruct rd as [defaultConfig | err]; [| done].
  destruct (Hone defaultConfig eq_refl) as (config & -> & Hmac).
  set (network := ptr_Deref _ infrav1alpha1.zeroNetworkSpec).
  set (w1 := mkWorld (machineScope w) (calls w ++ ld)).
  destruct (reads_run _ (getAdditionalNetworkDevices network) w
              (additionalNetworkDevices_loop_reads _ []))
    as (ra & la & _ & _ & Hinda).
  pose proof (Hinda w1 eq_refl) as Hw1. pose proof (Hinda w eq_refl) as Hw.
  destruct (getAdditionalNetworkDevices network w1) as [ra1 w2]. simpl in Hw1. subst ra1.
  destruct ra as [additionalConfig | err]; [| done]. simpl.
  intros [= <-]. exists config, additionalConfig. split; [done |]. split; [done |].
  assert (Hnet : infrav1alpha1.mkNetworkSpec (additionalDevicesOf (machineScope w)) = network).
  { unfold additionalDevicesOf. fold network. by destruct network. }
  assert (Hdevices : additionalDevicesOf (machineScope w) =
                     infrav1alpha1.AdditionalDevices network) by done.
  rewrite Hnet, Hdevices. split; [done |].
  destruct (additional_devices_outcome_of network w additionalConfig Hw) as [Hmacs Hlen].
  destruct (additionalNetworkDevices_loop_order _ [] additionalConfig w Hw)
    as (new & Hnew & Horder).
  simpl in Hnew. subst new.
  split; [exact Horder |]. split; [| split].
  - apply additionalNetworkDevices_macs; [| exact Horder].
    apply Forall_forall. by intros nic [Href _]%list_elem_of_filter.
  - constructor; [| done]. intros Hempty. apply Hmac in Hempty as [H4 H6].
    destruct Hpool; contradiction.
  - simpl. by rewrite Hlen.
Qed.

(** X7. The payload is the value the secret holds under the key [value]:
    [getBootstrapData] succeeds exactly when the machine names a secret,
    the secret can be fetched and it has that key.  The secret is asked
    for once, and not at all when the machine names none. *)
Theorem getBootstrapData_value (w : World) :
  (forall value : list byte,
     (getBootstrapData w).1 = Ok value <->
     exists (name : string) (data : gmap string (list byte)),
       scope.DataSecretName (machineScope w) = Some name /\
       GetBootstrapSecret (machineScope w) = Ok data /\
       data !! "value" = Some value) /\
  calls (getBootstrapData w).2 =
    calls w ++
    match scope.DataSecretName (machineScope w) with
    | None => [CallLoggerInfo "machine has no bootstrap data."]
    | Some _ => [CallGetBootstrapSecret]
    end.
Proof.
  unfold getBootstrapData, call_GetBootstrapSecret. unfold_M.
  destruct (scope.DataSecretName (machineScope w)) as [name |]; simpl; cycle 1.
  { split; [| done]. intros value. split; [done | by intros (? & ? & ? & _)]. }
  destruct (GetBootstrapSecret (machineScope w)) as [data | e]; simpl; cycle 1.
  { split; [| done]. intros value. split; [done | by intros (? & ? & _ & ? & _)]. }
  destruct (data !! "value") as [value' |] eqn:Hvalue; simpl.
  - split; [| done]. intros value. split.
    + intros [= <-]. eauto.
    + intros (name' & data' & _ & [= <-] & Hvalue'). congruence.
  - split; [| done]. intros value. split; [done |].
    intros (name' & data' & _ & [= <-] & Hvalue'). congruence.
Qed.

End AssemblerProperties.

(** ** The further properties at work on concrete inputs *)

Section MoreWitnesses.

Import Samples MoreSamples passes.

Ltac not_elem :=
  let Hin := fresh "Hin" in
  intros Hin;
  repeat (apply elem_of_cons in Hin as [Hin | Hin]; [discriminate |]);
  by apply elem_of_nil in Hin.

Ltac solve_wellFormed :=
  split; [vm_compute; repeat (constructor; [not_elem |]); constructor
         | vm_compute; repeat (constructor; [done |]); constructor].

Lemma SetInClusterIPPoolRef_adds_once_witness :
  proxmoxcluster.poolNames
    (proxmoxcluster.SetInClusterIPPoolRef (Some "pool-v6") sample_cluster) =
    ["pool-v4"; "pool-v6"] /\
  proxmoxcluster.SetInClusterIPPoolRef (Some "pool-v6")
    (proxmoxcluster.SetInClusterIPPoolRef (Some "pool-v6") sample_cluster) =
    proxmoxcluster.SetInClusterIPPoolRef (Some "pool-v6") sample_cluster.
Proof.
  split; [reflexivity |].
  apply (SetInClusterIPPoolRef_adds_once "pool-v6" sample_cluster). discriminate.
Defined.

Lemma AddNodeLocation_keeps_wellFormed_witness :
  exists c' : proxmoxcluster.ProxmoxCluster,
    proxmoxcluster.AddNodeLocation (location "cp-3" "pve3") true sample_cluster = Some c' /\
    proxmoxcluster.wellFormed true c' /\
    proxmoxcluster.HasMachine "cp-3" true c' = true /\
    proxmoxcluster.GetNode "cp-3" true c' =
      (if proxmoxcluster.HasMachine "cp-3" true sample_cluster
       then proxmoxcluster.GetNode "cp-3" true sample_cluster else "pve3") /\
    (forall m : string, m ≠ "cp-3" ->
       proxmoxcluster.GetNode m true c' = proxmoxcluster.GetNode m true sample_cluster) /\
    proxmoxcluster.locationsOf false c' = proxmoxcluster.locationsOf false sample_cluster.
Proof.
  apply (AddNodeLocation_keeps_wellFormed (location "cp-3" "pve3") true sample_cluster).
  - discriminate.
  - solve_wellFormed.
Defined.

Lemma AddNodeLocation_idempotent_witness :
  exists c' : proxmoxcluster.ProxmoxCluster,
    proxmoxcluster.AddNodeLocation (location "cp-3" "pve3") true sample_cluster = Some c' /\
    proxmoxcluster.AddNodeLocation (location "cp-3" "pve3") true c' = Some c'.
Proof.
  apply (AddNodeLocation_idempotent (location "cp-3" "pve3") true sample_cluster).
  - discriminate.
  - solve_wellFormed.
Defined.

Lemma AddNodeLocation_empty_node_twice_witness :
  exists c1 c2 : proxmoxcluster.ProxmoxCluster,
    proxmoxcluster.AddNodeLocation (location "cp-3" "") true sample_cluster = Some c1 /\
    proxmoxcluster.AddNodeLocation (location "cp-3" "") true c1 = Some c2 /\
    proxmoxcluster.HasMachine "cp-3" true c2 = false /\
    proxmoxcluster.locationsOf true c2 =
      proxmoxcluster.locationsOf true sample_cluster ++
      [location "cp-3" ""; location "cp-3" ""] /\
    ~ NoDup (proxmoxcluster.machines true c2).
Proof.
  apply (AddNodeLocation_empty_node_twice (location "cp-3" "") true sample_cluster).
  - reflexivity.
  - vm_compute. not_elem.
Defined.

Lemma UpdateNodeLocation_then_GetNode_witness :
  exists (c' : proxmoxcluster.ProxmoxCluster) (b : bool),
    proxmoxcluster.UpdateNodeLocation "cp-2" "pve3" true sample_cluster = Some (c', b) /\
    proxmoxcluster.GetNode "cp-2" true c' = "pve3" /\
    (forall m' : string, m' ≠ "cp-2" ->
       proxmoxcluster.GetNode m' true c' = proxmoxcluster.GetNode m' true sample_cluster) /\
    proxmoxcluster.locationsOf false c' = proxmoxcluster.locationsOf false sample_cluster.
Proof.
  apply (UpdateNodeLocation_then_GetNode "cp-2" "pve3" true sample_cluster).
  vm_compute. repeat (constructor; [done |]). constructor.
Defined.

Lemma RemoveNodeLocation_removes_witness :
  exists c' : proxmoxcluster.ProxmoxCluster,
    proxmoxcluster.RemoveNodeLocation "cp-1" true sample_cluster = Some c' /\
    proxmoxcluster.locationsOf true c' =
      filter (fun loc => corev1.Name (proxmoxcluster.Machine loc) ≠ "cp-1")
        (proxmoxcluster.locationsOf true sample_cluster) /\
    proxmoxcluster.HasMachine "cp-1" true c' = false /\
    (forall m' : string, m' ≠ "cp-1" ->
       proxmoxcluster.GetNode m' true c' = proxmoxcluster.GetNode m' true sample_cluster) /\
    proxmoxcluster.locationsOf false c' = proxmoxcluster.locationsOf false sample_cluster /\
    proxmoxcluster.wellFormed true c'.
Proof.
  apply (RemoveNodeLocation_removes "cp-1" true sample_cluster). solve_wellFormed.
Defined.

Lemma RemoveNodeLocation_after_AddNodeLocation_witness :
  exists c1 c2 : proxmoxcluster.ProxmoxCluster,
    proxmoxcluster.AddNodeLocation (location "cp-3" "pve2") true doubled_cluster = Some c1 /\
    proxmoxcluster.RemoveNodeLocation "cp-3" true c1 = Some c2 /\
    proxmoxcluster.locationsOf true c1 =
      proxmoxcluster.locationsOf true doubled_cluster ++ [location "cp-3" "pve2"] /\
    proxmoxcluster.locationsOf true c2 = proxmoxcluster.locationsOf true doubled_cluster /\
    proxmoxcluster.locationsOf false c2 = proxmoxcluster.locationsOf false doubled_cluster /\
    proxmoxcluster.InClusterIPPoolRef (proxmoxcluster.Status c2) =
      proxmoxcluster.InClusterIPPoolRef (proxmoxcluster.Status doubled_cluster).
Proof.
  apply (RemoveNodeLocation_after_AddNodeLocation (location "cp-3" "pve2") true
           doubled_cluster).
  - discriminate.
  - vm_compute. not_elem.
Defined.

Lemma RemoveNodeLocation_duplicate_panics_witness :
  proxmoxcluster.RemoveNodeLocation "cp-1" true doubled_cluster = None.
Proof.
  apply (RemoveNodeLocation_duplicate_panics "cp-1" true doubled_cluster []
           [location "cp-2" "pve2"] (location "cp-1" "pve1") (location "cp-1" "pve3")).
  - reflexivity.
  - apply not_elem_of_nil.
  - reflexivity.
  - discriminate.
  - reflexivity.
Defined.

Lemma GetReservableMemoryBytes_saturates_witness :
  @goproxmox.GetReservableMemoryBytes (testAPI 31 false) "test" [] =
    ((0%Z, None), [goproxmox.ReqNode "test"; goproxmox.ReqVirtualMachines "test"]).
Proof.
  refine (proj1
    (@GetReservableMemoryBytes_saturates (testAPI 31 false) "test" test_node
       [goproxmox.mkVirtualMachine 100 31 false] [] _ _ _ _)).
  - reflexivity.
  - reflexivity.
  - unfold goproxmox.is_uint64, goproxmox.uint64_max. simpl. lia.
  - constructor; [| constructor].
    unfold goproxmox.is_uint64, goproxmox.uint64_max. simpl. lia.
Defined.

Lemma FindVMResource_finds_witness :
  (@goproxmox.FindVMResource (testAPI 29 false) 101 []).1 =
    Ok (goproxmox.mkClusterResource 101 "test").
Proof.
  apply (proj1
    (@FindVMResource_finds (testAPI 29 false) 101
       [goproxmox.mkClusterResource 100 "test"; goproxmox.mkClusterResource 101 "test"] []
       eq_refl eq_refl)).
  exists 1. split; [reflexivity |]. split; [reflexivity |].
  intros [| j] other; simpl; [| lia]. intros [= <-] _. discriminate.
Defined.

Lemma reconcile_assembler_failure_witness :
  let (r, w') := @reconcileBootstrapData sampleHelpers goodCollaborators missing_device_world in
  r = (false,
       Some (errors_Wrap (errors_New "unable to extract mac address")
               "unable to get network config data for device=net5-inet")) /\
  bootstrapDataProvided w' = None.
Proof.
  pose proof (@reconcile_assembler_failure sampleHelpers goodCollaborators missing_device_world
                [x23; x63; x6c; x6f; x75; x64]
                (errors_Wrap (errors_New "unable to extract mac address")
                   "unable to get network config data for device=net5-inet")
                eq_refl eq_refl) as Hthm.
  destruct (@reconcileBootstrapData sampleHelpers goodCollaborators missing_device_world)
    as [r w'].
  destruct Hthm as (Hr & _ & Hflag & _); [vm_compute; reflexivity.. |].
  split; [exact Hr | exact Hflag].
Defined.

Lemma reconcile_injection_failure_witness :
  let (r, w') := @reconcileBootstrapData sampleHelpers failingInjection ready_world in
  r = (false, Some (errors_Wrap (errors_New "iso upload failed") "cloud-init iso inject failed")) /\
  bootstrapDataProvided w' = None /\
  conditionsOf w' =
    [clusterv1.mkCondition "VMProvisioned" clusterv1.ConditionFalse
       clusterv1.ConditionSeverityWarning "VMProvisionFailed" "iso upload failed"].
Proof.
  pose proof (@reconcile_injection_failure sampleHelpers failingInjection ready_world
                [x23; x63; x6c; x6f; x75; x64]
                [cloudinit.mkNetworkConfigData "92:60:a0:5b:22:c2" "10.10.10.12/24"
                   "2001:db8::2/64" "10.10.10.1" "2001:db8::1" ["8.8.8.8"; "8.8.4.4"]]
                (errors_New "iso upload failed") eq_refl eq_refl) as Hthm.
  destruct (@reconcileBootstrapData sampleHelpers failingInjection ready_world) as [r w'].
  destruct Hthm as (Hr & Hscope & Hflag & _); [vm_compute; reflexivity.. |].
  split; [exact Hr |]. split; [exact Hflag |].
  unfold conditionsOf. rewrite Hscope. reflexivity.
Defined.

Lemma resolver_strips_suffix_witness :
  @getNetworkConfigDataForDevice sampleHelpers goodCollaborators
    (Sprintf_s_dash_s "net5" "inet") ready_world =
    (Err (errors_New "unable to extract mac address"),
     mkWorld (machineScope ready_world) [CallLoggerError "device has no mac address"]).
Proof.
  refine (proj1
    (@resolver_strips_suffix sampleHelpers goodCollaborators "net5" "inet" ready_world _) _);
    reflexivity.
Defined.

Lemma additional_devices_records_witness :
  length
    [cloudinit.mkNetworkConfigData "b4:87:18:bf:a3:60" "196.168.100.124/24"
       "2001:db8:1::2/64" "196.168.100.254" "2001:db8:1::1" ["1.1.1.1"]] =
  length (filter (fun nic => hasPoolRef nic = true) [nic_no_pool; nic_dual_dns]).
Proof.
  refine (proj1 (proj2
    (@additional_devices_records sampleHelpers goodCollaborators
       (infrav1alpha1.mkNetworkSpec [nic_no_pool; nic_dual_dns]) two_devices_world _ _))).
  vm_compute. reflexivity.
Defined.

Lemma additional_devices_errors_witness :
  errors_Wrap (errors_New "unable to extract mac address")
    "unable to get network config data for device=net5-inet" ≠
  errors_New "additional network device ipv4 and ipv6 have different mac addresses".
Proof.
  refine (proj2
    (@additional_devices_errors sampleHelpers goodCollaborators
       (infrav1alpha1.mkNetworkSpec [nic_missing]) missing_device_world _ _)).
  vm_compute. reflexivity.
Defined.

Lemma assembler_records_have_mac_witness :
  exists (config : cloudinit.NetworkConfigData) (rest : list cloudinit.NetworkConfigData),
    [cloudinit.mkNetworkConfigData "92:60:a0:5b:22:c2" "10.10.10.12/24" "2001:db8::2/64"
       "10.10.10.1" "2001:db8::1" ["8.8.8.8"; "8.8.4.4"];
     cloudinit.mkNetworkConfigData "de:ad:be:ef:00:02" "172.16.0.5/16" ""
       "172.16.0.1" "" ["8.8.8.8"; "8.8.4.4"];
     cloudinit.mkNetworkConfigData "b4:87:18:bf:a3:60" "196.168.100.124/24"
       "2001:db8:1::2/64" "196.168.100.254" "2001:db8:1::1" ["1.1.1.1"]] = config :: rest /\
    (@getDefaultNetworkDevice sampleHelpers threeNicCollaborators three_devices_world).1 =
      Ok [config] /\
    (@getAdditionalNetworkDevices sampleHelpers threeNicCollaborators
       (infrav1alpha1.mkNetworkSpec (additionalDevicesOf (machineScope three_devices_world)))
       three_devices_world).1 = Ok rest /\
    Forall2
      (fun nic config =>
         (@additionalNetworkDevice sampleHelpers threeNicCollaborators nic
            three_devices_world).1 = Ok config)
      (filter (fun nic => hasPoolRef nic = true)
         (additionalDevicesOf (machineScope three_devices_world))) rest /\
    map cloudinit.MacAddress rest =
      map (@deviceMac sampleHelpers three_devices_world)
        (filter (fun nic => hasPoolRef nic = true)
           (additionalDevicesOf (machineScope three_devices_world))) /\
    Forall (fun config => cloudinit.MacAddress config ≠ "")
      [cloudinit.mkNetworkConfigData "92:60:a0:5b:22:c2" "10.10.10.12/24" "2001:db8::2/64"
         "10.10.10.1" "2001:db8::1" ["8.8.8.8"; "8.8.4.4"];
       cloudinit.mkNetworkConfigData "de:ad:be:ef:00:02" "172.16.0.5/16" ""
         "172.16.0.1" "" ["8.8.8.8"; "8.8.4.4"];
       cloudinit.mkNetworkConfigData "b4:87:18:bf:a3:60" "196.168.100.124/24"
         "2001:db8:1::2/64" "196.168.100.254" "2001:db8:1::1" ["1.1.1.1"]] /\
    3 = 1 + length (filter (fun nic => hasPoolRef nic = true)
                      (additionalDevicesOf (machineScope three_devices_world))).
Proof.
  apply (@assembler_records_have_mac sampleHelpers threeNicCollaborators three_devices_world).
  - left. discriminate.
  - vm_compute. reflexivity.
Defined.

Lemma C3_default_device_dual_stack_amended_witness :
  @getDefaultNetworkDevice sampleHelpers goodCollaborators ready_world =
    (Ok [cloudinit.mkNetworkConfigData "92:60:a0:5b:22:c2" "10.10.10.12/24" "2001:db8::2/64"
           "10.10.10.1" "2001:db8::1" ["8.8.8.8"; "8.8.4.4"]],
     ready_world_after ["net0-inet"; "net0-inet6"]) /\
  @getDefaultNetworkDevice sampleHelpers goodCollaborators no_default_mac_world =
    (Err (errors_Wrap (errors_New "unable to extract mac address")
            "unable to get network config data for device=net0-inet"),
     mkWorld (machineScope no_default_mac_world) [CallLoggerError "device has no mac address"]) /\
  @getDefaultNetworkDevice sampleHelpers goodCollaborators ipv6_only_world =
    (Ok [ready_ipv6], mkWorld (machineScope ipv6_only_world) [CallFindIPAddress "net0-inet6"]).
Proof.
  split; [| split].
  - refine (proj1 (proj2 (proj2
      (proj1 (proj1
        (@C3_default_device_dual_stack_amended sampleHelpers goodCollaborators ready_world
           ["2001:db8::2-2001:db8::9"] _) _)
        ready_ipv4 ready_ipv6 (ready_world_after ["net0-inet"])
        (ready_world_after ["net0-inet"; "net0-inet6"]) _ _))) _);
      [reflexivity | discriminate | reflexivity | reflexivity | reflexivity].
  - refine (proj2 (proj1
      (@C3_default_device_dual_stack_amended sampleHelpers goodCollaborators
         no_default_mac_world ["2001:db8::2-2001:db8::9"] _) _) _);
      [reflexivity | discriminate | reflexivity].
  - refine (proj2
      (@C3_default_device_dual_stack_amended sampleHelpers goodCollaborators
         ipv6_only_world ["2001:db8::2-2001:db8::9"] _) _ ready_ipv6 _ _);
      reflexivity.
Defined.

(** C3, as stated, fails on a machine whose VM has no first device while
    both pools are configured: the IPv4 side contributes no MAC address,
    and the assembler returns the resolver's error, not the IPv6
    resolution. *)
Lemma C3_ipv4_without_mac_counterexample :
  infrav1alpha1.IPv4Config (clusterSpecOf no_default_mac_world) =
    Some ["10.10.10.10-10.10.10.20"] /\
  infrav1alpha1.IPv6Config (clusterSpecOf no_default_mac_world) =
    Some ["2001:db8::2-2001:db8::9"] /\
  @extractMACAddress sampleHelpers (default "" (netsOf no_default_mac_world !! "net0")) = "" /\
  (@getDefaultNetworkDevice sampleHelpers goodCollaborators no_default_mac_world).1 =
    Err (errors_Wrap (errors_New "unable to extract mac address")
           "unable to get network config data for device=net0-inet") /\
  ~ (exists c6 : cloudinit.NetworkConfigData,
       (@getDefaultNetworkDevice sampleHelpers goodCollaborators no_default_mac_world).1 =
         Ok [c6]).
Proof.
  split; [reflexivity |]. split; [reflexivity |]. split; [reflexivity |].
  split; [reflexivity |]. intros [c6 Hc6]. vm_compute in Hc6. discriminate Hc6.
Qed.

Lemma C5_flag_lifecycle_witness :
  @passes.fullSuccess goodCollaborators sampleHelpers ready_world /\
  let (r, w') := @reconcileBootstrapData sampleHelpers goodCollaborators ready_world in
  r = (false, None) /\ bootstrapDataProvided w' = Some true.
Proof.
  assert (Hfull : @passes.fullSuccess goodCollaborators sampleHelpers ready_world).
  { split; [reflexivity |]. split; [reflexivity |]. split; [reflexivity |].
    eexists _, _. split; [reflexivity |]. split; reflexivity. }
  split; [exact Hfull |].
  pose proof (@C5_flag_lifecycle sampleHelpers goodCollaborators ready_world) as Hthm.
  destruct (@reconcileBootstrapData sampleHelpers goodCollaborators ready_world) as [r w'].
  destruct Hthm as (Hset & _). destruct (Hset Hfull) as (Hr & Hflag & _).
  split; [exact Hr | exact Hflag].
Defined.

End MoreWitnesses.
